(** * KiloTravel: reservation, capacity and tracking lifecycle

    A shallow embedding of the database side of the application
    (supabase/migrations: tables, triggers, row level security policies)
    and of the client handlers that talk to it
    (ReservationModal.handleSubmit, Track.handleSearch,
    Offers.fetchOffers, AdminDashboard.handleSaveOffer,
    handleUpdateStatus and handleDeleteOffer).

    Tables are lists of rows, in insertion order.  A statement either
    yields the next database or a PostgreSQL error, in which case the
    statement is rolled back as a whole.  INTEGER columns are 32-bit:
    arithmetic that leaves the range raises [integer_out_of_range]. *)

From Stdlib Require Import ZArith List String Ascii Bool Lia Sorted.
Import ListNotations.
Open Scope Z_scope.

(** ** Values *)

(** UUID and TIMESTAMP WITH TIME ZONE values are taken as integers; only
    equality (uuid) and the identity of [now()] (timestamps) matter. *)
Definition uuid := Z.
Definition timestamptz := Z.

(** CREATE TYPE public.shipment_status AS ENUM (...) *)
Inductive shipment_status : Type :=
| pending_submission
| received_at_origin
| in_transit
| arrived_at_destination
| delivered.

(** CREATE TYPE public.app_role AS ENUM ('admin', 'user') *)
Inductive app_role : Type :=
| admin
| user.

Definition shipment_status_eqb (a b : shipment_status) : bool :=
  match a, b with
  | pending_submission, pending_submission
  | received_at_origin, received_at_origin
  | in_transit, in_transit
  | arrived_at_destination, arrived_at_destination
  | delivered, delivered => true
  | _, _ => false
  end.

Definition app_role_eqb (a b : app_role) : bool :=
  match a, b with
  | admin, admin | user, user => true
  | _, _ => false
  end.

(** SQL equality on a nullable TEXT: NULL equals nothing, so a UNIQUE
    column may hold several NULLs. *)
Definition text_eq (a b : option string) : bool :=
  match a, b with
  | Some x, Some y => String.eqb x y
  | _, _ => false
  end.

(** ** Errors and the statement monad *)

Inductive pg_error : Type :=
| integer_out_of_range
| numeric_value_out_of_range
| not_null_violation
| unique_violation
| foreign_key_violation
| rls_violation          (* new row violates row-level security policy *)
| multiple_rows.         (* maybeSingle() on more than one row *)

Inductive result (A : Type) : Type :=
| Ok (a : A)
| Err (e : pg_error).
Arguments Ok {A} a.
Arguments Err {A} e.

Definition bind {A B : Type} (m : result A) (k : A -> result B) : result B :=
  match m with
  | Ok a => k a
  | Err e => Err e
  end.

Notation "' x <- m ;; k" := (bind m (fun x => k))
  (at level 61, x pattern, m at next level, right associativity).

Definition guard (b : bool) (e : pg_error) : result unit :=
  if b then Ok tt else Err e.

Fixpoint mapM {A B : Type} (f : A -> result B) (l : list A) : result (list B) :=
  match l with
  | [] => Ok []
  | a :: l' => 'b <- f a ;; 'bs <- mapM f l' ;; Ok (b :: bs)
  end.

(** INTEGER is int4. *)
Definition int4_min : Z := - 2 ^ 31.
Definition int4_max : Z := 2 ^ 31 - 1.

Definition in_int4 (z : Z) : bool := (int4_min <=? z) && (z <=? int4_max).

Definition int4 (z : Z) : result Z :=
  if in_int4 z then Ok z else Err integer_out_of_range.

(** ** Tables *)

Module CargoOffer.

(** CREATE TABLE public.cargo_offers.  [price_per_kilo] DECIMAL(10,2) is
    kept in hundredths; [is_active] is BOOLEAN DEFAULT true without
    NOT NULL, hence an option. *)
Record row : Type := mk {
  id : uuid;
  departure_city : string;
  departure_country : string;
  departure_country_flag : string;
  arrival_city : string;
  arrival_country : string;
  arrival_country_flag : string;
  departure_date : string;
  total_kilos : Z;
  available_kilos : Z;
  price_per_kilo : Z;
  is_active : option bool;
  created_at : timestamptz;
  updated_at : timestamptz
}.

Definition with_available_kilos (v : Z) (o : row) : row :=
  mk (id o) (departure_city o) (departure_country o)
     (departure_country_flag o) (arrival_city o) (arrival_country o)
     (arrival_country_flag o) (departure_date o) (total_kilos o) v
     (price_per_kilo o) (is_active o) (created_at o) (updated_at o).

Definition with_updated_at (t : timestamptz) (o : row) : row :=
  mk (id o) (departure_city o) (departure_country o)
     (departure_country_flag o) (arrival_city o) (arrival_country o)
     (arrival_country_flag o) (departure_date o) (total_kilos o)
     (available_kilos o) (price_per_kilo o) (is_active o) (created_at o) t.

End CargoOffer.

Module Reservation.

(** CREATE TABLE public.reservations.  [tracking_code] is TEXT UNIQUE and
    nullable; every other column here is NOT NULL. *)
Record row : Type := mk {
  id : uuid;
  user_id : uuid;
  cargo_offer_id : uuid;
  kilos_reserved : Z;
  shipment_description : option string;
  status : shipment_status;
  tracking_code : option string;
  status_updated_at : timestamptz;
  created_at : timestamptz;
  updated_at : timestamptz
}.

Definition with_user_id (u : uuid) (r : row) : row :=
  mk (id r) u (cargo_offer_id r) (kilos_reserved r)
     (shipment_description r) (status r) (tracking_code r) (status_updated_at r)
     (created_at r) (updated_at r).

Definition with_tracking_code (c : option string) (r : row) : row :=
  mk (id r) (user_id r) (cargo_offer_id r) (kilos_reserved r)
     (shipment_description r) (status r) c (status_updated_at r)
     (created_at r) (updated_at r).

Definition with_status (s : shipment_status) (r : row) : row :=
  mk (id r) (user_id r) (cargo_offer_id r) (kilos_reserved r)
     (shipment_description r) s (tracking_code r) (status_updated_at r)
     (created_at r) (updated_at r).

Definition with_status_updated_at (t : timestamptz) (r : row) : row :=
  mk (id r) (user_id r) (cargo_offer_id r) (kilos_reserved r)
     (shipment_description r) (status r) (tracking_code r) t
     (created_at r) (updated_at r).

Definition with_updated_at (t : timestamptz) (r : row) : row :=
  mk (id r) (user_id r) (cargo_offer_id r) (kilos_reserved r)
     (shipment_description r) (status r) (tracking_code r)
     (status_updated_at r) (created_at r) t.

End Reservation.

Module StatusHistory.

(** CREATE TABLE public.status_history *)
Record row : Type := mk {
  id : uuid;
  reservation_id : uuid;
  status : shipment_status;
  notes : option string;
  created_at : timestamptz
}.

End StatusHistory.

(** The database: [auth_users] stands for auth.users(id), the target of
    the user_id foreign keys. *)
Record db : Type := mkdb {
  auth_users : list uuid;
  user_roles : list (uuid * app_role);
  cargo_offers : list CargoOffer.row;
  reservations : list Reservation.row;
  status_history : list StatusHistory.row
}.

Definition with_cargo_offers (l : list CargoOffer.row) (d : db) : db :=
  mkdb (auth_users d) (user_roles d) l (reservations d) (status_history d).

Definition with_reservations (l : list Reservation.row) (d : db) : db :=
  mkdb (auth_users d) (user_roles d) (cargo_offers d) l (status_history d).

Definition with_status_history (l : list StatusHistory.row) (d : db) : db :=
  mkdb (auth_users d) (user_roles d) (cargo_offers d) (reservations d) l.

(** What a statement reads from its environment: the transaction time
    [now()], the value [gen_random_uuid()] returns for the row it
    creates, and the successive results of [random()].  random() returns
    a double precision value in [0, 1) that is a multiple of 2^-52;
    [random k] is the numerator of the [k]-th result over 2^52. *)
Record env : Type := mkenv {
  now : timestamptz;
  gen_random_uuid : uuid;
  random : nat -> Z
}.

(** ** Row level security *)

(** public.has_role(_user_id, _role): EXISTS over user_roles.  With
    [auth.uid()] NULL (no session) the comparison is never true. *)
Definition has_role (d : db) (_user_id : option uuid) (_role : app_role) : bool :=
  match _user_id with
  | None => false
  | Some u =>
      existsb (fun ur => Z.eqb (fst ur) u && app_role_eqb (snd ur) _role)
              (user_roles d)
  end.

(** [auth.uid() = x] in a policy expression. *)
Definition uid_is (uid : option uuid) (x : uuid) : bool :=
  match uid with
  | None => false
  | Some u => Z.eqb u x
  end.

Inductive command : Type := SELECT | INSERT | UPDATE | DELETE | ALL.

Definition command_eqb (a b : command) : bool :=
  match a, b with
  | SELECT, SELECT | INSERT, INSERT | UPDATE, UPDATE
  | DELETE, DELETE | ALL, ALL => true
  | _, _ => false
  end.

(** CREATE POLICY name ON table FOR cmd USING (qual) WITH CHECK (check).
    The expressions see the database, [auth.uid()] and the row. *)
Record policy (Row : Type) : Type := mkpolicy {
  polname : string;
  polcmd : command;
  polqual : option (db -> option uuid -> Row -> bool);
  polwithcheck : option (db -> option uuid -> Row -> bool)
}.
Arguments mkpolicy {Row}.
Arguments polname {Row}.
Arguments polcmd {Row}.
Arguments polqual {Row}.
Arguments polwithcheck {Row}.

Definition applies {Row : Type} (cmd : command) (p : policy Row) : bool :=
  command_eqb (polcmd p) cmd || command_eqb (polcmd p) ALL.

(** Permissive policies are OR-ed; with row level security enabled and
    no applicable policy the row is refused. *)
Definition rls_using {Row : Type} (ps : list (policy Row)) (cmd : command)
  (d : db) (uid : option uuid) (r : Row) : bool :=
  existsb (fun p => applies cmd p &&
                    match polqual p with
                    | Some q => q d uid r
                    | None => true
                    end) ps.

(** WITH CHECK falls back on the USING expression when it is absent. *)
Definition rls_with_check {Row : Type} (ps : list (policy Row)) (cmd : command)
  (d : db) (uid : option uuid) (r : Row) : bool :=
  existsb (fun p => applies cmd p &&
                    match polwithcheck p, polqual p with
                    | Some c, _ => c d uid r
                    | None, Some q => q d uid r
                    | None, None => true
                    end) ps.

(** RLS Policies for cargo_offers (public read, admin write) *)
Definition cargo_offers_policies : list (policy CargoOffer.row) :=
  [ mkpolicy "Anyone can view active cargo offers" SELECT
      (Some (fun _ _ o => match CargoOffer.is_active o with
                          | Some b => b
                          | None => false
                          end)) None;
    mkpolicy "Admins can view all cargo offers" SELECT
      (Some (fun d uid _ => has_role d uid admin)) None;
    mkpolicy "Admins can create cargo offers" INSERT
      None (Some (fun d uid _ => has_role d uid admin));
    mkpolicy "Admins can update cargo offers" UPDATE
      (Some (fun d uid _ => has_role d uid admin)) None;
    mkpolicy "Admins can delete cargo offers" DELETE
      (Some (fun d uid _ => has_role d uid admin)) None ].

(** RLS Policies for reservations *)
Definition reservations_policies : list (policy Reservation.row) :=
  [ mkpolicy "Users can view their own reservations" SELECT
      (Some (fun _ uid r => uid_is uid (Reservation.user_id r))) None;
    mkpolicy "Admins can view all reservations" SELECT
      (Some (fun d uid _ => has_role d uid admin)) None;
    mkpolicy "Users can create reservations" INSERT
      None (Some (fun _ uid r => uid_is uid (Reservation.user_id r)));
    mkpolicy "Admins can update reservations" UPDATE
      (Some (fun d uid _ => has_role d uid admin)) None;
    mkpolicy "Users can update their pending reservations" UPDATE
      (Some (fun _ uid r =>
               uid_is uid (Reservation.user_id r) &&
               shipment_status_eqb (Reservation.status r) pending_submission))
      None ].

(** ** Tracking codes *)

(** PostgreSQL [substr(string, start, count)], 1-based: the characters at
    positions [start .. start+count-1] that exist. *)
Definition substr (s : string) (start count : Z) : string :=
  let stop := start + count in
  let from := Z.max start 1 in
  if stop <=? from then EmptyString
  else substring (Z.to_nat (from - 1)) (Z.to_nat (stop - from)) s.

Definition chars : string := "ABCDEFGHIJKLMNOPQRSTUVWXYZ0123456789".

(** Double precision arithmetic.  The values generate_tracking_code
    computes with are multiples of 2^-52 below 2^6; such a value is held
    as its numerator over 2^52, so [float8_one] is 1.0.  An operation
    returns its exact result rounded to the nearest double precision
    value (53 significant bits), ties to even: [float8_round] keeps a
    numerator below 2^53 and rounds a larger one to a multiple of
    2^shift. *)
Definition float8_one : Z := 2 ^ 52.

Definition float8_round (n : Z) : Z :=
  let shift := Z.log2 n - 52 in
  if shift <=? 0 then n
  else
    let q := Z.shiftr n shift in
    let rest := n - Z.shiftl q shift in
    let half := Z.shiftl 1 (shift - 1) in
    Z.shiftl (if (half <? rest) || ((half =? rest) && Z.odd q) then q + 1 else q) shift.

(** [floor(random() * length(chars) + 1)::integer] for the draw
    [v / 2^52]: the integer length(chars) is converted exactly, the
    product and the sum are rounded, floor and the cast are exact. *)
Definition random_index (v : Z) : Z :=
  float8_round (float8_round (v * Z.of_nat (String.length chars)) + float8_one)
  / float8_one.

(** FOR i IN 1..8 LOOP result := result || substr(chars, ..., 1); the
    [k]-th call of random() in the statement returns [rnd k]. *)
Fixpoint tracking_code_loop (n k : nat) (rnd : nat -> Z) (result : string) : string :=
  match n with
  | O => result
  | S n' =>
      tracking_code_loop n' (S k) rnd
        (result ++ substr chars (random_index (rnd k)) 1)%string
  end.

Definition generate_tracking_code (rnd : nat -> Z) : string :=
  tracking_code_loop 8 0 rnd "KG-".

(** BEFORE INSERT ON reservations: set_tracking_code() *)
Definition set_tracking_code (e : env) (NEW : Reservation.row) : Reservation.row :=
  match Reservation.tracking_code NEW with
  | None => Reservation.with_tracking_code
              (Some (generate_tracking_code (random e))) NEW
  | Some _ => NEW
  end.

(** ** Triggers *)

Inductive tg_op : Type := TG_INSERT | TG_UPDATE | TG_DELETE.

(** Tables carrying an [updated_at] column, for
    update_updated_at_column(). *)
Class Timestamped (Row : Type) : Type :=
  set_updated_at : timestamptz -> Row -> Row.

#[export] Instance cargo_offer_timestamped : Timestamped CargoOffer.row :=
  CargoOffer.with_updated_at.

#[export] Instance reservation_timestamped : Timestamped Reservation.row :=
  Reservation.with_updated_at.

(** BEFORE UPDATE: NEW.updated_at = now() *)
Definition update_updated_at_column {Row : Type} `{Timestamped Row}
  (e : env) (NEW : Row) : Row :=
  set_updated_at (now e) NEW.

(** UPDATE public.cargo_offers SET available_kilos = f(available_kilos)
    WHERE id = oid, run by a SECURITY DEFINER function (no row level
    security); the BEFORE UPDATE trigger update_cargo_offers_updated_at
    fires on each updated row. *)
Definition update_cargo_offers_available (e : env) (oid : uuid) (f : Z -> Z)
  (d : db) : result db :=
  'offers <- mapM (fun o =>
                     if Z.eqb (CargoOffer.id o) oid then
                       'v <- int4 (f (CargoOffer.available_kilos o)) ;;
                       Ok (update_updated_at_column e
                             (CargoOffer.with_available_kilos v o))
                     else Ok o) (cargo_offers d) ;;
  Ok (with_cargo_offers offers d).

(** AFTER INSERT OR DELETE ON reservations: update_available_kilos() *)
Definition update_available_kilos (e : env) (TG_OP : tg_op)
  (OLD NEW : option Reservation.row) (d : db) : result db :=
  match TG_OP, NEW, OLD with
  | TG_INSERT, Some new, _ =>
      update_cargo_offers_available e (Reservation.cargo_offer_id new)
        (fun available_kilos => available_kilos - Reservation.kilos_reserved new) d
  | TG_DELETE, _, Some old =>
      update_cargo_offers_available e (Reservation.cargo_offer_id old)
        (fun available_kilos => available_kilos + Reservation.kilos_reserved old) d
  | _, _, _ => Ok d
  end.

(** INSERT INTO public.status_history (reservation_id, status) VALUES ...
    with the column defaults, the primary key and the foreign key. *)
Definition insert_status_history (e : env) (reservation_id : uuid)
  (status : shipment_status) (d : db) : result db :=
  let h := StatusHistory.mk (gen_random_uuid e) reservation_id status None (now e) in
  '_ <- guard (negb (existsb (fun x => Z.eqb (StatusHistory.id x) (StatusHistory.id h))
                       (status_history d))) unique_violation ;;
  '_ <- guard (existsb (fun r => Z.eqb (Reservation.id r) reservation_id)
                 (reservations d)) foreign_key_violation ;;
  Ok (with_status_history (status_history d ++ [h]) d).

(** BEFORE UPDATE ON reservations: log_status_change().  [status] is
    NOT NULL, so IS DISTINCT FROM is plain inequality. *)
Definition log_status_change (e : env) (OLD NEW : Reservation.row) (d : db)
  : result (db * Reservation.row) :=
  if negb (shipment_status_eqb (Reservation.status OLD) (Reservation.status NEW)) then
    'd1 <- insert_status_history e (Reservation.id NEW) (Reservation.status NEW) d ;;
    Ok (d1, Reservation.with_status_updated_at (now e) NEW)
  else Ok (d, NEW).

(** ** Statements on reservations *)

Module ReservationInsert.

(** Tables.reservations.Insert: an absent optional column takes its
    DEFAULT. *)
Record row : Type := mk {
  id : option uuid;
  user_id : uuid;
  cargo_offer_id : uuid;
  kilos_reserved : Z;
  shipment_description : option string;
  status : option shipment_status;
  tracking_code : option string;
  status_updated_at : option timestamptz;
  created_at : option timestamptz;
  updated_at : option timestamptz
}.

End ReservationInsert.

Definition default {A : Type} (v : option A) (dflt : A) : A :=
  match v with
  | Some a => a
  | None => dflt
  end.

Definition reservation_defaults (e : env) (v : ReservationInsert.row) : Reservation.row :=
  Reservation.mk
    (default (ReservationInsert.id v) (gen_random_uuid e))
    (ReservationInsert.user_id v)
    (ReservationInsert.cargo_offer_id v)
    (ReservationInsert.kilos_reserved v)
    (ReservationInsert.shipment_description v)
    (default (ReservationInsert.status v) pending_submission)
    (ReservationInsert.tracking_code v)
    (default (ReservationInsert.status_updated_at v) (now e))
    (default (ReservationInsert.created_at v) (now e))
    (default (ReservationInsert.updated_at v) (now e)).

(** supabase.from('reservations').insert(v) as [uid]: column defaults,
    the BEFORE INSERT trigger, the INSERT policy, the key constraints,
    then the AFTER INSERT trigger.  Any error aborts the statement. *)
Definition insert_reservation (e : env) (uid : option uuid)
  (v : ReservationInsert.row) (d : db) : result db :=
  '_ <- int4 (ReservationInsert.kilos_reserved v) ;;
  let NEW := set_tracking_code e (reservation_defaults e v) in
  '_ <- guard (rls_with_check reservations_policies INSERT d uid NEW) rls_violation ;;
  '_ <- guard (negb (existsb (fun r => Z.eqb (Reservation.id r) (Reservation.id NEW))
                       (reservations d))) unique_violation ;;
  '_ <- guard (negb (existsb (fun r => text_eq (Reservation.tracking_code r)
                                         (Reservation.tracking_code NEW))
                       (reservations d))) unique_violation ;;
  '_ <- guard (existsb (Z.eqb (Reservation.user_id NEW)) (auth_users d))
         foreign_key_violation ;;
  '_ <- guard (existsb (fun o => Z.eqb (CargoOffer.id o) (Reservation.cargo_offer_id NEW))
                 (cargo_offers d)) foreign_key_violation ;;
  update_available_kilos e TG_INSERT None (Some NEW)
    (with_reservations (reservations d ++ [NEW]) d).

Fixpoint foldM {A S : Type} (f : S -> A -> result S) (l : list A) (s : S) : result S :=
  match l with
  | [] => Ok s
  | a :: l' => 's1 <- f s a ;; foldM f l' s1
  end.

(** DELETE FROM public.reservations on the rows [which] selects, with
    no row level security in the way (table owner, or a cascade): the
    rows go, ON DELETE CASCADE removes their status_history, and the
    AFTER DELETE trigger fires for each deleted row. *)
Definition delete_reservations (e : env) (which : Reservation.row -> bool)
  (d : db) : result db :=
  let gone := filter which (reservations d) in
  let d1 := with_reservations (filter (fun r => negb (which r)) (reservations d)) d in
  let d2 := with_status_history
              (filter (fun h => negb (existsb (fun r => Z.eqb (Reservation.id r)
                                                          (StatusHistory.reservation_id h))
                                        gone))
                      (status_history d1)) d1 in
  foldM (fun s OLD => update_available_kilos e TG_DELETE (Some OLD) None s) gone d2.


(** UPDATE public.reservations SET status = s WHERE where_, as [uid].
    Rows outside the SELECT and UPDATE policies are skipped silently.
    On each updated row the BEFORE UPDATE triggers run in name order
    (log_reservation_status_change, update_reservations_updated_at),
    then the new row is checked against the UPDATE policies. *)
Fixpoint update_reservations_rows (e : env) (uid : option uuid)
  (where_ : Reservation.row -> bool) (s : shipment_status)
  (rows : list Reservation.row) (d : db) : result (list Reservation.row * db) :=
  match rows with
  | [] => Ok ([], d)
  | OLD :: rest =>
      if where_ OLD &&
         rls_using reservations_policies SELECT d uid OLD &&
         rls_using reservations_policies UPDATE d uid OLD
      then
        '(d1, NEW1) <- log_status_change e OLD (Reservation.with_status s OLD) d ;;
        let NEW2 := update_updated_at_column e NEW1 in
        '_ <- guard (rls_with_check reservations_policies UPDATE d1 uid NEW2)
               rls_violation ;;
        '(rest', d2) <- update_reservations_rows e uid where_ s rest d1 ;;
        Ok (NEW2 :: rest', d2)
      else
        '(rest', d2) <- update_reservations_rows e uid where_ s rest d ;;
        Ok (OLD :: rest', d2)
  end.

Definition update_reservations_status (e : env) (uid : option uuid)
  (where_ : Reservation.row -> bool) (s : shipment_status) (d : db) : result db :=
  '(rows, d1) <- update_reservations_rows e uid where_ s (reservations d) d ;;
  Ok (with_reservations rows d1).



(** ** Statements on cargo_offers *)

(** A numeric form field: [parseInt] yields an integer or NaN, and NaN
    is sent as JSON null.  The price, read with [parseFloat], is taken
    as the number of hundredths the DECIMAL(10,2) column keeps of it. *)
Inductive js_number : Type :=
| num (z : Z)
| NaN.

Module OfferForm.

(** Partial<CargoOffer> as the admin form holds it: [None] is an
    undefined field, which the request body leaves out. *)
Record t : Type := mk {
  departure_city : option string;
  departure_country : option string;
  departure_country_flag : option string;
  arrival_city : option string;
  arrival_country : option string;
  arrival_country_flag : option string;
  departure_date : option string;
  total_kilos : option js_number;
  available_kilos : option js_number;
  price_per_kilo : option js_number;
  is_active : option bool
}.

End OfferForm.

(** An INTEGER NOT NULL column receiving a form number. *)
Definition integer_not_null (v : js_number) : result Z :=
  match v with
  | num z => int4 z
  | NaN => Err not_null_violation
  end.

(** A DECIMAL(10,2) NOT NULL column receiving a form number, counted in
    hundredths once rounded to the scale of the column. *)
Definition decimal_10_2_not_null (v : js_number) : result Z :=
  match v with
  | num z => if Z.abs z <? 10 ^ 10 then Ok z else Err numeric_value_out_of_range
  | NaN => Err not_null_violation
  end.

(** SET col = v when the field is present, else keep the column. *)
Definition set_column (column : js_number -> result Z) (v : option js_number)
  (old : Z) : result Z :=
  match v with
  | Some n => column n
  | None => Ok old
  end.

(** The SET list of handleSaveOffer's update on one row. *)
Definition apply_offer_form (f : OfferForm.t) (o : CargoOffer.row) : result CargoOffer.row :=
  'total <- set_column integer_not_null (OfferForm.total_kilos f)
              (CargoOffer.total_kilos o) ;;
  'available <- set_column integer_not_null (OfferForm.available_kilos f)
                  (CargoOffer.available_kilos o) ;;
  'price <- set_column decimal_10_2_not_null (OfferForm.price_per_kilo f)
              (CargoOffer.price_per_kilo o) ;;
  Ok (CargoOffer.mk (CargoOffer.id o)
        (default (OfferForm.departure_city f) (CargoOffer.departure_city o))
        (default (OfferForm.departure_country f) (CargoOffer.departure_country o))
        (default (OfferForm.departure_country_flag f) (CargoOffer.departure_country_flag o))
        (default (OfferForm.arrival_city f) (CargoOffer.arrival_city o))
        (default (OfferForm.arrival_country f) (CargoOffer.arrival_country o))
        (default (OfferForm.arrival_country_flag f) (CargoOffer.arrival_country_flag o))
        (default (OfferForm.departure_date f) (CargoOffer.departure_date o))
        total available price
        (match OfferForm.is_active f with
         | Some b => Some b
         | None => CargoOffer.is_active o
         end)
        (CargoOffer.created_at o) (CargoOffer.updated_at o)).

(** supabase.from('cargo_offers').update(form).eq('id', oid) as [uid]:
    rows outside the SELECT and UPDATE policies are skipped; the table
    has no CHECK constraint; update_cargo_offers_updated_at fires. *)
Definition update_cargo_offer (e : env) (uid : option uuid) (oid : uuid)
  (f : OfferForm.t) (d : db) : result db :=
  'offers <- mapM (fun o =>
                     if Z.eqb (CargoOffer.id o) oid &&
                        rls_using cargo_offers_policies SELECT d uid o &&
                        rls_using cargo_offers_policies UPDATE d uid o
                     then
                       'NEW <- apply_offer_form f o ;;
                       let NEW1 := update_updated_at_column e NEW in
                       '_ <- guard (rls_with_check cargo_offers_policies UPDATE d uid NEW1)
                              rls_violation ;;
                       Ok NEW1
                     else Ok o) (cargo_offers d) ;;
  Ok (with_cargo_offers offers d).

(** A NOT NULL column without DEFAULT that the request leaves out. *)
Definition required {A : Type} (v : option A) : result A :=
  match v with
  | Some a => Ok a
  | None => Err not_null_violation
  end.

(** supabase.from('cargo_offers').insert(form) as [uid], with
    [is_active: offerForm.is_active ?? true]. *)
Definition insert_cargo_offer (e : env) (uid : option uuid) (f : OfferForm.t)
  (d : db) : result db :=
  'departure_city <- required (OfferForm.departure_city f) ;;
  'departure_country <- required (OfferForm.departure_country f) ;;
  'departure_country_flag <- required (OfferForm.departure_country_flag f) ;;
  'arrival_city <- required (OfferForm.arrival_city f) ;;
  'arrival_country <- required (OfferForm.arrival_country f) ;;
  'arrival_country_flag <- required (OfferForm.arrival_country_flag f) ;;
  'departure_date <- required (OfferForm.departure_date f) ;;
  'total <- bind (required (OfferForm.total_kilos f)) integer_not_null ;;
  'available <- bind (required (OfferForm.available_kilos f)) integer_not_null ;;
  'price <- bind (required (OfferForm.price_per_kilo f)) decimal_10_2_not_null ;;
  let NEW := CargoOffer.mk (gen_random_uuid e) departure_city departure_country
               departure_country_flag arrival_city arrival_country
               arrival_country_flag departure_date total available price
               (Some (default (OfferForm.is_active f) true)) (now e) (now e) in
  '_ <- guard (rls_with_check cargo_offers_policies INSERT d uid NEW) rls_violation ;;
  '_ <- guard (negb (existsb (fun o => Z.eqb (CargoOffer.id o) (CargoOffer.id NEW))
                       (cargo_offers d))) unique_violation ;;
  Ok (with_cargo_offers (cargo_offers d ++ [NEW]) d).

(** supabase.from('cargo_offers').delete().eq('id', oid) as [uid]; the
    foreign key of reservations is ON DELETE CASCADE, and the cascade
    deletes fire the reservations triggers. *)
Definition delete_cargo_offer (e : env) (uid : option uuid) (oid : uuid)
  (d : db) : result db :=
  let hit := fun o => Z.eqb (CargoOffer.id o) oid &&
                      rls_using cargo_offers_policies SELECT d uid o &&
                      rls_using cargo_offers_policies DELETE d uid o in
  let gone := filter hit (cargo_offers d) in
  let d1 := with_cargo_offers (filter (fun o => negb (hit o)) (cargo_offers d)) d in
  delete_reservations e
    (fun r => existsb (fun o => Z.eqb (CargoOffer.id o) (Reservation.cargo_offer_id r)) gone)
    d1.

(** ** Client: ReservationModal *)

Module ReservationModal.

(** interface CargoOffer of the modal: the offer as it was listed. *)
Record CargoOffer : Type := mkOffer {
  id : uuid;
  departure_city : string;
  departure_country : string;
  departure_country_flag : string;
  arrival_city : string;
  arrival_country : string;
  arrival_country_flag : string;
  departure_date : string;
  available_kilos : Z;
  price_per_kilo : Z
}.

(** The row as the listing query ([select('*')]) hands it to the modal. *)
Definition listed (o : CargoOffer.row) : CargoOffer :=
  mkOffer (CargoOffer.id o) (CargoOffer.departure_city o)
    (CargoOffer.departure_country o) (CargoOffer.departure_country_flag o)
    (CargoOffer.arrival_city o) (CargoOffer.arrival_country o)
    (CargoOffer.arrival_country_flag o) (CargoOffer.departure_date o)
    (CargoOffer.available_kilos o) (CargoOffer.price_per_kilo o).

Inductive outcome : Type :=
| to_login                   (* navigate('/login') *)
| select_between_1_and (n : Z)   (* toast: Veuillez selectionner entre 1 et n kg *)
| confirmed                  (* toast: Reservation confirmee; navigate('/dashboard') *)
| failed (e : pg_error).     (* toast: error.message *)

(** handleSubmit: [user] is the session's user id, [offer] the modal's
    prop, [kilos] and [description] its state. *)
Definition handleSubmit (e : env) (user : option uuid) (offer : CargoOffer)
  (kilos : Z) (description : string) (d : db) : outcome * db :=
  match user with
  | None => (to_login, d)
  | Some user_id =>
      if (kilos <? 1) || (kilos >? available_kilos offer) then
        (select_between_1_and (available_kilos offer), d)
      else
        match insert_reservation e (Some user_id)
                (ReservationInsert.mk None user_id (id offer) kilos
                   (if String.eqb description EmptyString then None else Some description)
                   None None None None None) d with
        | Ok d' => (confirmed, d')
        | Err err => (failed err, d)
        end
  end.

End ReservationModal.

(** ** Client: Track *)

(** JavaScript strings are taken as ASCII text. *)
Definition is_ascii (s : string) : bool :=
  forallb (fun c => (nat_of_ascii c <? 128)%nat) (list_ascii_of_string s).

(** String.prototype.trim and toUpperCase on ASCII text. *)
Definition is_white_space (c : ascii) : bool :=
  match nat_of_ascii c with
  | 9%nat | 10%nat | 11%nat | 12%nat | 13%nat | 32%nat => true
  | _ => false
  end.

Fixpoint trimStart (s : string) : string :=
  match s with
  | EmptyString => EmptyString
  | String c s' => if is_white_space c then trimStart s' else s
  end.

Fixpoint trimEnd (s : string) : string :=
  match s with
  | EmptyString => EmptyString
  | String c s' =>
      match trimEnd s' with
      | EmptyString => if is_white_space c then EmptyString else String c EmptyString
      | t => String c t
      end
  end.

Definition trim (s : string) : string := trimEnd (trimStart s).

Definition upper (c : ascii) : ascii :=
  let n := nat_of_ascii c in
  if (97 <=? n)%nat && (n <=? 122)%nat then ascii_of_nat (n - 32) else c.

Fixpoint toUpperCase (s : string) : string :=
  match s with
  | EmptyString => EmptyString
  | String c s' => String (upper c) (toUpperCase s')
  end.

Module Track.

Module View.

(** The embedded cargo_offers (...) of the select list. *)
Record route : Type := mkRoute {
  departure_city : string;
  departure_country : string;
  departure_country_flag : string;
  arrival_city : string;
  arrival_country : string;
  arrival_country_flag : string;
  departure_date : string
}.

(** The select list of handleSearch: the columns that reach the page. *)
Record Reservation : Type := mkReservation {
  id : uuid;
  tracking_code : option string;
  kilos_reserved : Z;
  shipment_description : option string;
  status : shipment_status;
  status_updated_at : timestamptz;
  created_at : timestamptz;
  cargo_offers : option route
}.

End View.

Definition select_route (o : CargoOffer.row) : View.route :=
  View.mkRoute (CargoOffer.departure_city o) (CargoOffer.departure_country o)
    (CargoOffer.departure_country_flag o) (CargoOffer.arrival_city o)
    (CargoOffer.arrival_country o) (CargoOffer.arrival_country_flag o)
    (CargoOffer.departure_date o).

(** One result row: the reservation's columns and, through the foreign
    key, the offer when the caller may read it (else null). *)
Definition select_row (d : db) (uid : option uuid) (r : Reservation.row)
  : View.Reservation :=
  View.mkReservation (Reservation.id r) (Reservation.tracking_code r)
    (Reservation.kilos_reserved r) (Reservation.shipment_description r)
    (Reservation.status r) (Reservation.status_updated_at r)
    (Reservation.created_at r)
    (option_map select_route
       (find (fun o => Z.eqb (CargoOffer.id o) (Reservation.cargo_offer_id r) &&
                       rls_using cargo_offers_policies SELECT d uid o)
             (cargo_offers d))).

(** .from('reservations').select(...).eq('tracking_code', c): the rows
    the SELECT policies show to [uid] whose code equals [c]. *)
Definition select_by_tracking_code (d : db) (uid : option uuid) (c : string)
  : list View.Reservation :=
  map (select_row d uid)
      (filter (fun r => rls_using reservations_policies SELECT d uid r &&
                        text_eq (Reservation.tracking_code r) (Some c))
              (reservations d)).

(** .maybeSingle() *)
Definition maybeSingle {A : Type} (rows : list A) : result (option A) :=
  match rows with
  | [] => Ok None
  | [a] => Ok (Some a)
  | _ => Err multiple_rows
  end.

Inductive outcome : Type :=
| not_searched                       (* blank input: early return *)
| found (r : View.Reservation)       (* setReservation(data) *)
| no_parcel_found                    (* Aucun colis trouve avec ce code de suivi *)
| search_failed (e : pg_error).      (* setError(err.message) *)

(** handleSearch(code?) with the input field [trackingCode]. *)
Definition handleSearch (uid : option uuid) (code : option string)
  (trackingCode : string) (d : db) : outcome :=
  let searchCode := match code with
                    | Some c => if String.eqb c EmptyString then trackingCode else c
                    | None => trackingCode
                    end in
  if String.eqb (trim searchCode) EmptyString then not_searched
  else
    match maybeSingle (select_by_tracking_code d uid (toUpperCase (trim searchCode))) with
    | Ok (Some data) => found data
    | Ok None => no_parcel_found
    | Err err => search_failed err
    end.

End Track.

(** ** Client: AdminDashboard *)

Module AdminDashboard.

Inductive outcome : Type :=
| nothing
| toast (title : string)
| toast_error (e : pg_error).

(** handleSaveOffer: update the offer being edited, else create one. *)
Definition handleSaveOffer (e : env) (uid : option uuid)
  (editingOffer : option CargoOffer.row) (offerForm : OfferForm.t) (d : db)
  : outcome * db :=
  match editingOffer with
  | Some editing =>
      match update_cargo_offer e uid (CargoOffer.id editing) offerForm d with
      | Ok d' => (toast "Offre mise a jour", d')
      | Err err => (toast_error err, d)
      end
  | None =>
      match insert_cargo_offer e uid offerForm d with
      | Ok d' => (toast "Offre creee", d')
      | Err err => (toast_error err, d)
      end
  end.

(** handleUpdateStatus *)
Definition handleUpdateStatus (e : env) (uid : option uuid)
  (selectedReservation : option uuid) (newStatus : shipment_status) (d : db)
  : outcome * db :=
  match selectedReservation with
  | None => (nothing, d)
  | Some rid =>
      match update_reservations_status e uid
              (fun r => Z.eqb (Reservation.id r) rid) newStatus d with
      | Ok d' => (toast "Statut mis a jour", d')
      | Err err => (toast_error err, d)
      end
  end.

(** handleDeleteOffer, once the confirm() dialog is accepted. *)
Definition handleDeleteOffer (e : env) (uid : option uuid) (id : uuid) (d : db)
  : outcome * db :=
  match delete_cargo_offer e uid id d with
  | Ok d' => (toast "Offre supprimee", d')
  | Err err => (toast_error err, d)
  end.

End AdminDashboard.

(** ** Client: Offers *)

Module Offers.

(** ORDER BY departure_date ASC on ISO dates, as an insertion sort. *)
Fixpoint insert_by_date (o : CargoOffer.row) (l : list CargoOffer.row)
  : list CargoOffer.row :=
  match l with
  | [] => [o]
  | x :: l' =>
      if String.leb (CargoOffer.departure_date o) (CargoOffer.departure_date x)
      then o :: l
      else x :: insert_by_date o l'
  end.

Definition order_by_departure_date (l : list CargoOffer.row) : list CargoOffer.row :=
  fold_right insert_by_date [] l.

(** fetchOffers: .from('cargo_offers').select('*').eq('is_active', true)
    .gt('available_kilos', 0).order('departure_date'), as [uid]. *)
Definition fetchOffers (uid : option uuid) (d : db) : list CargoOffer.row :=
  order_by_departure_date
    (filter (fun o => rls_using cargo_offers_policies SELECT d uid o &&
                      match CargoOffer.is_active o with
                      | Some b => b
                      | None => false
                      end &&
                      (CargoOffer.available_kilos o >? 0))
            (cargo_offers d)).

End Offers.

(** ** Derived notions used in the statements *)

(** The sum of kilos_reserved over the reservations of offer [oid]. *)
Definition reserved_kilos (d : db) (oid : uuid) : Z :=
  fold_right Z.add 0
    (map Reservation.kilos_reserved
       (filter (fun r => Z.eqb (Reservation.cargo_offer_id r) oid) (reservations d))).

(** 0 <= available_kilos <= total_kilos on every offer, and the kilos
    reserved against an offer within its total. *)
Definition capacity_invariant (d : db) : Prop :=
  forall o, In o (cargo_offers d) ->
    0 <= CargoOffer.available_kilos o <= CargoOffer.total_kilos o /\
    reserved_kilos d (CargoOffer.id o) <= CargoOffer.total_kilos o.

(** A reservation accepted through the modal, whatever offer snapshot the
    modal was opened with. *)
Definition submit_step (d d' : db) : Prop :=
  exists e u offer kilos description,
    ReservationModal.handleSubmit e u offer kilos description d
    = (ReservationModal.confirmed, d').

(** The same with the modal holding the offer row as it is stored at the
    time of the submission. *)
Definition fresh_submit_step (d d' : db) : Prop :=
  exists e u o kilos description,
    In o (cargo_offers d) /\
    ReservationModal.handleSubmit e u (ReservationModal.listed o) kilos description d
    = (ReservationModal.confirmed, d').

Inductive fresh_submits : db -> db -> Prop :=
| fresh_submits_refl : forall d, fresh_submits d d
| fresh_submits_step : forall d d1 d2,
    fresh_submits d d1 -> fresh_submit_step d1 d2 -> fresh_submits d d2.

(** The bookkeeping that reservations created through fresh submissions
    keep: primary keys distinct, available within [0, total], and
    reserved + available within total. *)
Definition capacity_ledger (d : db) : Prop :=
  NoDup (map CargoOffer.id (cargo_offers d)) /\
  forall o, In o (cargo_offers d) ->
    0 <= CargoOffer.available_kilos o <= CargoOffer.total_kilos o /\
    reserved_kilos d (CargoOffer.id o) + CargoOffer.available_kilos o
    <= CargoOffer.total_kilos o.

(** The stored available_kilos of offer [oid]. *)
Definition available_of (d : db) (oid : uuid) : option Z :=
  option_map CargoOffer.available_kilos
    (find (fun o => Z.eqb (CargoOffer.id o) oid) (cargo_offers d)).

(** The history rows of reservation [rid] carrying status [s]. *)
Definition history_entries (d : db) (rid : uuid) (s : shipment_status)
  : list StatusHistory.row :=
  filter (fun h => Z.eqb (StatusHistory.reservation_id h) rid &&
                   shipment_status_eqb (StatusHistory.status h) s)
         (status_history d).

(** ^KG-[A-Z0-9]{8}$ *)
(** status_history.reservation_id REFERENCES reservations(id): every
    history row refers to a stored reservation. *)
Definition history_refers_to_reservations (d : db) : bool :=
  forallb (fun h => existsb (fun r => Z.eqb (Reservation.id r)
                                            (StatusHistory.reservation_id h))
                      (reservations d))
          (status_history d).

Definition is_upper_alnum (c : ascii) : bool :=
  let n := nat_of_ascii c in
  ((65 <=? n)%nat && (n <=? 90)%nat) || ((48 <=? n)%nat && (n <=? 57)%nat).

Definition matches_tracking_format (s : string) : bool :=
  match s with
  | String "K" (String "G" (String "-" rest)) =>
      Nat.eqb (String.length rest) 8 &&
      forallb is_upper_alnum (list_ascii_of_string rest)
  | _ => false
  end.




(** Setting is_active to false on offer [oid]. *)
Definition deactivate (oid : uuid) (d : db) : db :=
  with_cargo_offers
    (map (fun o =>
            if Z.eqb (CargoOffer.id o) oid then
              CargoOffer.mk (CargoOffer.id o) (CargoOffer.departure_city o)
                (CargoOffer.departure_country o) (CargoOffer.departure_country_flag o)
                (CargoOffer.arrival_city o) (CargoOffer.arrival_country o)
                (CargoOffer.arrival_country_flag o) (CargoOffer.departure_date o)
                (CargoOffer.total_kilos o) (CargoOffer.available_kilos o)
                (CargoOffer.price_per_kilo o) (Some false)
                (CargoOffer.created_at o) (CargoOffer.updated_at o)
            else o) (cargo_offers d)) d.

(** What the UPDATE of update_available_kilos() makes of one offer row,
    and when its new value fits the column. *)
Definition adjust_available (e : env) (oid : uuid) (f : Z -> Z)
  (o : CargoOffer.row) : CargoOffer.row :=
  if Z.eqb (CargoOffer.id o) oid then
    update_updated_at_column e
      (CargoOffer.with_available_kilos (f (CargoOffer.available_kilos o)) o)
  else o.

Definition adjustable (oid : uuid) (f : Z -> Z) (o : CargoOffer.row) : bool :=
  negb (Z.eqb (CargoOffer.id o) oid) || in_int4 (f (CargoOffer.available_kilos o)).

(** The row an insert stores, and the database a successful insert
    leaves. *)
Definition inserted_row (e : env) (v : ReservationInsert.row) : Reservation.row :=
  set_tracking_code e (reservation_defaults e v).

Definition inserted (e : env) (v : ReservationInsert.row) (d : db) : db :=
  mkdb (auth_users d) (user_roles d)
       (map (adjust_available e (ReservationInsert.cargo_offer_id v)
               (fun a => a - ReservationInsert.kilos_reserved v))
            (cargo_offers d))
       (reservations d ++ [inserted_row e v])
       (status_history d).

(** Every check an insert into reservations goes through. *)
Definition insert_accepted (e : env) (uid : option uuid)
  (v : ReservationInsert.row) (d : db) : bool :=
  in_int4 (ReservationInsert.kilos_reserved v) &&
  rls_with_check reservations_policies INSERT d uid (inserted_row e v) &&
  negb (existsb (fun r => Z.eqb (Reservation.id r) (Reservation.id (inserted_row e v)))
          (reservations d)) &&
  negb (existsb (fun r => text_eq (Reservation.tracking_code r)
                            (Reservation.tracking_code (inserted_row e v)))
          (reservations d)) &&
  existsb (Z.eqb (ReservationInsert.user_id v)) (auth_users d) &&
  existsb (fun o => Z.eqb (CargoOffer.id o) (ReservationInsert.cargo_offer_id v))
    (cargo_offers d) &&
  forallb (adjustable (ReservationInsert.cargo_offer_id v)
             (fun a => a - ReservationInsert.kilos_reserved v))
    (cargo_offers d).

(** The request body handleSubmit sends. *)
Definition modal_insert (user_id : uuid) (offer : ReservationModal.CargoOffer)
  (kilos : Z) (description : string) : ReservationInsert.row :=
  ReservationInsert.mk None user_id (ReservationModal.id offer) kilos
    (if String.eqb description EmptyString then None else Some description)
    None None None None None.

(** The eight symbols the loop of generate_tracking_code appends, from
    the [k]-th draw on. *)
Fixpoint symbols (n k : nat) (rnd : nat -> Z) : string :=
  match n with
  | O => EmptyString
  | S n' => (substr chars (random_index (rnd k)) 1 ++ symbols n' (S k) rnd)%string
  end.

(** The 1-based position in [chars] of a one-symbol string. *)
Definition symbol_index (s : string) : Z :=
  match s with
  | String c EmptyString =>
      match index 0 (String c EmptyString) chars with
      | Some n => Z.of_nat n + 1
      | None => 0
      end
  | _ => 0
  end.



(** ** Sample data *)

Module Sample.

Definition offer1 : CargoOffer.row :=
  CargoOffer.mk 100 "Douala" "Cameroun" "CM" "Paris" "France" "FR"
    "2026-03-01" 20 20 500000 (Some true) 0 0.

Definition offer2 : CargoOffer.row :=
  CargoOffer.mk 200 "Yaounde" "Cameroun" "CM" "Lyon" "France" "FR"
    "2026-04-15" 30 30 450000 (Some true) 0 0.

Definition closed_offer : CargoOffer.row :=
  CargoOffer.mk 300 "Douala" "Cameroun" "CM" "Bruxelles" "Belgique" "BE"
    "2026-05-02" 40 40 480000 (Some false) 0 0.

(** An offer with 5 kg, listed on the page beside the others. *)
Definition small_offer : CargoOffer.row :=
  CargoOffer.mk 400 "Dakar" "Senegal" "SN" "Paris" "France" "FR"
    "2026-06-10" 5 5 520000 (Some true) 0 0.

(** Users 1 and 2 are customers, user 9 is an administrator. *)
Definition db0 : db :=
  mkdb [1; 2; 9] [(1, user); (2, user); (9, user); (9, admin)]
       [offer1; offer2; closed_offer] [] [].

(** Draws of random() that spell AB12CD34: 0, 2/64, 48/64, 50/64, 4/64,
    6/64, 52/64 and 54/64. *)
Definition draws (k : nat) : Z :=
  match k with
  | 0%nat => 0
  | 1%nat => 2 * 2 ^ 46
  | 2%nat => 48 * 2 ^ 46
  | 3%nat => 50 * 2 ^ 46
  | 4%nat => 4 * 2 ^ 46
  | 5%nat => 6 * 2 ^ 46
  | 6%nat => 52 * 2 ^ 46
  | _ => 54 * 2 ^ 46
  end.

(** Draws that spell RRRRRRRR: 31/64 each. *)
Definition draws_r (k : nat) : Z := 31 * 2 ^ 46.

Definition env1 : env := mkenv 1000 501 draws.
Definition env2 : env := mkenv 2000 502 draws_r.
Definition env3 : env := mkenv 3000 503 draws.

(** User 1 reserves 15 kg on offer 100. *)
Definition db1 : db :=
  snd (ReservationModal.handleSubmit env1 (Some 1)
         (ReservationModal.listed offer1) 15 EmptyString db0).

(** User 2, whose modal still shows the 20 kg listed before, reserves
    10 kg on the same offer. *)
Definition db2_stale : db :=
  snd (ReservationModal.handleSubmit env2 (Some 2)
         (ReservationModal.listed offer1) 10 EmptyString db1).



(** The administrator marks reservation 501 as received, which logs one
    history row; user 2 then reserves 5 kg on offer 200. *)
Definition env4 : env := mkenv 4000 504 draws_r.
Definition env5 : env := mkenv 5000 505 draws_r.

Definition db1_received : db :=
  snd (AdminDashboard.handleUpdateStatus env4 (Some 9) (Some 501) received_at_origin db1).

Definition db5 : db :=
  snd (ReservationModal.handleSubmit env5 (Some 2)
         (ReservationModal.listed offer2) 5 EmptyString db1_received).

(** Offer 100 as stored after the first reservation. *)
Definition offer1_reloaded : CargoOffer.row :=
  CargoOffer.mk 100 "Douala" "Cameroun" "CM" "Paris" "France" "FR"
    "2026-03-01" 20 5 500000 (Some true) 0 1000.

End Sample.

(** ** Client: the kilos controls of ReservationModal *)

Module KilosInput.

(** [parseInt(e.target.value) || 1]: NaN and 0 are falsy. *)
Definition parsed_or_1 (v : js_number) : Z :=
  match v with
  | num z => if Z.eqb z 0 then 1 else z
  | NaN => 1
  end.

(** onChange of the number field. *)
Definition onChange (offer : ReservationModal.CargoOffer) (v : js_number) : Z :=
  Z.min (ReservationModal.available_kilos offer) (Z.max 1 (parsed_or_1 v)).

(** onClick of the "-" and "+" buttons. *)
Definition minus (kilos : Z) : Z := Z.max 1 (kilos - 1).

Definition plus (offer : ReservationModal.CargoOffer) (kilos : Z) : Z :=
  Z.min (ReservationModal.available_kilos offer) (kilos + 1).

Inductive event : Type :=
| typed (v : js_number)
| click_minus
| click_plus.

(** setKilos as one control calls it.  "-" is disabled while
    [kilos <= 1] and "+" while [kilos >= offer.available_kilos]: a click
    on a disabled button does nothing. *)
Definition setKilos (offer : ReservationModal.CargoOffer) (kilos : Z) (ev : event) : Z :=
  match ev with
  | typed v => onChange offer v
  | click_minus => if kilos <=? 1 then kilos else minus kilos
  | click_plus =>
      if kilos >=? ReservationModal.available_kilos offer then kilos
      else plus offer kilos
  end.

Definition is_typed (ev : event) : bool :=
  match ev with
  | typed _ => true
  | _ => false
  end.

(** The Offers page mounts the modal once, with [offer] the offer it has
    selected (null when none): useState(1) runs at mount, and selecting
    an offer or closing the dialog changes the prop and leaves [kilos]
    as it is.  With no offer the modal renders nothing, so no control
    can fire. *)
Record modal : Type := mkModal {
  offer_prop : option ReservationModal.CargoOffer;
  kilos_state : Z
}.

Inductive action : Type :=
| select (offer : ReservationModal.CargoOffer)   (* onReserve: setSelectedOffer(offer) *)
| close                                          (* onClose: setSelectedOffer(null) *)
| control (ev : event).

Definition mounted : modal := mkModal None 1.

Definition step (m : modal) (a : action) : modal :=
  match a with
  | select offer => mkModal (Some offer) (kilos_state m)
  | close => mkModal None (kilos_state m)
  | control ev =>
      match offer_prop m with
      | Some offer => mkModal (Some offer) (setKilos offer (kilos_state m) ev)
      | None => m
      end
  end.

Definition after (acts : list action) : modal := fold_left step acts mounted.

(** Every offer opened shows at least 1 kg. *)
Definition opens_nonempty (a : action) : bool :=
  match a with
  | select offer => 1 <=? ReservationModal.available_kilos offer
  | _ => true
  end.

End KilosInput.

(** ** Client: the search box of Offers *)

Definition lower (c : ascii) : ascii :=
  let n := nat_of_ascii c in
  if (65 <=? n)%nat && (n <=? 90)%nat then ascii_of_nat (n + 32) else c.

Fixpoint toLowerCase (s : string) : string :=
  match s with
  | EmptyString => EmptyString
  | String c s' => String (lower c) (toLowerCase s')
  end.

(** String.prototype.includes: [sub] occurs in [s] at some position. *)
Fixpoint includes (s sub : string) : bool :=
  prefix sub s ||
  match s with
  | EmptyString => false
  | String _ s' => includes s' sub
  end.

Module OffersSearch.

(** filteredOffers of the Offers page. *)
Definition filteredOffers (offers : list CargoOffer.row) (searchTerm : string)
  : list CargoOffer.row :=
  filter (fun offer =>
            let search := toLowerCase searchTerm in
            includes (toLowerCase (CargoOffer.departure_city offer)) search ||
            includes (toLowerCase (CargoOffer.arrival_city offer)) search ||
            includes (toLowerCase (CargoOffer.departure_country offer)) search ||
            includes (toLowerCase (CargoOffer.arrival_country offer)) search)
         offers.

End OffersSearch.

(** ** Client: StatusTimeline *)

Module StatusTimeline.

(** statusConfig, without the icon components. *)
Definition statusConfig : list (shipment_status * string) :=
  [ (pending_submission, "En attente"%string);
    (received_at_origin, "Reçu à l'origine"%string);
    (in_transit, "En transit"%string);
    (arrived_at_destination, "Arrivé à destination"%string);
    (delivered, "Livré"%string) ].

(** Array.prototype.findIndex: -1 when nothing matches. *)
Fixpoint findIndex_from {A : Type} (p : A -> bool) (l : list A) (i : Z) : Z :=
  match l with
  | [] => -1
  | a :: l' => if p a then i else findIndex_from p l' (i + 1)
  end.

Definition findIndex {A : Type} (p : A -> bool) (l : list A) : Z :=
  findIndex_from p l 0.

Record step : Type := mkStep {
  key : shipment_status;
  label : string;
  isCompleted : bool;
  isCurrent : bool;
  isPending : bool
}.

Fixpoint steps_from (currentIndex : Z) (l : list (shipment_status * string)) (index : Z)
  : list step :=
  match l with
  | [] => []
  | status :: l' =>
      mkStep (fst status) (snd status)
        (index <? currentIndex) (index =? currentIndex) (index >? currentIndex)
      :: steps_from currentIndex l' (index + 1)
  end.

(** What the component computes for each entry of statusConfig. *)
Definition StatusTimeline (currentStatus : shipment_status) : list step :=
  let currentIndex :=
    findIndex (fun s => shipment_status_eqb (fst s) currentStatus) statusConfig in
  steps_from currentIndex statusConfig 0.

End StatusTimeline.

(** The position of a status in the shipment_status enum. *)
Definition status_rank (s : shipment_status) : Z :=
  match s with
  | pending_submission => 0
  | received_at_origin => 1
  | in_transit => 2
  | arrived_at_destination => 3
  | delivered => 4
  end.

(** ** Accounts: profiles, roles and sign-up *)

Module Profile.

(** CREATE TABLE public.profiles *)
Record row : Type := mk {
  id : uuid;
  full_name : option string;
  phone_number : option string;
  id_document : option string;
  created_at : timestamptz;
  updated_at : timestamptz
}.

End Profile.

(** The database together with public.profiles. *)
Record account_db : Type := mkaccounts {
  core : db;
  profiles : list Profile.row
}.

Definition with_auth_users (l : list uuid) (d : db) : db :=
  mkdb l (user_roles d) (cargo_offers d) (reservations d) (status_history d).

Definition with_user_roles (l : list (uuid * app_role)) (d : db) : db :=
  mkdb (auth_users d) l (cargo_offers d) (reservations d) (status_history d).

(** RLS Policies for profiles *)
Definition profiles_policies : list (policy Profile.row) :=
  [ mkpolicy "Users can view their own profile" SELECT
      (Some (fun _ uid p => uid_is uid (Profile.id p))) None;
    mkpolicy "Users can update their own profile" UPDATE
      (Some (fun _ uid p => uid_is uid (Profile.id p))) None ].

(** RLS Policies for user_roles (only admins can view all) *)
Definition user_roles_policies : list (policy (uuid * app_role)) :=
  [ mkpolicy "Users can view their own role" SELECT
      (Some (fun _ uid ur => uid_is uid (fst ur))) None;
    mkpolicy "Admins can view all roles" SELECT
      (Some (fun d uid _ => has_role d uid admin)) None;
    mkpolicy "Admins can manage roles" ALL
      (Some (fun d uid _ => has_role d uid admin)) None ].

(** RLS Policies for status_history.  The sub-select of the first policy
    reads reservations as the caller does. *)
Definition status_history_policies : list (policy StatusHistory.row) :=
  [ mkpolicy "Users can view their reservation history" SELECT
      (Some (fun d uid h =>
               existsb (fun r =>
                          rls_using reservations_policies SELECT d uid r &&
                          Z.eqb (Reservation.id r) (StatusHistory.reservation_id h) &&
                          uid_is uid (Reservation.user_id r))
                       (reservations d))) None;
    mkpolicy "Admins can view all status history" SELECT
      (Some (fun d uid _ => has_role d uid admin)) None;
    mkpolicy "Admins can insert status history" INSERT
      None (Some (fun d uid _ => has_role d uid admin)) ].

(** AFTER INSERT ON auth.users: handle_new_user(), SECURITY DEFINER.
    [full_name] is NEW.raw_user_meta_data->>'full_name'.  profiles has
    the primary key id, user_roles is UNIQUE (user_id, role). *)
Definition handle_new_user (e : env) (NEW_id : uuid) (full_name : option string)
  (s : account_db) : result account_db :=
  '_ <- guard (negb (existsb (fun p => Z.eqb (Profile.id p) NEW_id) (profiles s)))
         unique_violation ;;
  let profiles1 := profiles s ++ [Profile.mk NEW_id full_name None None (now e) (now e)] in
  '_ <- guard (negb (existsb (fun ur => Z.eqb (fst ur) NEW_id && app_role_eqb (snd ur) user)
                       (user_roles (core s)))) unique_violation ;;
  Ok (mkaccounts (with_user_roles (user_roles (core s) ++ [(NEW_id, user)]) (core s))
        profiles1).

(** A row inserted into auth.users by the identity provider, with the
    trigger it fires. *)
Definition sign_up (e : env) (NEW_id : uuid) (full_name : option string)
  (s : account_db) : result account_db :=
  '_ <- guard (negb (existsb (Z.eqb NEW_id) (auth_users (core s)))) unique_violation ;;
  handle_new_user e NEW_id full_name
    (mkaccounts (with_auth_users (auth_users (core s) ++ [NEW_id]) (core s)) (profiles s)).

(** INSERT INTO public.user_roles (user_id, role) through the data API. *)
Definition api_insert_user_role (uid : option uuid) (ur : uuid * app_role) (d : db)
  : result db :=
  '_ <- guard (rls_with_check user_roles_policies INSERT d uid ur) rls_violation ;;
  '_ <- guard (negb (existsb (fun x => Z.eqb (fst x) (fst ur) && app_role_eqb (snd x) (snd ur))
                       (user_roles d))) unique_violation ;;
  '_ <- guard (existsb (Z.eqb (fst ur)) (auth_users d)) foreign_key_violation ;;
  Ok (with_user_roles (user_roles d ++ [ur]) d).

(** DELETE FROM public.user_roles through the data API. *)
Definition api_delete_user_roles (uid : option uuid) (where_ : uuid * app_role -> bool)
  (d : db) : db :=
  with_user_roles
    (filter (fun ur => negb (where_ ur &&
                             rls_using user_roles_policies SELECT d uid ur &&
                             rls_using user_roles_policies DELETE d uid ur))
            (user_roles d)) d.

(** UPDATE public.user_roles SET role = r through the data API: rows the
    policies let through are rewritten, the new row is checked against
    the policies, and (user_id, role) stays unique. *)
Definition api_update_user_roles (uid : option uuid) (where_ : uuid * app_role -> bool)
  (r : app_role) (d : db) : result db :=
  let hit := fun ur => where_ ur &&
                       rls_using user_roles_policies SELECT d uid ur &&
                       rls_using user_roles_policies UPDATE d uid ur in
  let rows := map (fun ur => if hit ur then (fst ur, r) else ur) (user_roles d) in
  '_ <- guard (forallb (fun ur => negb (hit ur) ||
                                  rls_with_check user_roles_policies UPDATE d uid (fst ur, r))
                 (user_roles d)) rls_violation ;;
  '_ <- guard ((fix distinct (l : list (uuid * app_role)) : bool :=
                  match l with
                  | [] => true
                  | x :: l' =>
                      negb (existsb (fun y => Z.eqb (fst y) (fst x) &&
                                              app_role_eqb (snd y) (snd x)) l') &&
                      distinct l'
                  end) rows) unique_violation ;;
  Ok (with_user_roles rows d).

(** available_kilos + reserved kilos of offer [oid], when it is stored. *)
Definition ledger (d : db) (oid : uuid) : option Z :=
  option_map (fun a => a + reserved_kilos d oid) (available_of d oid).


(** A string that does not begin with white space. *)
Definition starts_clean (s : string) : bool :=
  match s with
  | EmptyString => true
  | String c _ => negb (is_white_space c)
  end.

(** ** Client: the profile form of Dashboard *)

#[export] Instance profile_timestamped : Timestamped Profile.row :=
  fun t p => Profile.mk (Profile.id p) (Profile.full_name p) (Profile.phone_number p)
               (Profile.id_document p) (Profile.created_at p) t.

(** supabase.from('profiles').update({full_name, phone_number,
    id_document}).eq('id', target) as [uid]; update_profiles_updated_at
    fires on each updated row. *)
Definition update_profile (e : env) (uid : option uuid) (target : uuid)
  (full_name phone_number id_document : option string) (s : account_db)
  : result account_db :=
  'rows <- mapM (fun p =>
                   if Z.eqb (Profile.id p) target &&
                      rls_using profiles_policies SELECT (core s) uid p &&
                      rls_using profiles_policies UPDATE (core s) uid p
                   then
                     let NEW := update_updated_at_column e
                                  (Profile.mk (Profile.id p) full_name phone_number
                                     id_document (Profile.created_at p)
                                     (Profile.updated_at p)) in
                     '_ <- guard (rls_with_check profiles_policies UPDATE (core s) uid NEW)
                            rls_violation ;;
                     Ok NEW
                   else Ok p) (profiles s) ;;
  Ok (mkaccounts (core s) rows).

Module Dashboard.

(** [x.trim() || null] and [v || ''] *)
Definition trimmed_or_null (x : string) : option string :=
  if String.eqb (trim x) EmptyString then None else Some (trim x).

Definition or_empty (v : option string) : string :=
  match v with
  | Some x => x
  | None => EmptyString
  end.

Inductive outcome : Type :=
| nothing
| toast (title : string)
| toast_error (e : pg_error).

(** handleSaveProfile *)
Definition handleSaveProfile (e : env) (user : option uuid)
  (fullName phoneNumber idDocument : string) (s : account_db) : outcome * account_db :=
  match user with
  | None => (nothing, s)
  | Some user_id =>
      match update_profile e (Some user_id) user_id (trimmed_or_null fullName)
              (trimmed_or_null phoneNumber) (trimmed_or_null idDocument) s with
      | Ok s' => (toast "Profil mis à jour", s')
      | Err err => (toast_error err, s)
      end
  end.

(** The form fields fetchData fills from the profile it reads. *)
Record form : Type := mkForm {
  fullName : string;
  phoneNumber : string;
  idDocument : string
}.

(** The profile part of fetchData: select('*').eq('id', user.id)
    .maybeSingle(); an error leaves the form as it is. *)
Definition fetchProfile (user : option uuid) (s : account_db) : option (Profile.row * form) :=
  match user with
  | None => None
  | Some user_id =>
      match Track.maybeSingle
              (filter (fun p => rls_using profiles_policies SELECT (core s) (Some user_id) p &&
                                Z.eqb (Profile.id p) user_id)
                      (profiles s)) with
      | Ok (Some profileData) =>
          Some (profileData,
                mkForm (or_empty (Profile.full_name profileData))
                       (or_empty (Profile.phone_number profileData))
                       (or_empty (Profile.id_document profileData)))
      | _ => None
      end
  end.

End Dashboard.

(** ** The latest history row of a reservation *)

Definition last_opt {A : Type} (l : list A) : option A :=
  fold_left (fun _ a => Some a) l None.

Definition last_history (d : db) (rid : uuid) : option StatusHistory.row :=
  last_opt (filter (fun h => Z.eqb (StatusHistory.reservation_id h) rid) (status_history d)).

(** Whenever a reservation has history rows, the latest one shows its
    current status. *)
Definition history_tracks_status (d : db) : Prop :=
  forall r h,
    In r (reservations d) ->
    last_history d (Reservation.id r) = Some h ->
    StatusHistory.status h = Reservation.status r.

(** A status change made by an administrator and answered as done, with
    gen_random_uuid() returning an id unused in status_history. *)
Definition admin_status_step (d d' : db) : Prop :=
  exists e uid rid s,
    has_role d uid admin = true /\
    existsb (fun h => Z.eqb (StatusHistory.id h) (gen_random_uuid e)) (status_history d)
    = false /\
    AdminDashboard.handleUpdateStatus e uid (Some rid) s d
    = (AdminDashboard.toast "Statut mis a jour", d').

Inductive admin_status_run : db -> db -> Prop :=
| admin_status_run_refl : forall d, admin_status_run d d
| admin_status_run_step : forall d d1 d2,
    admin_status_run d d1 -> admin_status_step d1 d2 -> admin_status_run d d2.

(** * Properties *)

(** ** The statements, characterised *)

Lemma mapM_adjust_available (e : env) (oid : uuid) (f : Z -> Z)
  (l : list CargoOffer.row) :
  mapM (fun o =>
          if Z.eqb (CargoOffer.id o) oid then
            'v <- int4 (f (CargoOffer.available_kilos o)) ;;
            Ok (update_updated_at_column e (CargoOffer.with_available_kilos v o))
          else Ok o) l
  = if forallb (adjustable oid f) l
    then Ok (map (adjust_available e oid f) l)
    else Err integer_out_of_range.
Proof.
  induction l as [|o l IH]; [reflexivity|].
  cbn [mapM forallb map]. rewrite IH.
  assert (Ha : adjustable oid f o
               = negb (Z.eqb (CargoOffer.id o) oid)
                 || in_int4 (f (CargoOffer.available_kilos o))) by reflexivity.
  assert (Hb : adjust_available e oid f o
               = if Z.eqb (CargoOffer.id o) oid
                 then update_updated_at_column e
                        (CargoOffer.with_available_kilos
                           (f (CargoOffer.available_kilos o)) o)
                 else o) by reflexivity.
  rewrite Ha, Hb. unfold int4.
  destruct (Z.eqb (CargoOffer.id o) oid); cbn [negb orb bind andb].
  - destruct (in_int4 (f (CargoOffer.available_kilos o))); cbn [bind andb];
      [|reflexivity].
    destruct (forallb (adjustable oid f) l); reflexivity.
  - destruct (forallb (adjustable oid f) l); reflexivity.
Qed.

Lemma update_cargo_offers_available_eq (e : env) (oid : uuid) (f : Z -> Z) (d : db) :
  update_cargo_offers_available e oid f d
  = if forallb (adjustable oid f) (cargo_offers d)
    then Ok (with_cargo_offers (map (adjust_available e oid f) (cargo_offers d)) d)
    else Err integer_out_of_range.
Proof.
  unfold update_cargo_offers_available. rewrite mapM_adjust_available.
  destruct (forallb (adjustable oid f) (cargo_offers d)); reflexivity.
Qed.

Lemma inserted_row_columns (e : env) (v : ReservationInsert.row) :
  Reservation.cargo_offer_id (inserted_row e v) = ReservationInsert.cargo_offer_id v /\
  Reservation.kilos_reserved (inserted_row e v) = ReservationInsert.kilos_reserved v /\
  Reservation.user_id (inserted_row e v) = ReservationInsert.user_id v.
Proof.
  unfold inserted_row, set_tracking_code.
  destruct (Reservation.tracking_code (reservation_defaults e v)); cbn; auto.
Qed.

Lemma insert_reservation_accepted (e : env) (uid : option uuid)
  (v : ReservationInsert.row) (d : db) :
  insert_accepted e uid v d = true ->
  insert_reservation e uid v d = Ok (inserted e v d).
Proof.
  unfold insert_accepted, insert_reservation. intros H.
  apply andb_prop in H as [H H7]. apply andb_prop in H as [H H6].
  apply andb_prop in H as [H H5]. apply andb_prop in H as [H H4].
  apply andb_prop in H as [H H3]. apply andb_prop in H as [H1 H2].
  apply negb_true_iff in H3, H4.
  fold (inserted_row e v).
  destruct (inserted_row_columns e v) as (Ho & Hk & Hu).
  unfold int4. rewrite H1. cbn [bind].
  rewrite H2. cbn [guard bind].
  rewrite H3. cbn [guard bind negb].
  rewrite H4. cbn [guard bind negb].
  rewrite Hu, H5. cbn [guard bind].
  rewrite Ho, H6. cbn [guard bind].
  unfold update_available_kilos. rewrite update_cargo_offers_available_eq.
  cbn [cargo_offers with_reservations]. rewrite Ho, Hk, H7. reflexivity.
Qed.

Lemma insert_reservation_inv (e : env) (uid : option uuid)
  (v : ReservationInsert.row) (d d' : db) :
  insert_reservation e uid v d = Ok d' ->
  insert_accepted e uid v d = true /\ d' = inserted e v d.
Proof.
  unfold insert_accepted, insert_reservation.
  fold (inserted_row e v).
  destruct (inserted_row_columns e v) as (Ho & Hk & Hu).
  unfold int4.
  destruct (in_int4 (ReservationInsert.kilos_reserved v)); [|discriminate].
  cbn [bind andb].
  destruct (rls_with_check reservations_policies INSERT d uid (inserted_row e v));
    [|discriminate].
  cbn [guard bind andb].
  destruct (existsb (fun r => Z.eqb (Reservation.id r) (Reservation.id (inserted_row e v)))
              (reservations d)); [discriminate|].
  cbn [guard bind andb negb].
  destruct (existsb (fun r => text_eq (Reservation.tracking_code r)
                                (Reservation.tracking_code (inserted_row e v)))
              (reservations d)); [discriminate|].
  cbn [guard bind andb negb].
  rewrite Hu.
  destruct (existsb (Z.eqb (ReservationInsert.user_id v)) (auth_users d)); [|discriminate].
  cbn [guard bind andb].
  rewrite Ho.
  destruct (existsb (fun o => Z.eqb (CargoOffer.id o) (ReservationInsert.cargo_offer_id v))
              (cargo_offers d)); [|discriminate].
  cbn [guard bind andb].
  unfold update_available_kilos. rewrite update_cargo_offers_available_eq.
  cbn [cargo_offers with_reservations]. rewrite Ho, Hk.
  destruct (forallb _ (cargo_offers d)); [|discriminate].
  intros H. injection H as <-. split; reflexivity.
Qed.

Lemma handleSubmit_confirmed_inv (e : env) (u : option uuid)
  (offer : ReservationModal.CargoOffer) (kilos : Z) (description : string)
  (d d' : db) :
  ReservationModal.handleSubmit e u offer kilos description d
  = (ReservationModal.confirmed, d') ->
  exists user_id,
    u = Some user_id /\
    1 <= kilos <= ReservationModal.available_kilos offer /\
    insert_accepted e (Some user_id) (modal_insert user_id offer kilos description) d = true /\
    d' = inserted e (modal_insert user_id offer kilos description) d.
Proof.
  unfold ReservationModal.handleSubmit. destruct u as [user_id|]; [|discriminate].
  destruct (kilos <? 1) eqn:Hlo; [discriminate|].
  destruct (kilos >? ReservationModal.available_kilos offer) eqn:Hhi; [discriminate|].
  cbn [orb]. fold (modal_insert user_id offer kilos description).
  destruct (insert_reservation e (Some user_id)
              (modal_insert user_id offer kilos description) d) as [d1|err] eqn:Hins;
    [|discriminate].
  intros H. injection H as <-.
  apply insert_reservation_inv in Hins as [Hacc ->].
  exists user_id. repeat split; try assumption.
  - apply Z.ltb_ge in Hlo. exact Hlo.
  - rewrite Z.gtb_ltb in Hhi. apply Z.ltb_ge in Hhi. exact Hhi.
Qed.

Lemma handleSubmit_accepted (e : env) (user_id : uuid)
  (offer : ReservationModal.CargoOffer) (kilos : Z) (description : string) (d : db) :
  1 <= kilos <= ReservationModal.available_kilos offer ->
  insert_accepted e (Some user_id) (modal_insert user_id offer kilos description) d = true ->
  ReservationModal.handleSubmit e (Some user_id) offer kilos description d
  = (ReservationModal.confirmed,
     inserted e (modal_insert user_id offer kilos description) d).
Proof.
  intros [Hlo Hhi] Hacc. unfold ReservationModal.handleSubmit.
  replace (kilos <? 1) with false by (symmetry; apply Z.ltb_ge; lia).
  replace (kilos >? ReservationModal.available_kilos offer) with false
    by (symmetry; rewrite Z.gtb_ltb; apply Z.ltb_ge; lia).
  cbn [orb]. fold (modal_insert user_id offer kilos description).
  rewrite (insert_reservation_accepted _ _ _ _ Hacc). reflexivity.
Qed.

(** ** Capacity *)

Lemma sum_snoc (l : list Z) (x : Z) :
  fold_right Z.add 0 (l ++ [x]) = fold_right Z.add 0 l + x.
Proof.
  induction l as [|a l IH]; cbn [app fold_right]; lia.
Qed.

Lemma reserved_kilos_inserted (e : env) (v : ReservationInsert.row) (d : db) (oid : uuid) :
  reserved_kilos (inserted e v d) oid
  = reserved_kilos d oid
    + (if Z.eqb (ReservationInsert.cargo_offer_id v) oid
       then ReservationInsert.kilos_reserved v else 0).
Proof.
  unfold reserved_kilos, inserted. cbn [reservations].
  destruct (inserted_row_columns e v) as (Ho & Hk & _).
  rewrite filter_app. cbn [filter]. rewrite Ho.
  destruct (Z.eqb (ReservationInsert.cargo_offer_id v) oid).
  - rewrite map_app. cbn [map]. rewrite sum_snoc, Hk. reflexivity.
  - rewrite app_nil_r. lia.
Qed.

Lemma adjust_available_id (e : env) (oid : uuid) (f : Z -> Z) (o : CargoOffer.row) :
  CargoOffer.id (adjust_available e oid f o) = CargoOffer.id o /\
  CargoOffer.total_kilos (adjust_available e oid f o) = CargoOffer.total_kilos o /\
  CargoOffer.is_active (adjust_available e oid f o) = CargoOffer.is_active o.
Proof.
  unfold adjust_available. destruct (Z.eqb (CargoOffer.id o) oid); cbn; auto.
Qed.

Lemma adjust_available_kilos (e : env) (oid : uuid) (f : Z -> Z) (o : CargoOffer.row) :
  CargoOffer.available_kilos (adjust_available e oid f o)
  = if Z.eqb (CargoOffer.id o) oid then f (CargoOffer.available_kilos o)
    else CargoOffer.available_kilos o.
Proof.
  unfold adjust_available. destruct (Z.eqb (CargoOffer.id o) oid); reflexivity.
Qed.

Lemma map_id_adjust (e : env) (oid : uuid) (f : Z -> Z) (l : list CargoOffer.row) :
  map CargoOffer.id (map (adjust_available e oid f) l) = map CargoOffer.id l.
Proof.
  rewrite map_map. apply map_ext. intros o. apply adjust_available_id.
Qed.

(** Under a primary key, two rows with one id are one row. *)
Lemma primary_key_row (l : list CargoOffer.row) (a b : CargoOffer.row) :
  NoDup (map CargoOffer.id l) -> In a l -> In b l ->
  CargoOffer.id a = CargoOffer.id b -> a = b.
Proof.
  induction l as [|x l IH]; intros Hnd Ha Hb Hid; [contradiction|].
  cbn [map] in Hnd. inversion Hnd as [|? ? Hnotin Hnd']; subst.
  destruct Ha as [->|Ha], Hb as [->|Hb]; auto.
  - exfalso. apply Hnotin. rewrite Hid. apply in_map. exact Hb.
  - exfalso. apply Hnotin. rewrite <- Hid. apply in_map. exact Ha.
Qed.

Lemma capacity_ledger_fresh_submit (d d' : db) :
  capacity_ledger d -> fresh_submit_step d d' -> capacity_ledger d'.
Proof.
  intros [Hnd Hled] (e & u & o0 & kilos & description & Hin0 & Hsub).
  apply handleSubmit_confirmed_inv in Hsub
    as (user_id & -> & [Hlo Hhi] & _ & ->).
  set (v := modal_insert user_id (ReservationModal.listed o0) kilos description).
  assert (Hoid : ReservationInsert.cargo_offer_id v = CargoOffer.id o0) by reflexivity.
  assert (Hk : ReservationInsert.kilos_reserved v = kilos) by reflexivity.
  cbn [ReservationModal.listed ReservationModal.available_kilos] in Hhi.
  split.
  - unfold inserted. cbn [cargo_offers]. rewrite map_id_adjust. exact Hnd.
  - intros o' Hin'. unfold inserted in Hin'. cbn [cargo_offers] in Hin'.
    apply in_map_iff in Hin' as (o & <- & Hin).
    destruct (adjust_available_id e (ReservationInsert.cargo_offer_id v)
                (fun a => a - ReservationInsert.kilos_reserved v) o) as (Hid & Htot & _).
    rewrite Hid, Htot, adjust_available_kilos, reserved_kilos_inserted, Hoid, Hk.
    destruct (Hled o Hin) as [Hrange Hsum].
    destruct (Z.eqb (CargoOffer.id o) (CargoOffer.id o0)) eqn:Heq.
    + apply Z.eqb_eq in Heq.
      assert (o = o0) by (apply (primary_key_row (cargo_offers d)); assumption).
      subst o. rewrite Z.eqb_refl. lia.
    + rewrite Z.eqb_sym, Heq. lia.
Qed.

(** C1 (amended).  The database has no constraint on available_kilos;
    what keeps it in range is the check of the reservation modal.  From
    a state whose offers have distinct ids, 0 <= available_kilos <=
    total_kilos and reserved + available <= total_kilos, every sequence
    of reservations accepted through the modal, each submitted with the
    offer row as it is stored at that moment, ends in a state where
    0 <= available_kilos <= total_kilos holds on every offer and the sum
    of kilos_reserved against an offer is at most its total_kilos. *)
Theorem capacity_kept_by_fresh_submissions (d d' : db) :
  capacity_ledger d -> fresh_submits d d' -> capacity_invariant d'.
Proof.
  intros Hled Hrun.
  assert (Hled' : capacity_ledger d').
  { induction Hrun as [|d d1 d2 _ IH Hstep]; [assumption|].
    apply (capacity_ledger_fresh_submit d1); [apply IH; assumption|assumption]. }
  destruct Hled' as [_ H]. intros o Hin. destruct (H o Hin) as [Hrange Hsum].
  split; [exact Hrange|lia].
Qed.

Lemma sample_db0_ledger : capacity_ledger Sample.db0.
Proof.
  split.
  - cbn. repeat constructor; cbn; intuition discriminate.
  - intros o H. cbn in H.
    destruct H as [<-|[<-|[<-|[]]]]; cbn; lia.
Qed.

Lemma sample_db0_db1 : fresh_submit_step Sample.db0 Sample.db1.
Proof.
  exists Sample.env1, (Some 1), Sample.offer1, 15, EmptyString.
  split; [left; reflexivity|reflexivity].
Qed.

Lemma capacity_kept_by_fresh_submissions_witness :
  capacity_ledger Sample.db0 /\
  fresh_submits Sample.db0 Sample.db1 /\
  capacity_invariant Sample.db1.
Proof.
  assert (Hrun : fresh_submits Sample.db0 Sample.db1).
  { apply (fresh_submits_step _ Sample.db0); [apply fresh_submits_refl|].
    exact sample_db0_db1. }
  split; [exact sample_db0_ledger|].
  split; [exact Hrun|].
  exact (capacity_kept_by_fresh_submissions Sample.db0 Sample.db1
           sample_db0_ledger Hrun).
Defined.

(** C1, as stated, fails: two reservations accepted one after the other,
    the second from a modal that still shows the 20 kg listed before the
    first, leave offer 100 with available_kilos = -5 and 25 kg reserved
    against a total of 20. *)
Lemma capacity_invariant_broken_by_stale_snapshot :
  capacity_invariant Sample.db0 /\
  submit_step Sample.db0 Sample.db1 /\
  submit_step Sample.db1 Sample.db2_stale /\
  available_of Sample.db2_stale 100 = Some (-5) /\
  reserved_kilos Sample.db2_stale 100 = 25 /\
  ~ capacity_invariant Sample.db2_stale.
Proof.
  split.
  { intros o H. cbn in H. destruct H as [<-|[<-|[<-|[]]]]; cbn; lia. }
  split.
  { exists Sample.env1, (Some 1), (ReservationModal.listed Sample.offer1), 15, EmptyString.
    reflexivity. }
  split.
  { exists Sample.env2, (Some 2), (ReservationModal.listed Sample.offer1), 10, EmptyString.
    reflexivity. }
  split; [reflexivity|]. split; [reflexivity|].
  intros H.
  specialize (H (CargoOffer.mk 100 "Douala" "Cameroun" "CM" "Paris" "France" "FR"
                   "2026-03-01" 20 (-5) 500000 (Some true) 0 2000)).
  cbn in H. destruct H as [[H _] _]; [left; reflexivity|lia].
Qed.

(** The admin form is a second way out of the range: handleSaveOffer
    writes the available_kilos it is given. *)
Example handleSaveOffer_overrides_available :
  exists d',
    AdminDashboard.handleSaveOffer Sample.env2 (Some 9) (Some Sample.offer1)
      (OfferForm.mk None None None None None None None
         (Some (num 20)) (Some (num 50)) None None) Sample.db0
    = (AdminDashboard.toast "Offre mise a jour", d') /\
    available_of d' 100 = Some 50 /\
    option_map CargoOffer.total_kilos
      (find (fun o => Z.eqb (CargoOffer.id o) 100) (cargo_offers d')) = Some 20.
Proof.
  eexists. split; [reflexivity|]. split; reflexivity.
Qed.

(** C2, as stated, fails: offer 100 holds 5 kg, user 2 asks for 10 kg from
    a modal that was opened when it held 20, and the reservation is
    confirmed; the insert itself checks no capacity at all. *)
Lemma reserve_beyond_current_available_accepted :
  available_of Sample.db1 100 = Some 5 /\
  ReservationModal.handleSubmit Sample.env2 (Some 2)
    (ReservationModal.listed Sample.offer1) 10 EmptyString Sample.db1
  = (ReservationModal.confirmed, Sample.db2_stale) /\
  insert_reservation Sample.env2 (Some 2)
    (ReservationInsert.mk None 2 100 10 None None None None None None) Sample.db1
  = Ok Sample.db2_stale /\
  available_of Sample.db2_stale 100 = Some (-5).
Proof.
  repeat split; reflexivity.
Qed.

(** C2 (amended).  handleSubmit refuses a request, before anything is
    sent and leaving the database as it is, whenever kilos exceeds the
    available_kilos of the offer snapshot the modal was opened with; the
    check is made by the client on that snapshot, and the insert with
    its decrement is not guarded by the database.  With the offer
    re-read before each submission: 20 kg available, reserving 15
    succeeds and leaves 5, reserving 10 is then refused, reserving 5
    succeeds and leaves 0. *)
Theorem reserve_checks_capacity_on_snapshot :
  (forall e user_id offer kilos description d,
      kilos > ReservationModal.available_kilos offer ->
      ReservationModal.handleSubmit e (Some user_id) offer kilos description d
      = (ReservationModal.select_between_1_and
           (ReservationModal.available_kilos offer), d)) /\
  available_of Sample.db0 100 = Some 20 /\
  ReservationModal.handleSubmit Sample.env1 (Some 1)
    (ReservationModal.listed Sample.offer1) 15 EmptyString Sample.db0
  = (ReservationModal.confirmed, Sample.db1) /\
  find (fun o => Z.eqb (CargoOffer.id o) 100) (cargo_offers Sample.db1)
  = Some Sample.offer1_reloaded /\
  available_of Sample.db1 100 = Some 5 /\
  ReservationModal.handleSubmit Sample.env2 (Some 2)
    (ReservationModal.listed Sample.offer1_reloaded) 10 EmptyString Sample.db1
  = (ReservationModal.select_between_1_and 5, Sample.db1) /\
  exists d3,
    ReservationModal.handleSubmit Sample.env2 (Some 2)
      (ReservationModal.listed Sample.offer1_reloaded) 5 EmptyString Sample.db1
    = (ReservationModal.confirmed, d3) /\
    available_of d3 100 = Some 0.
Proof.
  split.
  { intros e user_id offer kilos description d H.
    unfold ReservationModal.handleSubmit.
    replace (kilos >? ReservationModal.available_kilos offer) with true
      by (symmetry; apply Z.gtb_lt; lia).
    rewrite orb_true_r. reflexivity. }
  repeat (split; [reflexivity|]).
  eexists. split; reflexivity.
Qed.

Lemma reserve_checks_capacity_on_snapshot_witness :
  10 > ReservationModal.available_kilos (ReservationModal.listed Sample.offer1_reloaded) /\
  ReservationModal.handleSubmit Sample.env2 (Some 2)
    (ReservationModal.listed Sample.offer1_reloaded) 10 EmptyString Sample.db1
  = (ReservationModal.select_between_1_and
       (ReservationModal.available_kilos
          (ReservationModal.listed Sample.offer1_reloaded)), Sample.db1).
Proof.
  split; [cbn; lia|].
  apply (proj1 reserve_checks_capacity_on_snapshot Sample.env2 2
           (ReservationModal.listed Sample.offer1_reloaded) 10 EmptyString Sample.db1).
  cbn; lia.
Defined.

(** ** Status history at creation *)

(** C3, as stated, fails: reservation 501 has just been created and
    status_history holds no row for it. *)
Lemma reservation_created_without_history :
  ReservationModal.handleSubmit Sample.env1 (Some 1)
    (ReservationModal.listed Sample.offer1) 15 EmptyString Sample.db0
  = (ReservationModal.confirmed, Sample.db1) /\
  map Reservation.id (reservations Sample.db1) = [501] /\
  history_entries Sample.db1 501 pending_submission = [] /\
  List.length (history_entries Sample.db1 501 pending_submission) <> 1%nat.
Proof.
  repeat split; try reflexivity. cbn. discriminate.
Qed.

Lemma history_entries_of_unreferenced (rid : uuid) (s : shipment_status)
  (rows : list Reservation.row) (hist : list StatusHistory.row) :
  existsb (fun r => Z.eqb (Reservation.id r) rid) rows = false ->
  forallb (fun h => existsb (fun r => Z.eqb (Reservation.id r)
                                            (StatusHistory.reservation_id h)) rows)
    hist = true ->
  filter (fun h => Z.eqb (StatusHistory.reservation_id h) rid &&
                   shipment_status_eqb (StatusHistory.status h) s) hist = [].
Proof.
  intros Hfresh. induction hist as [|h hist IH]; cbn [forallb filter]; [reflexivity|].
  intros H. apply andb_prop in H as [Hh Hrest].
  destruct (Z.eqb_spec (StatusHistory.reservation_id h) rid) as [Heq|_].
  - rewrite Heq, Hfresh in Hh. discriminate Hh.
  - cbn [andb]. exact (IH Hrest).
Qed.

(** C3 (amended).  Creating a reservation writes no StatusHistoryEntry:
    a successful insert stores one new reservation and leaves
    status_history exactly as it was.  Where every history row refers
    to a stored reservation (the foreign key of status_history), none
    refers to the new one: at creation time it has no history entry of
    any status, pending_submission included. *)
Theorem reservation_insert_writes_no_history (e : env) (uid : option uuid)
  (v : ReservationInsert.row) (d d' : db) :
  insert_reservation e uid v d = Ok d' ->
  status_history d' = status_history d /\
  (forall rid s, history_entries d' rid s = history_entries d rid s) /\
  reservations d' = reservations d ++ [inserted_row e v] /\
  (history_refers_to_reservations d = true ->
   forall s, history_entries d' (Reservation.id (inserted_row e v)) s = []).
Proof.
  intros H. apply insert_reservation_inv in H as [Hacc ->].
  split; [reflexivity|]. split; [intros rid s; reflexivity|].
  split; [reflexivity|]. intros Hfk s.
  unfold insert_accepted in Hacc.
  apply andb_prop in Hacc as [Hacc _]. apply andb_prop in Hacc as [Hacc _].
  apply andb_prop in Hacc as [Hacc _]. apply andb_prop in Hacc as [Hacc _].
  apply andb_prop in Hacc as [_ Hpk]. apply negb_true_iff in Hpk.
  exact (history_entries_of_unreferenced _ s _ _ Hpk Hfk).
Qed.

Lemma reservation_insert_writes_no_history_witness :
  insert_reservation Sample.env5 (Some 2)
    (modal_insert 2 (ReservationModal.listed Sample.offer2) 5 EmptyString)
    Sample.db1_received
  = Ok Sample.db5 /\
  map (fun h => (StatusHistory.reservation_id h, StatusHistory.status h))
    (status_history Sample.db5) = [(501, received_at_origin)] /\
  map Reservation.id (reservations Sample.db5) = [501; 505] /\
  history_entries Sample.db5 505 pending_submission = [].
Proof.
  assert (H : insert_reservation Sample.env5 (Some 2)
                (modal_insert 2 (ReservationModal.listed Sample.offer2) 5 EmptyString)
                Sample.db1_received
              = Ok Sample.db5) by reflexivity.
  split; [exact H|]. split; [reflexivity|]. split; [reflexivity|].
  exact (proj2 (proj2 (proj2 (reservation_insert_writes_no_history _ _ _ _ _ H)))
           eq_refl pending_submission).
Defined.

(** ** Inactive offers *)

(** C4, as stated, fails: offer 300 is inactive and user 1 reserves 10 kg
    on it. *)
Lemma reserve_on_inactive_offer_accepted :
  In Sample.closed_offer (cargo_offers Sample.db0) /\
  CargoOffer.is_active Sample.closed_offer = Some false /\
  exists d',
    ReservationModal.handleSubmit Sample.env1 (Some 1)
      (ReservationModal.listed Sample.closed_offer) 10 EmptyString Sample.db0
    = (ReservationModal.confirmed, d') /\
    available_of d' 300 = Some 30.
Proof.
  split; [cbn; auto|]. split; [reflexivity|].
  eexists. split; reflexivity.
Qed.

Lemma In_insert_by_date (o x : CargoOffer.row) (l : list CargoOffer.row) :
  In x (Offers.insert_by_date o l) <-> x = o \/ In x l.
Proof.
  induction l as [|y l IH]; cbn [Offers.insert_by_date].
  - cbn. intuition auto.
  - destruct (String.leb (CargoOffer.departure_date o) (CargoOffer.departure_date y)).
    + cbn. intuition auto.
    + cbn [In]. rewrite IH. intuition auto.
Qed.

Lemma In_order_by_departure_date (x : CargoOffer.row) (l : list CargoOffer.row) :
  In x (Offers.order_by_departure_date l) <-> In x l.
Proof.
  unfold Offers.order_by_departure_date.
  induction l as [|y l IH]; cbn [fold_right]; [reflexivity|].
  rewrite In_insert_by_date, IH. cbn. intuition auto.
Qed.

Lemma existsb_map {A B : Type} (p : B -> bool) (g : A -> B) (l : list A) :
  existsb p (map g l) = existsb (fun a => p (g a)) l.
Proof.
  induction l as [|a l IH]; cbn; [reflexivity|]. rewrite IH. reflexivity.
Qed.

Lemma forallb_map {A B : Type} (p : B -> bool) (g : A -> B) (l : list A) :
  forallb p (map g l) = forallb (fun a => p (g a)) l.
Proof.
  induction l as [|a l IH]; cbn; [reflexivity|]. rewrite IH. reflexivity.
Qed.

Lemma existsb_ext' {A : Type} (p q : A -> bool) (l : list A) :
  (forall a, p a = q a) -> existsb p l = existsb q l.
Proof.
  intros H. induction l as [|a l IH]; cbn; [reflexivity|]. rewrite H, IH. reflexivity.
Qed.

Lemma forallb_ext' {A : Type} (p q : A -> bool) (l : list A) :
  (forall a, p a = q a) -> forallb p l = forallb q l.
Proof.
  intros H. induction l as [|a l IH]; cbn; [reflexivity|]. rewrite H, IH. reflexivity.
Qed.

Ltac next_guard :=
  match goal with
  | |- bind (guard ?b _) _ = _ => destruct b; cbn [guard bind]; [|reflexivity]
  end.

(** The is_active flag does not enter an insert into reservations. *)
Lemma insert_reservation_deactivate (e : env) (uid : option uuid)
  (v : ReservationInsert.row) (oid : uuid) (d : db) :
  insert_reservation e uid v (deactivate oid d)
  = match insert_reservation e uid v d with
    | Ok d' => Ok (deactivate oid d')
    | Err err => Err err
    end.
Proof.
  unfold insert_reservation. fold (inserted_row e v).
  destruct (int4 (ReservationInsert.kilos_reserved v)); cbn [bind]; [|reflexivity].
  change (rls_with_check reservations_policies INSERT (deactivate oid d) uid (inserted_row e v))
    with (rls_with_check reservations_policies INSERT d uid (inserted_row e v)).
  change (reservations (deactivate oid d)) with (reservations d).
  change (auth_users (deactivate oid d)) with (auth_users d).
  next_guard. next_guard. next_guard. next_guard.
  assert (Hfk : existsb (fun o => Z.eqb (CargoOffer.id o)
                                    (Reservation.cargo_offer_id (inserted_row e v)))
                  (cargo_offers (deactivate oid d))
                = existsb (fun o => Z.eqb (CargoOffer.id o)
                                      (Reservation.cargo_offer_id (inserted_row e v)))
                    (cargo_offers d)).
  { unfold deactivate. cbn [cargo_offers with_cargo_offers]. rewrite existsb_map.
    apply existsb_ext'. intros o.
    destruct (Z.eqb (CargoOffer.id o) oid); reflexivity. }
  rewrite Hfk. next_guard.
  unfold update_available_kilos. rewrite !update_cargo_offers_available_eq.
  cbn [cargo_offers with_reservations deactivate with_cargo_offers].
  rewrite forallb_map.
  rewrite (forallb_ext' _ (adjustable (Reservation.cargo_offer_id (inserted_row e v))
                             (fun a => a - Reservation.kilos_reserved (inserted_row e v)))).
  2:{ intros o. unfold adjustable.
      destruct (Z.eqb (CargoOffer.id o) oid); reflexivity. }
  destruct (forallb _ (cargo_offers d)); [|reflexivity].
  unfold deactivate, with_cargo_offers. cbn [auth_users user_roles cargo_offers
                                              reservations status_history].
  f_equal. f_equal. rewrite !map_map. apply map_ext. intros o.
  unfold adjust_available, update_updated_at_column, set_updated_at,
    cargo_offer_timestamped, CargoOffer.with_updated_at,
    CargoOffer.with_available_kilos.
  destruct (Z.eqb (CargoOffer.id o) oid) eqn:Ho;
    destruct (Z.eqb (CargoOffer.id o) (Reservation.cargo_offer_id (inserted_row e v)))
      eqn:Hx;
    cbn -[Z.eqb Z.sub]; rewrite ?Ho, ?Hx; reflexivity.
Qed.

(** C4 (amended).  Nothing on the reservation path reads is_active:
    handleSubmit on a database in which an offer has been deactivated
    ends exactly as on the database in which it has not, with the same
    outcome and the same rows.  Inactive offers are kept out of reach by
    the listing only: every row fetchOffers returns is a stored offer
    with is_active = true and available_kilos > 0. *)
Theorem reserve_ignores_is_active :
  (forall e u offer kilos description oid d,
      ReservationModal.handleSubmit e u offer kilos description (deactivate oid d)
      = (fst (ReservationModal.handleSubmit e u offer kilos description d),
         deactivate oid
           (snd (ReservationModal.handleSubmit e u offer kilos description d)))) /\
  (forall uid d o,
      In o (Offers.fetchOffers uid d) ->
      In o (cargo_offers d) /\
      CargoOffer.is_active o = Some true /\
      0 < CargoOffer.available_kilos o).
Proof.
  split.
  - intros e u offer kilos description oid d.
    unfold ReservationModal.handleSubmit. destruct u as [user_id|]; [|reflexivity].
    destruct ((kilos <? 1) || (kilos >? ReservationModal.available_kilos offer));
      [reflexivity|].
    rewrite insert_reservation_deactivate.
    destruct (insert_reservation e (Some user_id) _ d); reflexivity.
  - intros uid d o H. unfold Offers.fetchOffers in H.
    rewrite In_order_by_departure_date in H. apply filter_In in H as [Hin H].
    apply andb_prop in H as [H Hpos]. apply andb_prop in H as [_ Hact].
    split; [exact Hin|]. split.
    + destruct (CargoOffer.is_active o) as [[|]|]; try discriminate. reflexivity.
    + rewrite Z.gtb_ltb in Hpos. apply Z.ltb_lt in Hpos. exact Hpos.
Qed.

Lemma reserve_ignores_is_active_witness :
  In Sample.offer1 (Offers.fetchOffers None Sample.db0) /\
  CargoOffer.is_active Sample.offer1 = Some true /\
  0 < CargoOffer.available_kilos Sample.offer1.
Proof.
  assert (H : In Sample.offer1 (Offers.fetchOffers None Sample.db0))
    by (left; reflexivity).
  split; [exact H|].
  exact (proj2 (proj2 reserve_ignores_is_active None Sample.db0 Sample.offer1 H)).
Defined.

(** ** Lookup by tracking code *)

(** C5: the public lookup misses.  Reservation 501 carries KG-AB12CD34
    and a visitor without a session, or a signed-in user who is neither
    its owner nor an admin, is told that no parcel has this code. *)
Lemma tracking_lookup_refused_without_session :
  map Reservation.tracking_code (reservations Sample.db1) = [Some "KG-AB12CD34"%string] /\
  Track.handleSearch None None "kg-ab12cd34" Sample.db1 = Track.no_parcel_found /\
  Track.handleSearch None None "KG-AB12CD34" Sample.db1 = Track.no_parcel_found /\
  Track.handleSearch (Some 2) None "KG-AB12CD34" Sample.db1 = Track.no_parcel_found.
Proof.
  repeat split; reflexivity.
Qed.

Lemma rls_select_reservation (d : db) (uid : option uuid) (r : Reservation.row) :
  rls_using reservations_policies SELECT d uid r
  = uid_is uid (Reservation.user_id r) || has_role d uid admin.
Proof.
  cbn. rewrite !orb_false_r. reflexivity.
Qed.

Lemma filter_none {A : Type} (p : A -> bool) (l : list A) :
  forallb (fun a => negb (p a)) l = true -> filter p l = [].
Proof.
  induction l as [|a l IH]; cbn; [reflexivity|]. intros H.
  apply andb_prop in H as [Ha Hl]. apply negb_true_iff in Ha.
  rewrite Ha. auto.
Qed.

Lemma forallb_impl {A : Type} (p q : A -> bool) (l : list A) :
  (forall a, p a = true -> q a = true) -> forallb p l = true -> forallb q l = true.
Proof.
  intros H. induction l as [|a l IH]; cbn; [reflexivity|]. intros Hl.
  apply andb_prop in Hl as [Ha Hl]. rewrite (H a Ha), (IH Hl). reflexivity.
Qed.

Lemma forallb_app_inv {A : Type} (p : A -> bool) (l1 l2 : list A) :
  forallb p (l1 ++ l2) = true -> forallb p l1 = true /\ forallb p l2 = true.
Proof.
  rewrite forallb_app. apply andb_prop.
Qed.

Lemma toUpperCase_nonempty (s : string) :
  toUpperCase s <> EmptyString -> String.eqb s EmptyString = false.
Proof.
  destruct s; [intros H; contradiction H; reflexivity|reflexivity].
Qed.

(** The rows a lookup gets when exactly one stored reservation carries
    the code and the caller may read it. *)
Lemma select_by_tracking_code_one (d : db) (uid : option uuid) (c : string)
  (l1 l2 : list Reservation.row) (r : Reservation.row) :
  reservations d = l1 ++ r :: l2 ->
  Reservation.tracking_code r = Some c ->
  forallb (fun x => negb (text_eq (Reservation.tracking_code x) (Some c))) (l1 ++ l2) = true ->
  uid_is uid (Reservation.user_id r) || has_role d uid admin = true ->
  Track.select_by_tracking_code d uid c = [Track.select_row d uid r].
Proof.
  intros Hd Hc Hu Hr. unfold Track.select_by_tracking_code. rewrite Hd.
  apply forallb_app_inv in Hu as [H1 H2].
  rewrite filter_app. cbn [filter].
  rewrite rls_select_reservation, Hr, Hc. cbn [andb text_eq]. rewrite String.eqb_refl.
  assert (Hweak : forall x,
             negb (text_eq (Reservation.tracking_code x) (Some c)) = true ->
             negb (rls_using reservations_policies SELECT d uid x &&
                   text_eq (Reservation.tracking_code x) (Some c)) = true).
  { intros x Hx. apply negb_true_iff in Hx. rewrite Hx, andb_false_r. reflexivity. }
  rewrite (filter_none _ l1), (filter_none _ l2); [reflexivity| |].
  - exact (forallb_impl _ _ l2 Hweak H2).
  - exact (forallb_impl _ _ l1 Hweak H1).
Qed.

Lemma select_by_tracking_code_none (d : db) (uid : option uuid) (c : string) :
  forallb (fun x => negb (rls_using reservations_policies SELECT d uid x &&
                          text_eq (Reservation.tracking_code x) (Some c)))
    (reservations d) = true ->
  Track.select_by_tracking_code d uid c = [].
Proof.
  intros H. unfold Track.select_by_tracking_code.
  rewrite (filter_none _ _ H). reflexivity.
Qed.

Lemma handleSearch_query (uid : option uuid) (s : string) (d : db) :
  String.eqb (trim s) EmptyString = false ->
  Track.handleSearch uid None s d
  = match Track.maybeSingle
            (Track.select_by_tracking_code d uid (toUpperCase (trim s))) with
    | Ok (Some data) => Track.found data
    | Ok None => Track.no_parcel_found
    | Err err => Track.search_failed err
    end /\
  forall trackingCode,
    Track.handleSearch uid (Some s) trackingCode d = Track.handleSearch uid None s d.
Proof.
  intros H. split.
  - unfold Track.handleSearch. rewrite H. reflexivity.
  - intros tc. unfold Track.handleSearch.
    destruct (String.eqb s EmptyString) eqn:Hs; [|reflexivity].
    apply String.eqb_eq in Hs. subst s. discriminate H.
Qed.

Lemma rls_select_cargo_offer (d : db) (uid : option uuid) (o : CargoOffer.row) :
  rls_using cargo_offers_policies SELECT d uid o
  = match CargoOffer.is_active o with
    | Some b => b
    | None => false
    end || has_role d uid admin.
Proof.
  cbn. rewrite !orb_false_r. reflexivity.
Qed.

Lemma find_none {A : Type} (p q : A -> bool) (l : list A) :
  (forall a, p a = true -> q a = true) ->
  forallb (fun a => negb (q a)) l = true -> find p l = None.
Proof.
  intros Hpq. induction l as [|a l IH]; cbn [forallb find]; [reflexivity|].
  intros H. apply andb_prop in H as [Ha Hl]. apply negb_true_iff in Ha.
  destruct (p a) eqn:Hp; [|exact (IH Hl)].
  rewrite (Hpq a Hp) in Ha. discriminate Ha.
Qed.

Lemma find_app_skip {A : Type} (p : A -> bool) (l1 l2 : list A) :
  find p l1 = None -> find p (l1 ++ l2) = find p l2.
Proof.
  induction l1 as [|a l1 IH]; cbn [app find]; [reflexivity|].
  destruct (p a); [discriminate|exact IH].
Qed.

(** The offer a result row embeds: the one stored offer the foreign key
    cargo_offer_id points to, when the caller may read it. *)
Lemma select_row_cargo_offers (d : db) (uid : option uuid) (r : Reservation.row)
  (m1 m2 : list CargoOffer.row) (o : CargoOffer.row) :
  cargo_offers d = m1 ++ o :: m2 ->
  CargoOffer.id o = Reservation.cargo_offer_id r ->
  forallb (fun x => negb (Z.eqb (CargoOffer.id x) (Reservation.cargo_offer_id r)))
    (m1 ++ m2) = true ->
  Track.View.cargo_offers (Track.select_row d uid r)
  = if match CargoOffer.is_active o with
       | Some b => b
       | None => false
       end || has_role d uid admin
    then Some (Track.View.mkRoute
                 (CargoOffer.departure_city o) (CargoOffer.departure_country o)
                 (CargoOffer.departure_country_flag o) (CargoOffer.arrival_city o)
                 (CargoOffer.arrival_country o) (CargoOffer.arrival_country_flag o)
                 (CargoOffer.departure_date o))
    else None.
Proof.
  intros Hd Ho Hpk. apply forallb_app_inv in Hpk as [H1 H2].
  unfold Track.select_row. cbn [Track.View.cargo_offers]. rewrite Hd.
  assert (Hid : forall x : CargoOffer.row,
             Z.eqb (CargoOffer.id x) (Reservation.cargo_offer_id r) &&
             rls_using cargo_offers_policies SELECT d uid x = true ->
             Z.eqb (CargoOffer.id x) (Reservation.cargo_offer_id r) = true).
  { intros x Hx. apply andb_prop in Hx as [Hx _]. exact Hx. }
  rewrite find_app_skip by (exact (find_none _ _ m1 Hid H1)).
  cbn [find]. rewrite Ho, Z.eqb_refl, rls_select_cargo_offer. cbn [andb].
  destruct (_ || _); [reflexivity|].
  rewrite (find_none _ _ m2 Hid H2). reflexivity.
Qed.

(** C5.  The lookup of the Track page, for ASCII input: it trims and
    upper-cases what was typed and compares it with the stored code,
    under the SELECT policies of reservations.  (a) Without a session
    it never finds anything.  (b) Nor does a signed-in caller who is not
    an administrator and owns no reservation carrying the searched code,
    whether or not another user's reservation carries it.  (c) For the
    owner or an administrator, when one stored reservation carries code
    [c], every input [s] whose trimmed, upper-cased form is [c] returns
    that reservation.  (d) When no stored reservation carries the
    searched code the answer is "no parcel found", not an error.
    (e) The row returned holds the reservation's id, code, kilos,
    description, status and timestamps, and does not depend on who owns
    the reservation; its route and date are those of the one offer the
    reservation's cargo_offer_id refers to when that offer is active or
    the caller is an administrator, and are absent otherwise.  (f) A
    non-empty code in the URL is searched like the same text typed in
    the field. *)
Theorem tracking_lookup_under_row_security :
  (forall code trackingCode d,
      Track.handleSearch None code trackingCode d = Track.not_searched \/
      Track.handleSearch None code trackingCode d = Track.no_parcel_found) /\
  (forall uid d s,
      is_ascii s = true ->
      has_role d uid admin = false ->
      forallb (fun x => negb (uid_is uid (Reservation.user_id x) &&
                              text_eq (Reservation.tracking_code x)
                                (Some (toUpperCase (trim s)))))
        (reservations d) = true ->
      Track.handleSearch uid None s d = Track.not_searched \/
      Track.handleSearch uid None s d = Track.no_parcel_found) /\
  (forall uid d l1 r l2 c s,
      is_ascii s = true ->
      reservations d = l1 ++ r :: l2 ->
      Reservation.tracking_code r = Some c ->
      forallb (fun x => negb (text_eq (Reservation.tracking_code x) (Some c)))
        (l1 ++ l2) = true ->
      uid_is uid (Reservation.user_id r) || has_role d uid admin = true ->
      c <> EmptyString ->
      toUpperCase (trim s) = c ->
      Track.handleSearch uid None s d = Track.found (Track.select_row d uid r) /\
      forall trackingCode,
        Track.handleSearch uid (Some s) trackingCode d
        = Track.found (Track.select_row d uid r)) /\
  (forall uid d s,
      is_ascii s = true ->
      trim s <> EmptyString ->
      forallb (fun x => negb (text_eq (Reservation.tracking_code x)
                                (Some (toUpperCase (trim s)))))
        (reservations d) = true ->
      Track.handleSearch uid None s d = Track.no_parcel_found) /\
  (forall d uid r,
      Track.View.id (Track.select_row d uid r) = Reservation.id r /\
      Track.View.tracking_code (Track.select_row d uid r) = Reservation.tracking_code r /\
      Track.View.kilos_reserved (Track.select_row d uid r) = Reservation.kilos_reserved r /\
      Track.View.shipment_description (Track.select_row d uid r)
      = Reservation.shipment_description r /\
      Track.View.status (Track.select_row d uid r) = Reservation.status r /\
      Track.View.status_updated_at (Track.select_row d uid r)
      = Reservation.status_updated_at r /\
      Track.View.created_at (Track.select_row d uid r) = Reservation.created_at r /\
      (forall u,
          Track.select_row d uid (Reservation.with_user_id u r) = Track.select_row d uid r) /\
      (forall m1 o m2,
          cargo_offers d = m1 ++ o :: m2 ->
          CargoOffer.id o = Reservation.cargo_offer_id r ->
          forallb (fun x => negb (Z.eqb (CargoOffer.id x) (Reservation.cargo_offer_id r)))
            (m1 ++ m2) = true ->
          Track.View.cargo_offers (Track.select_row d uid r)
          = if match CargoOffer.is_active o with
               | Some b => b
               | None => false
               end || has_role d uid admin
            then Some (Track.View.mkRoute
                         (CargoOffer.departure_city o) (CargoOffer.departure_country o)
                         (CargoOffer.departure_country_flag o) (CargoOffer.arrival_city o)
                         (CargoOffer.arrival_country o) (CargoOffer.arrival_country_flag o)
                         (CargoOffer.departure_date o))
            else None)) /\
  (forall uid s trackingCode d,
      s <> EmptyString ->
      Track.handleSearch uid (Some s) trackingCode d = Track.handleSearch uid None s d).
Proof.
  split; [|split; [|split; [|split; [|split]]]].
  - intros code trackingCode d. unfold Track.handleSearch.
    destruct (String.eqb (trim _) EmptyString); [left; reflexivity|right].
    rewrite select_by_tracking_code_none; [reflexivity|].
    apply forallb_forall. intros x _. rewrite rls_select_reservation. reflexivity.
  - intros uid d s _ Hadmin Hown. unfold Track.handleSearch.
    destruct (String.eqb (trim s) EmptyString); [left; reflexivity|right].
    rewrite select_by_tracking_code_none; [reflexivity|].
    revert Hown. apply forallb_impl. intros x Hx.
    rewrite rls_select_reservation, Hadmin, orb_false_r. exact Hx.
  - intros uid d l1 r l2 c s _ Hd Hc Hu Hr Hne Hs.
    assert (Ht : String.eqb (trim s) EmptyString = false).
    { apply toUpperCase_nonempty. rewrite Hs. exact Hne. }
    destruct (handleSearch_query uid s d Ht) as [Hq Hcode].
    assert (Hfound : Track.handleSearch uid None s d
                     = Track.found (Track.select_row d uid r)).
    { rewrite Hq, Hs, (select_by_tracking_code_one d uid c l1 l2 r); auto. }
    split; [exact Hfound|]. intros tc. rewrite Hcode. exact Hfound.
  - intros uid d s _ Hne Hmiss.
    assert (Ht : String.eqb (trim s) EmptyString = false).
    { apply String.eqb_neq. exact Hne. }
    destruct (handleSearch_query uid s d Ht) as [Hq _].
    rewrite Hq, select_by_tracking_code_none; [reflexivity|].
    revert Hmiss. apply forallb_impl. intros x Hx.
    apply negb_true_iff in Hx. rewrite Hx, andb_false_r. reflexivity.
  - intros d uid r. do 7 (split; [reflexivity|]). split; [intros u; reflexivity|].
    intros m1 o m2. apply select_row_cargo_offers.
  - intros uid s tc d Hs. unfold Track.handleSearch.
    apply String.eqb_neq in Hs. rewrite Hs. reflexivity.
Qed.

Lemma tracking_lookup_under_row_security_witness :
  toUpperCase (trim "  kg-ab12cd34 ") = "KG-AB12CD34"%string /\
  Track.handleSearch (Some 1) None "  kg-ab12cd34 " Sample.db1
  = Track.found
      (Track.View.mkReservation 501 (Some "KG-AB12CD34"%string) 15 None
         pending_submission 1000 1000
         (Some (Track.View.mkRoute "Douala" "Cameroun" "CM" "Paris" "France" "FR"
                  "2026-03-01"))) /\
  (Track.handleSearch (Some 2) None "  kg-ab12cd34 " Sample.db1 = Track.not_searched \/
   Track.handleSearch (Some 2) None "  kg-ab12cd34 " Sample.db1 = Track.no_parcel_found) /\
  Track.handleSearch (Some 1) None "KG-ZZZZZZZZ" Sample.db1 = Track.no_parcel_found /\
  Track.handleSearch (Some 1) (Some "kg-ab12cd34"%string) EmptyString Sample.db1
  = Track.handleSearch (Some 1) None "kg-ab12cd34" Sample.db1.
Proof.
  split; [reflexivity|]. split; [|split; [|split]].
  - refine (proj1 (proj1 (proj2 (proj2 tracking_lookup_under_row_security))
                     (Some 1) Sample.db1 []
                     (Reservation.mk 501 1 100 15 None pending_submission
                        (Some "KG-AB12CD34"%string) 1000 1000 1000)
                     [] "KG-AB12CD34"%string "  kg-ab12cd34 "%string
                     _ _ _ _ _ _ _)).
    + reflexivity.
    + reflexivity.
    + reflexivity.
    + reflexivity.
    + reflexivity.
    + discriminate.
    + reflexivity.
  - exact (proj1 (proj2 tracking_lookup_under_row_security)
             (Some 2) Sample.db1 "  kg-ab12cd34 "%string eq_refl eq_refl eq_refl).
  - refine (proj1 (proj2 (proj2 (proj2 tracking_lookup_under_row_security)))
              (Some 1) Sample.db1 "KG-ZZZZZZZZ"%string eq_refl _ eq_refl).
    discriminate.
  - refine (proj2 (proj2 (proj2 (proj2 (proj2 tracking_lookup_under_row_security))))
              (Some 1) "kg-ab12cd34"%string EmptyString Sample.db1 _).
    discriminate.
Defined.

(** ** Status transitions *)

Lemma update_rows_skip (e : env) (uid : option uuid) (rid : uuid)
  (s : shipment_status) (rows : list Reservation.row) (d : db) :
  forallb (fun x => negb (Z.eqb (Reservation.id x) rid)) rows = true ->
  update_reservations_rows e uid (fun x => Z.eqb (Reservation.id x) rid) s rows d
  = Ok (rows, d).
Proof.
  induction rows as [|x rows IH]; [reflexivity|]. cbn [forallb]. intros H.
  apply andb_prop in H as [Hx Hrows]. apply negb_true_iff in Hx.
  cbn [update_reservations_rows]. rewrite Hx. cbn [andb].
  rewrite (IH Hrows). reflexivity.
Qed.

Lemma update_rows_app (e : env) (uid : option uuid) (rid : uuid)
  (s : shipment_status) (l1 rest : list Reservation.row) (d : db) :
  forallb (fun x => negb (Z.eqb (Reservation.id x) rid)) l1 = true ->
  update_reservations_rows e uid (fun x => Z.eqb (Reservation.id x) rid) s (l1 ++ rest) d
  = '(rest', d') <- update_reservations_rows e uid
                      (fun x => Z.eqb (Reservation.id x) rid) s rest d ;;
    Ok (l1 ++ rest', d').
Proof.
  induction l1 as [|x l1 IH]; cbn [forallb app]; intros H.
  - destruct (update_reservations_rows _ _ _ _ rest d) as [[rest' d']|]; reflexivity.
  - apply andb_prop in H as [Hx Hl1]. apply negb_true_iff in Hx.
    cbn [update_reservations_rows]. rewrite Hx. cbn [andb].
    rewrite (IH Hl1).
    destruct (update_reservations_rows _ _ _ _ rest d) as [[rest' d']|]; reflexivity.
Qed.

Lemma rls_update_reservation_admin (d : db) (uid : option uuid) (r : Reservation.row) :
  has_role d uid admin = true ->
  rls_using reservations_policies SELECT d uid r = true /\
  rls_using reservations_policies UPDATE d uid r = true /\
  rls_with_check reservations_policies UPDATE d uid r = true.
Proof.
  intros H. cbn. rewrite H. rewrite !orb_true_r. auto.
Qed.

Lemma shipment_status_eqb_eq (a b : shipment_status) :
  shipment_status_eqb a b = true <-> a = b.
Proof.
  destruct a, b; cbn; split; intros H; try reflexivity; discriminate H.
Qed.

Section StatusTransition.

(** An administrator [uid] acts on reservation [r], the one stored row
    with its id. *)
Variables (e : env) (uid : option uuid) (d : db).
Variables (l1 l2 : list Reservation.row) (r : Reservation.row).
Hypothesis Hadmin : has_role d uid admin = true.
Hypothesis Hd : reservations d = l1 ++ r :: l2.
Hypothesis Hother :
  forallb (fun x => negb (Z.eqb (Reservation.id x) (Reservation.id r))) (l1 ++ l2) = true.

(** The row a status change leaves, and the history row it appends. *)
Lemma update_status_changed (s : shipment_status) :
  existsb (fun h => Z.eqb (StatusHistory.id h) (gen_random_uuid e)) (status_history d) = false ->
  Reservation.status r <> s ->
  update_reservations_status e uid
    (fun x => Z.eqb (Reservation.id x) (Reservation.id r)) s d
  = Ok (mkdb (auth_users d) (user_roles d) (cargo_offers d)
          (l1 ++ Reservation.with_updated_at (now e)
                   (Reservation.with_status_updated_at (now e)
                      (Reservation.with_status s r)) :: l2)
          (status_history d
             ++ [StatusHistory.mk (gen_random_uuid e) (Reservation.id r) s None (now e)])).
Proof.
  intros Hfresh Hneq.
  destruct (forallb_app_inv _ _ _ Hother) as [H1 H2].
  unfold update_reservations_status. rewrite Hd at 1.
  rewrite (update_rows_app _ _ _ _ _ _ _ H1).
  cbn [update_reservations_rows]. rewrite Z.eqb_refl.
  destruct (rls_update_reservation_admin d uid r Hadmin) as (Hsel & Hupd & _).
  rewrite Hsel, Hupd. cbn [andb].
  unfold log_status_change. cbn [Reservation.with_status Reservation.status].
  replace (shipment_status_eqb (Reservation.status r) s) with false.
  2:{ symmetry. apply not_true_is_false. intros H.
      apply shipment_status_eqb_eq in H. contradiction. }
  cbn [negb]. unfold insert_status_history.
  change (Reservation.id (Reservation.with_status s r)) with (Reservation.id r).
  cbn [StatusHistory.id]. rewrite Hfresh. cbn [negb guard bind].
  replace (existsb (fun x => Z.eqb (Reservation.id x) (Reservation.id r)) (reservations d))
    with true.
  2:{ symmetry. rewrite Hd, existsb_app. cbn [existsb]. rewrite Z.eqb_refl.
      rewrite orb_true_r. reflexivity. }
  cbn [guard bind].
  match goal with
  | |- context [rls_with_check reservations_policies UPDATE ?d1 uid ?row] =>
      destruct (rls_update_reservation_admin d1 uid row Hadmin) as (_ & _ & Hchk);
      rewrite Hchk
  end.
  cbn [guard bind]. rewrite (update_rows_skip _ _ _ _ _ _ H2). reflexivity.
Qed.

(** A request for the status the reservation already has. *)
Lemma update_status_same :
  update_reservations_status e uid
    (fun x => Z.eqb (Reservation.id x) (Reservation.id r)) (Reservation.status r) d
  = Ok (mkdb (auth_users d) (user_roles d) (cargo_offers d)
          (l1 ++ Reservation.with_updated_at (now e) r :: l2)
          (status_history d)).
Proof.
  destruct (forallb_app_inv _ _ _ Hother) as [H1 H2].
  unfold update_reservations_status. rewrite Hd at 1.
  rewrite (update_rows_app _ _ _ _ _ _ _ H1).
  cbn [update_reservations_rows]. rewrite Z.eqb_refl.
  destruct (rls_update_reservation_admin d uid r Hadmin) as (Hsel & Hupd & _).
  rewrite Hsel, Hupd. cbn [andb].
  unfold log_status_change. cbn [Reservation.with_status Reservation.status].
  replace (shipment_status_eqb (Reservation.status r) (Reservation.status r)) with true
    by (symmetry; apply shipment_status_eqb_eq; reflexivity).
  cbn [negb bind].
  match goal with
  | |- context [rls_with_check reservations_policies UPDATE ?d1 uid ?row] =>
      destruct (rls_update_reservation_admin d1 uid row Hadmin) as (_ & _ & Hchk);
      rewrite Hchk
  end.
  cbn [guard bind]. rewrite (update_rows_skip _ _ _ _ _ _ H2). cbn [bind].
  destruct r; reflexivity.
Qed.

(** C6.  An administrator sets reservation [r] to status [s]; [r] is the
    one stored row with its id and gen_random_uuid() is fresh for
    status_history.  The update succeeds, and
    - when [s] differs from the current status, exactly one history row
      (reservation r, status s, no notes, created now) is appended and
      the stored row carries status [s] and status_updated_at = now;
    - when [s] is the current status, status_history is unchanged and
      so is the row, status_updated_at included, apart from the
      updated_at column that update_reservations_updated_at refreshes
      on every UPDATE.
    No other row and no offer is touched. *)
Theorem status_transition_logs_iff_changed (s : shipment_status) :
  existsb (fun h => Z.eqb (StatusHistory.id h) (gen_random_uuid e)) (status_history d) = false ->
  exists d' r',
    AdminDashboard.handleUpdateStatus e uid (Some (Reservation.id r)) s d
    = (AdminDashboard.toast "Statut mis a jour", d') /\
    reservations d' = l1 ++ r' :: l2 /\
    cargo_offers d' = cargo_offers d /\
    (Reservation.status r <> s ->
       status_history d'
       = status_history d
         ++ [StatusHistory.mk (gen_random_uuid e) (Reservation.id r) s None (now e)] /\
       Reservation.status r' = s /\
       Reservation.status_updated_at r' = now e) /\
    (Reservation.status r = s ->
       status_history d' = status_history d /\
       Reservation.status_updated_at r' = Reservation.status_updated_at r /\
       r' = Reservation.with_updated_at (now e) r).
Proof.
  intros Hfresh.
  unfold AdminDashboard.handleUpdateStatus.
  destruct (shipment_status_eqb (Reservation.status r) s) eqn:Heq.
  - apply shipment_status_eqb_eq in Heq. subst s.
    rewrite update_status_same.
    eexists. exists (Reservation.with_updated_at (now e) r).
    split; [reflexivity|]. split; [reflexivity|]. split; [reflexivity|].
    split; [intros H; contradiction H; reflexivity|].
    intros _. split; [reflexivity|]. split; reflexivity.
  - assert (Hneq : Reservation.status r <> s).
    { intros H. apply shipment_status_eqb_eq in H. rewrite H in Heq. discriminate. }
    rewrite (update_status_changed s Hfresh Hneq).
    eexists. exists (Reservation.with_updated_at (now e)
                       (Reservation.with_status_updated_at (now e)
                          (Reservation.with_status s r))).
    split; [reflexivity|]. split; [reflexivity|]. split; [reflexivity|].
    split; [|intros H; contradiction].
    intros _. split; [reflexivity|]. split; reflexivity.
Qed.

End StatusTransition.

Lemma status_transition_logs_iff_changed_witness :
  has_role Sample.db1 (Some 9) admin = true /\
  exists d' r',
    AdminDashboard.handleUpdateStatus Sample.env2 (Some 9) (Some 501) in_transit Sample.db1
    = (AdminDashboard.toast "Statut mis a jour", d') /\
    reservations d' = [] ++ r' :: [] /\
    status_history d' = [StatusHistory.mk 502 501 in_transit None 2000] /\
    Reservation.status_updated_at r' = 2000.
Proof.
  split; [reflexivity|].
  destruct (status_transition_logs_iff_changed Sample.env2 (Some 9) Sample.db1 [] []
              (Reservation.mk 501 1 100 15 None pending_submission
                 (Some "KG-AB12CD34"%string) 1000 1000 1000)
              eq_refl eq_refl eq_refl in_transit eq_refl)
    as (d' & r' & Hrun & Hrows & _ & Hchanged & _).
  exists d', r'. split; [exact Hrun|]. split; [exact Hrows|].
  destruct Hchanged as (Hhist & _ & Htime); [discriminate|].
  split; [exact Hhist|exact Htime].
Defined.

(** ** Reserve, then cancel *)

Lemma filter_all {A : Type} (p : A -> bool) (l : list A) :
  forallb p l = true -> filter p l = l.
Proof.
  induction l as [|a l IH]; cbn; [reflexivity|]. intros H.
  apply andb_prop in H as [Ha Hl]. rewrite Ha, (IH Hl). reflexivity.
Qed.

Lemma existsb_false_forallb {A : Type} (p : A -> bool) (l : list A) :
  existsb p l = false -> forallb (fun a => negb (p a)) l = true.
Proof.
  induction l as [|a l IH]; cbn; [reflexivity|]. intros H.
  apply orb_false_elim in H as [Ha Hl]. rewrite Ha, (IH Hl). reflexivity.
Qed.

Lemma find_map_same_id (g : CargoOffer.row -> CargoOffer.row) (oid : uuid)
  (l : list CargoOffer.row) :
  (forall o, CargoOffer.id (g o) = CargoOffer.id o) ->
  find (fun o => Z.eqb (CargoOffer.id o) oid) (map g l)
  = option_map g (find (fun o => Z.eqb (CargoOffer.id o) oid) l).
Proof.
  intros Hg. induction l as [|o l IH]; cbn [map find]; [reflexivity|].
  rewrite Hg. destruct (Z.eqb (CargoOffer.id o) oid); [reflexivity|exact IH].
Qed.

(** Adding back what was taken: the second UPDATE undoes the first on
    the available_kilos column. *)
Lemma adjust_back (e e' : env) (oid : uuid) (k : Z) (o : CargoOffer.row) :
  CargoOffer.available_kilos
    (adjust_available e' oid (fun a => a + k)
       (adjust_available e oid (fun a => a - k) o))
  = CargoOffer.available_kilos o.
Proof.
  rewrite adjust_available_kilos.
  destruct (adjust_available_id e oid (fun a => a - k) o) as (Hid & _).
  rewrite Hid, adjust_available_kilos.
  destruct (Z.eqb (CargoOffer.id o) oid); lia.
Qed.

(** C7.  A reservation has just been inserted (any caller, any kilos, any
    offer state within the INTEGER column); deleting that row, by a role
    row level security does not stop, succeeds and the AFTER DELETE
    trigger gives every offer back the available_kilos it had before
    the reservation; the reservations table is as before. *)
Theorem reserve_then_cancel_restores_available (e e' : env) (uid : option uuid)
  (v : ReservationInsert.row) (d d1 : db) :
  forallb (fun o => in_int4 (CargoOffer.available_kilos o)) (cargo_offers d) = true ->
  insert_reservation e uid v d = Ok d1 ->
  exists d2,
    delete_reservations e'
      (fun r => Z.eqb (Reservation.id r) (Reservation.id (inserted_row e v))) d1
    = Ok d2 /\
    (forall oid, available_of d2 oid = available_of d oid) /\
    map CargoOffer.available_kilos (cargo_offers d2)
    = map CargoOffer.available_kilos (cargo_offers d) /\
    reservations d2 = reservations d.
Proof.
  intros Hcol Hins. apply insert_reservation_inv in Hins as [Hacc ->].
  unfold insert_accepted in Hacc.
  apply andb_prop in Hacc as [Hacc _]. apply andb_prop in Hacc as [Hacc _].
  apply andb_prop in Hacc as [Hacc _]. apply andb_prop in Hacc as [Hacc _].
  apply andb_prop in Hacc as [_ Hpk].
  apply negb_true_iff in Hpk. apply existsb_false_forallb in Hpk.
  destruct (inserted_row_columns e v) as (Ho & Hk & _).
  unfold delete_reservations, inserted. cbn [reservations with_reservations
    status_history with_status_history auth_users user_roles cargo_offers].
  rewrite !filter_app. cbn [filter]. rewrite Z.eqb_refl. cbn [negb].
  rewrite (filter_none _ _ Hpk).
  rewrite (filter_all (fun r => negb (Z.eqb (Reservation.id r)
                                        (Reservation.id (inserted_row e v))))
             _ Hpk).
  cbn [app foldM]. unfold update_available_kilos.
  rewrite update_cargo_offers_available_eq.
  cbn [cargo_offers with_status_history with_reservations]. rewrite Ho, Hk.
  set (oid := ReservationInsert.cargo_offer_id v) in *.
  set (k := ReservationInsert.kilos_reserved v) in *.
  replace (forallb (adjustable oid (fun a => a + k))
             (map (adjust_available e oid (fun a => a - k)) (cargo_offers d)))
    with true.
  2:{ symmetry. rewrite forallb_map. revert Hcol. apply forallb_impl.
      intros o Hin4. unfold adjustable.
      destruct (adjust_available_id e oid (fun a => a - k) o) as (Hid & _).
      rewrite Hid, adjust_available_kilos.
      destruct (Z.eqb (CargoOffer.id o) oid); [|reflexivity].
      cbn [negb orb]. replace (CargoOffer.available_kilos o - k + k)
        with (CargoOffer.available_kilos o) by lia. exact Hin4. }
  cbn [bind]. eexists. split; [reflexivity|].
  unfold with_cargo_offers, with_status_history, with_reservations.
  cbn [cargo_offers reservations auth_users user_roles status_history].
  split; [|split].
  - intros x. unfold available_of. cbn [cargo_offers].
    rewrite !find_map_same_id by (intros o; apply adjust_available_id).
    destruct (find _ (cargo_offers d)) as [o|]; [|reflexivity].
    cbn [option_map]. rewrite adjust_back. reflexivity.
  - rewrite !map_map. apply map_ext. intros o. apply adjust_back.
  - apply app_nil_r.
Qed.

Lemma reserve_then_cancel_restores_available_witness :
  insert_reservation Sample.env1 (Some 1)
    (modal_insert 1 (ReservationModal.listed Sample.offer1) 15 EmptyString) Sample.db0
  = Ok Sample.db1 /\
  available_of Sample.db1 100 = Some 5 /\
  exists d2,
    delete_reservations Sample.env2 (fun r => Z.eqb (Reservation.id r) 501) Sample.db1
    = Ok d2 /\
    available_of d2 100 = Some 20.
Proof.
  split; [reflexivity|]. split; [reflexivity|].
  destruct (reserve_then_cancel_restores_available Sample.env1 Sample.env2 (Some 1)
              (modal_insert 1 (ReservationModal.listed Sample.offer1) 15 EmptyString)
              Sample.db0 Sample.db1 eq_refl eq_refl)
    as (d2 & Hdel & Havail & _).
  exists d2. split; [exact Hdel|]. exact (Havail 100).
Defined.

(** ** Tracking codes *)

Lemma float8_round_log2 (n : Z) :
  0 <= n < 2 ^ 58 ->
  Z.log2 n - 52 <= 0 \/
  (Z.log2 n = 53 /\ 2 ^ 53 <= n < 2 ^ 54) \/
  (Z.log2 n = 54 /\ 2 ^ 54 <= n < 2 ^ 55) \/
  (Z.log2 n = 55 /\ 2 ^ 55 <= n < 2 ^ 56) \/
  (Z.log2 n = 56 /\ 2 ^ 56 <= n < 2 ^ 57) \/
  (Z.log2 n = 57 /\ 2 ^ 57 <= n < 2 ^ 58).
Proof.
  intros [Hlo Hhi].
  destruct (Z.le_gt_cases (Z.log2 n - 52) 0) as [H|H]; [left; exact H|right].
  assert (Hpos : 0 < n).
  { destruct (Z.eq_dec n 0) as [->|]; [cbn in H; lia|lia]. }
  pose proof (Z.log2_spec n Hpos) as Hspec.
  assert (Hlt : Z.log2 n < 58) by (apply Z.log2_lt_pow2; lia).
  assert (Hc : Z.log2 n = 53 \/ Z.log2 n = 54 \/ Z.log2 n = 55 \/ Z.log2 n = 56
               \/ Z.log2 n = 57) by lia.
  destruct Hc as [Hc|[Hc|[Hc|[Hc|Hc]]]]; rewrite Hc in Hspec |- *;
    change (Z.succ 53) with 54 in Hspec; change (Z.succ 54) with 55 in Hspec;
    change (Z.succ 55) with 56 in Hspec; change (Z.succ 56) with 57 in Hspec;
    change (Z.succ 57) with 58 in Hspec; tauto.
Qed.

(** One binade of [float8_round]: the spacing [ulp] and its half are
    constants there. *)
Ltac float8_binade H sh ulp half :=
  rewrite H; change (_ - 52) with sh; cbv zeta;
  change (sh <=? 0) with false; cbv iota;
  rewrite Z.shiftr_div_pow2, !Z.shiftl_mul_pow2 by lia;
  change (2 ^ sh) with ulp; change (1 * 2 ^ (sh - 1)) with half;
  match goal with
  | |- context [if (?h <? ?r) || ((?h =? ?r) && ?o) then _ else _] =>
      destruct (Z.ltb_spec h r); destruct (Z.eqb_spec h r); destruct o; cbn [orb andb];
      Z.div_mod_to_equations; lia
  end.

(** Below 2^6 rounding moves a value by at most 2^-48 and never across a
    multiple of 2^-47. *)
Lemma float8_round_grid (n c : Z) :
  0 <= n < 2 ^ 58 ->
  (n <= 32 * c -> float8_round n <= 32 * c) /\
  (32 * c <= n -> 32 * c <= float8_round n) /\
  n - 16 <= float8_round n <= n + 16.
Proof.
  intros Hn. unfold float8_round.
  destruct (float8_round_log2 n Hn) as [H|[[H Hb]|[[H Hb]|[[H Hb]|[[H Hb]|[H Hb]]]]]].
  - apply Z.leb_le in H. rewrite H. lia.
  - float8_binade H 1 2 1.
  - float8_binade H 2 4 2.
  - float8_binade H 3 8 4.
  - float8_binade H 4 16 8.
  - float8_binade H 5 32 16.
Qed.

Lemma random_index_bounds (v : Z) :
  0 <= v < 2 ^ 52 ->
  1 <= random_index v <= 36 /\
  (random_index v = 36 * v / 2 ^ 52 + 1 \/
   random_index v = 36 * v / 2 ^ 52 + 2 /\
   (36 * v / 2 ^ 52 + 1) * 2 ^ 52 <= 36 * v + 32).
Proof.
  intros Hv. unfold random_index, float8_one.
  change (Z.of_nat (String.length chars)) with 36.
  set (n := v * 36).
  assert (Hn : 0 <= n < 2 ^ 58) by (subst n; lia).
  set (p := float8_round n).
  set (a := 36 * v / 2 ^ 52).
  assert (Ha : a * 2 ^ 52 <= n < (a + 1) * 2 ^ 52 /\ 0 <= a <= 35).
  { subst a n. Z.div_mod_to_equations. lia. }
  pose proof (float8_round_grid n 0 Hn) as (_ & Hp0 & Hperr).
  pose proof (float8_round_grid n (2 ^ 47 * 36 - 1) Hn) as (Hp36 & _ & _).
  pose proof (float8_round_grid n (2 ^ 47 * a) Hn) as (_ & Hpa & _).
  pose proof (float8_round_grid n (2 ^ 47 * (a + 1)) Hn) as (Hpa1 & _ & _).
  fold p in Hp0, Hperr, Hp36, Hpa, Hpa1.
  assert (Hm : 0 <= p + 2 ^ 52 < 2 ^ 58) by lia.
  set (s := float8_round (p + 2 ^ 52)).
  pose proof (float8_round_grid _ (2 ^ 47) Hm) as (_ & Hs1 & Hserr).
  pose proof (float8_round_grid _ (2 ^ 47 * 37 - 1) Hm) as (Hs37 & _ & _).
  pose proof (float8_round_grid _ (2 ^ 47 * (a + 1)) Hm) as (_ & Hsa & _).
  pose proof (float8_round_grid _ (2 ^ 47 * (a + 2)) Hm) as (Hsa2 & _ & _).
  fold s in Hs1, Hserr, Hs37, Hsa, Hsa2.
  subst n. Z.div_mod_to_equations. lia.
Qed.

Lemma random_index_range (v : Z) :
  0 <= v < 2 ^ 52 -> 1 <= random_index v <= 36.
Proof.
  intros Hv. exact (proj1 (random_index_bounds v Hv)).
Qed.

(** The draw 4253399648072135 / 2^52 lies in [33/36, 34/36); its product
    with 36 rounds to 34.0, and the position taken is 35. *)
Example random_index_rounds_up :
  33 * 2 ^ 52 <= 36 * 4253399648072135 < 34 * 2 ^ 52 /\
  float8_round (4253399648072135 * 36) = 34 * float8_one /\
  random_index 4253399648072135 = 35.
Proof.
  split; [split; [discriminate|reflexivity]|]. split; reflexivity.
Qed.

Lemma substr_chars (i : Z) :
  1 <= i <= 36 ->
  exists c, substr chars i 1 = String c EmptyString /\
            is_upper_alnum c = true /\
            symbol_index (substr chars i 1) = i.
Proof.
  intros H.
  assert (Hn : exists n, (n < 36)%nat /\ i = Z.of_nat n + 1)
    by (exists (Z.to_nat (i - 1)); lia).
  destruct Hn as (n & Hn & ->).
  do 36 (destruct n as [|n]; [eexists; split; [reflexivity|split; reflexivity]|]).
  lia.
Qed.

Lemma append_assoc (a b c : string) : ((a ++ b) ++ c = a ++ (b ++ c))%string.
Proof.
  induction a as [|x a IH]; cbn; [reflexivity|]. rewrite IH. reflexivity.
Qed.

Lemma tracking_code_loop_symbols (n k : nat) (rnd : nat -> Z) (result : string) :
  tracking_code_loop n k rnd result = (result ++ symbols n k rnd)%string.
Proof.
  revert k result. induction n as [|n IH]; intros k result; cbn [tracking_code_loop symbols].
  - induction result as [|x result IHr]; cbn; [reflexivity|]. rewrite <- IHr. reflexivity.
  - rewrite IH, append_assoc. reflexivity.
Qed.

Lemma symbols_wellformed (n k : nat) (rnd : nat -> Z) :
  (forall j, 0 <= rnd j < 2 ^ 52) ->
  String.length (symbols n k rnd) = n /\
  forallb is_upper_alnum (list_ascii_of_string (symbols n k rnd)) = true.
Proof.
  intros Hrnd. revert k. induction n as [|n IH]; intros k; cbn [symbols].
  - split; reflexivity.
  - destruct (substr_chars (random_index (rnd k)) (random_index_range _ (Hrnd k)))
      as (c & -> & Hc & _).
    destruct (IH (S k)) as [Hlen Hall].
    cbn [append String.length list_ascii_of_string forallb].
    rewrite Hlen, Hc, Hall. split; reflexivity.
Qed.

Lemma generate_tracking_code_format (rnd : nat -> Z) :
  (forall j, 0 <= rnd j < 2 ^ 52) ->
  String.length (generate_tracking_code rnd) = 11%nat /\
  matches_tracking_format (generate_tracking_code rnd) = true.
Proof.
  intros Hrnd. unfold generate_tracking_code. rewrite tracking_code_loop_symbols.
  destruct (symbols_wellformed 8 0 rnd Hrnd) as [Hlen Hall].
  cbn [append String.length matches_tracking_format]. rewrite Hlen, Hall.
  split; reflexivity.
Qed.














Lemma sample_draws_in_range (j : nat) : 0 <= Sample.draws j < 2 ^ 52.
Proof.
  do 7 (destruct j as [|j]; [split; [discriminate|reflexivity]|]).
  split; [discriminate|reflexivity].
Qed.


(** ** Deleting a reservation through the data API *)

Lemma with_reservations_same (d : db) : with_reservations (reservations d) d = d.
Proof.
  destruct d; reflexivity.
Qed.

Lemma with_status_history_same (d : db) : with_status_history (status_history d) d = d.
Proof.
  destruct d; reflexivity.
Qed.


(** ** Client-chosen tracking codes *)

Lemma inserted_row_tracking_code (e : env) (v : ReservationInsert.row) :
  Reservation.tracking_code (inserted_row e v)
  = match ReservationInsert.tracking_code v with
    | Some c => Some c
    | None => Some (generate_tracking_code (random e))
    end.
Proof.
  unfold inserted_row, set_tracking_code.
  change (Reservation.tracking_code (reservation_defaults e v))
    with (ReservationInsert.tracking_code v).
  destruct (ReservationInsert.tracking_code v) eqn:Hv; [exact Hv|reflexivity].
Qed.

Lemma rls_insert_reservation (e : env) (d : db) (uid : option uuid)
  (v : ReservationInsert.row) :
  rls_with_check reservations_policies INSERT d uid (inserted_row e v)
  = uid_is uid (ReservationInsert.user_id v).
Proof.
  destruct (inserted_row_columns e v) as (_ & _ & Hu).
  cbn. rewrite Hu, orb_false_r. reflexivity.
Qed.

(** C10.  (1) The BEFORE INSERT trigger generates a code only for a NULL
    tracking_code and leaves any other value as sent.  (2) The INSERT
    policy compares auth.uid() with user_id and looks at nothing else.
    (3) So a user inserting for themselves with a code [c] of their own
    that no stored reservation carries (the other constraints being
    met: fresh id, existing user and offer, INTEGER range) succeeds, and
    the new row carries [c] verbatim.  (4) A code that is already stored
    makes the insert fail. *)
Theorem client_tracking_code_stored_verbatim :
  (forall e v,
      Reservation.tracking_code (inserted_row e v)
      = match ReservationInsert.tracking_code v with
        | Some c => Some c
        | None => Some (generate_tracking_code (random e))
        end) /\
  (forall e d uid v,
      rls_with_check reservations_policies INSERT d uid (inserted_row e v)
      = uid_is uid (ReservationInsert.user_id v)) /\
  (forall e uid v d c,
      ReservationInsert.tracking_code v = Some c ->
      uid_is uid (ReservationInsert.user_id v) = true ->
      in_int4 (ReservationInsert.kilos_reserved v) = true ->
      existsb (fun r => Z.eqb (Reservation.id r)
                          (default (ReservationInsert.id v) (gen_random_uuid e)))
        (reservations d) = false ->
      existsb (fun r => text_eq (Reservation.tracking_code r) (Some c)) (reservations d)
      = false ->
      existsb (Z.eqb (ReservationInsert.user_id v)) (auth_users d) = true ->
      existsb (fun o => Z.eqb (CargoOffer.id o) (ReservationInsert.cargo_offer_id v))
        (cargo_offers d) = true ->
      forallb (adjustable (ReservationInsert.cargo_offer_id v)
                 (fun a => a - ReservationInsert.kilos_reserved v))
        (cargo_offers d) = true ->
      exists d' r,
        insert_reservation e uid v d = Ok d' /\
        reservations d' = reservations d ++ [r] /\
        Reservation.tracking_code r = Some c /\
        Reservation.user_id r = ReservationInsert.user_id v) /\
  (forall e uid v d c d',
      ReservationInsert.tracking_code v = Some c ->
      existsb (fun r => text_eq (Reservation.tracking_code r) (Some c)) (reservations d)
      = true ->
      insert_reservation e uid v d <> Ok d').
Proof.
  split; [exact inserted_row_tracking_code|].
  split; [exact rls_insert_reservation|].
  split.
  - intros e uid v d c Hc Huid Hk Hid Hcode Huser Hoffer Hadj.
    assert (Hrow : Reservation.tracking_code (inserted_row e v) = Some c)
      by (rewrite inserted_row_tracking_code, Hc; reflexivity).
    assert (Hrid : Reservation.id (inserted_row e v)
                   = default (ReservationInsert.id v) (gen_random_uuid e)).
    { unfold inserted_row, set_tracking_code.
      destruct (Reservation.tracking_code (reservation_defaults e v)); reflexivity. }
    assert (Hacc : insert_accepted e uid v d = true).
    { unfold insert_accepted.
      rewrite Hk, rls_insert_reservation, Huid, Hrid, Hid, Hrow, Hcode, Huser, Hoffer, Hadj.
      reflexivity. }
    exists (inserted e v d), (inserted_row e v).
    split; [exact (insert_reservation_accepted e uid v d Hacc)|].
    split; [reflexivity|]. split; [exact Hrow|].
    apply inserted_row_columns.
  - intros e uid v d c d' Hc Hdup Hins.
    apply insert_reservation_inv in Hins as [Hacc _].
    unfold insert_accepted in Hacc.
    apply andb_prop in Hacc as [Hacc _]. apply andb_prop in Hacc as [Hacc _].
    apply andb_prop in Hacc as [Hacc _]. apply andb_prop in Hacc as [_ Hu].
    rewrite inserted_row_tracking_code, Hc, Hdup in Hu. discriminate Hu.
Qed.

Lemma client_tracking_code_stored_verbatim_witness :
  matches_tracking_format "my-own-code" = false /\
  exists d' r,
    insert_reservation Sample.env2 (Some 2)
      (ReservationInsert.mk None 2 200 3 None None (Some "my-own-code"%string)
         None None None) Sample.db1
    = Ok d' /\
    reservations d' = reservations Sample.db1 ++ [r] /\
    Reservation.tracking_code r = Some "my-own-code"%string /\
    Reservation.user_id r = 2.
Proof.
  split; [reflexivity|].
  exact (proj1 (proj2 (proj2 client_tracking_code_stored_verbatim))
           Sample.env2 (Some 2)
           (ReservationInsert.mk None 2 200 3 None None (Some "my-own-code"%string)
              None None None)
           Sample.db1 "my-own-code"%string
           eq_refl eq_refl eq_refl eq_refl eq_refl eq_refl eq_refl eq_refl).
Defined.

(** * Further properties *)

(** ** Who may change what *)

Lemma rls_update_reservation (d : db) (uid : option uuid) (r : Reservation.row) :
  rls_using reservations_policies UPDATE d uid r
  = has_role d uid admin ||
    (uid_is uid (Reservation.user_id r) &&
     shipment_status_eqb (Reservation.status r) pending_submission) /\
  rls_with_check reservations_policies UPDATE d uid r
  = has_role d uid admin ||
    (uid_is uid (Reservation.user_id r) &&
     shipment_status_eqb (Reservation.status r) pending_submission).
Proof.
  split; cbn; rewrite !orb_false_r; reflexivity.
Qed.

Lemma update_rows_not_admin (e : env) (uid : option uuid)
  (where_ : Reservation.row -> bool) (s : shipment_status)
  (rows rows' : list Reservation.row) (d d' : db) :
  has_role d uid admin = false ->
  update_reservations_rows e uid where_ s rows d = Ok (rows', d') ->
  d' = d /\
  map Reservation.status rows' = map Reservation.status rows /\
  map Reservation.status_updated_at rows' = map Reservation.status_updated_at rows.
Proof.
  intros Hrole. revert rows' d'. induction rows as [|OLD rows IH]; intros rows' d'.
  - cbn. intros H. injection H as <- <-. auto.
  - cbn [update_reservations_rows].
    destruct (where_ OLD && rls_using reservations_policies SELECT d uid OLD &&
              rls_using reservations_policies UPDATE d uid OLD) eqn:Hhit.
    + apply andb_prop in Hhit as [_ Hupd].
      rewrite (proj1 (rls_update_reservation d uid OLD)), Hrole in Hupd.
      cbn [orb] in Hupd. apply andb_prop in Hupd as [Hown Hpend].
      apply shipment_status_eqb_eq in Hpend.
      unfold log_status_change. cbn [Reservation.with_status Reservation.status].
      destruct (shipment_status_eqb (Reservation.status OLD) s) eqn:Hs; cbn [negb].
      * apply shipment_status_eqb_eq in Hs. cbn [bind].
        destruct (guard _ _); [|discriminate]. cbn [bind].
        destruct (update_reservations_rows e uid where_ s rows d)
          as [[rest' d2]|] eqn:Hrest; [|discriminate].
        cbn [bind]. intros H. injection H as <- <-.
        destruct (IH _ _ eq_refl) as (-> & H1 & H2).
        split; [reflexivity|]. cbn [map]. rewrite H1, H2.
        split; [rewrite <- Hs; reflexivity|reflexivity].
      * unfold insert_status_history.
        destruct (guard (negb _) unique_violation); [|discriminate]. cbn [bind].
        destruct (guard _ foreign_key_violation); [|discriminate]. cbn [bind].
        match goal with
        | |- context [rls_with_check reservations_policies UPDATE ?d1 uid ?row] =>
            rewrite (proj2 (rls_update_reservation d1 uid row))
        end.
        change (has_role (with_status_history _ d) uid admin) with (has_role d uid admin).
        rewrite Hrole. cbn [orb].
        replace (shipment_status_eqb _ pending_submission) with false.
        { rewrite andb_false_r. discriminate. }
        symmetry. cbn. rewrite <- Hpend.
        destruct s, (Reservation.status OLD); try reflexivity; discriminate Hs.
    + destruct (update_reservations_rows e uid where_ s rows d)
        as [[rest' d2]|] eqn:Hrest; [|discriminate].
      cbn [bind]. intros H. injection H as <- <-.
      destruct (IH _ _ eq_refl) as (-> & H1 & H2).
      split; [reflexivity|]. cbn [map]. rewrite H1, H2. auto.
Qed.

(** X1.  A caller who is not an administrator cannot change the status
    of any reservation, their own included: whatever reservation and
    status handleUpdateStatus is given, every stored status and
    status_updated_at is afterwards what it was, and status_history is
    untouched.  (The owner's UPDATE policy requires the new row to be
    pending_submission still.) *)
Theorem status_changed_by_admin_only (e : env) (uid : option uuid)
  (selectedReservation : option uuid) (newStatus : shipment_status) (d : db) :
  has_role d uid admin = false ->
  let d' := snd (AdminDashboard.handleUpdateStatus e uid selectedReservation newStatus d) in
  map Reservation.status (reservations d') = map Reservation.status (reservations d) /\
  map Reservation.status_updated_at (reservations d')
  = map Reservation.status_updated_at (reservations d) /\
  status_history d' = status_history d.
Proof.
  intros Hrole. unfold AdminDashboard.handleUpdateStatus.
  destruct selectedReservation as [rid|]; [|cbn; auto].
  unfold update_reservations_status.
  destruct (update_reservations_rows e uid _ newStatus (reservations d) d)
    as [[rows d1]|] eqn:Hrows; [|cbn; auto].
  destruct (update_rows_not_admin _ _ _ _ _ _ _ _ Hrole Hrows) as (-> & H1 & H2).
  cbn. auto.
Qed.

Lemma status_changed_by_admin_only_witness :
  has_role Sample.db1 (Some 1) admin = false /\
  fst (AdminDashboard.handleUpdateStatus Sample.env2 (Some 1) (Some 501) delivered Sample.db1)
  = AdminDashboard.toast_error rls_violation /\
  map Reservation.status
    (reservations (snd (AdminDashboard.handleUpdateStatus Sample.env2 (Some 1) (Some 501)
                          delivered Sample.db1)))
  = [pending_submission].
Proof.
  split; [reflexivity|]. split; [reflexivity|].
  exact (proj1 (status_changed_by_admin_only Sample.env2 (Some 1) (Some 501) delivered
                  Sample.db1 eq_refl)).
Defined.

(** X2.  Asking for a status change on a reservation id that is not
    stored is reported as a success ("Statut mis a jour") and changes
    nothing, for any caller. *)
Theorem status_update_of_unknown_reservation (e : env) (uid : option uuid) (rid : uuid)
  (newStatus : shipment_status) (d : db) :
  forallb (fun x => negb (Z.eqb (Reservation.id x) rid)) (reservations d) = true ->
  AdminDashboard.handleUpdateStatus e uid (Some rid) newStatus d
  = (AdminDashboard.toast "Statut mis a jour", d).
Proof.
  intros H. unfold AdminDashboard.handleUpdateStatus, update_reservations_status.
  rewrite (update_rows_skip _ _ _ _ _ _ H). cbn [bind].
  rewrite with_reservations_same. reflexivity.
Qed.

Lemma status_update_of_unknown_reservation_witness :
  AdminDashboard.handleUpdateStatus Sample.env2 (Some 9) (Some 777) delivered Sample.db1
  = (AdminDashboard.toast "Statut mis a jour", Sample.db1).
Proof.
  exact (status_update_of_unknown_reservation Sample.env2 (Some 9) 777 delivered
           Sample.db1 eq_refl).
Defined.

Lemma mapM_same {A : Type} (g : A -> result A) (l : list A) :
  (forall a, In a l -> g a = Ok a) -> mapM g l = Ok l.
Proof.
  induction l as [|a l IH]; intros H; [reflexivity|].
  cbn [mapM]. rewrite (H a (or_introl eq_refl)). cbn [bind].
  rewrite IH by (intros x Hx; apply H; right; exact Hx). reflexivity.
Qed.

Lemma with_cargo_offers_same (d : db) : with_cargo_offers (cargo_offers d) d = d.
Proof.
  destruct d; reflexivity.
Qed.

Lemma rls_cargo_offers_write (d : db) (uid : option uuid) (o : CargoOffer.row) :
  rls_using cargo_offers_policies UPDATE d uid o = has_role d uid admin /\
  rls_using cargo_offers_policies DELETE d uid o = has_role d uid admin /\
  rls_with_check cargo_offers_policies INSERT d uid o = has_role d uid admin /\
  rls_with_check cargo_offers_policies UPDATE d uid o = has_role d uid admin.
Proof.
  repeat split; cbn; rewrite ?orb_false_r; reflexivity.
Qed.

Lemma delete_cargo_offer_not_admin (e : env) (uid : option uuid) (oid : uuid) (d : db) :
  has_role d uid admin = false -> delete_cargo_offer e uid oid d = Ok d.
Proof.
  intros Hrole. unfold delete_cargo_offer.
  assert (Hnone : forall o,
             Z.eqb (CargoOffer.id o) oid &&
             rls_using cargo_offers_policies SELECT d uid o &&
             rls_using cargo_offers_policies DELETE d uid o = false).
  { intros o. destruct (rls_cargo_offers_write d uid o) as (_ & -> & _).
    rewrite Hrole. apply andb_false_r. }
  rewrite (filter_none (fun o => Z.eqb (CargoOffer.id o) oid &&
                                 rls_using cargo_offers_policies SELECT d uid o &&
                                 rls_using cargo_offers_policies DELETE d uid o))
    by (apply forallb_forall; intros o _; cbv beta; rewrite Hnone; reflexivity).
  rewrite (filter_all (fun o => negb (Z.eqb (CargoOffer.id o) oid &&
                                      rls_using cargo_offers_policies SELECT d uid o &&
                                      rls_using cargo_offers_policies DELETE d uid o)))
    by (apply forallb_forall; intros o _; cbv beta; rewrite Hnone; reflexivity).
  rewrite with_cargo_offers_same. unfold delete_reservations. cbn [existsb].
  rewrite (filter_none (fun _ : Reservation.row => false))
    by (apply forallb_forall; intros r _; reflexivity).
  rewrite (filter_all (fun _ : Reservation.row => negb false))
    by (apply forallb_forall; intros r _; reflexivity).
  rewrite with_reservations_same.
  rewrite filter_all by (apply forallb_forall; intros h _; reflexivity).
  rewrite with_status_history_same. reflexivity.
Qed.

(** X3.  cargo_offers is written by administrators only.  For any other
    caller an update leaves the database exactly as it was (and is
    still answered without error), a delete likewise, and an insert is
    never accepted; so handleSaveOffer and handleDeleteOffer leave the
    database unchanged. *)
Theorem cargo_offers_written_by_admin_only (e : env) (uid : option uuid) (d : db) :
  has_role d uid admin = false ->
  (forall oid f, update_cargo_offer e uid oid f d = Ok d) /\
  (forall oid, delete_cargo_offer e uid oid d = Ok d) /\
  (forall f d', insert_cargo_offer e uid f d <> Ok d') /\
  (forall editingOffer offerForm,
      snd (AdminDashboard.handleSaveOffer e uid editingOffer offerForm d) = d) /\
  (forall id, snd (AdminDashboard.handleDeleteOffer e uid id d) = d).
Proof.
  intros Hrole.
  assert (Hupd : forall oid f, update_cargo_offer e uid oid f d = Ok d).
  { intros oid f. unfold update_cargo_offer.
    rewrite mapM_same; [cbn [bind]; rewrite with_cargo_offers_same; reflexivity|].
    intros o _. destruct (rls_cargo_offers_write d uid o) as (-> & _).
    rewrite Hrole, andb_false_r. reflexivity. }
  assert (Hins : forall f d', insert_cargo_offer e uid f d <> Ok d').
  { intros f d'. unfold insert_cargo_offer, not.
    repeat match goal with
           | |- bind (required ?m) _ = _ -> _ =>
               destruct (required m); cbn [bind]; [|discriminate]
           | |- bind (bind ?m ?k) _ = _ -> _ =>
               destruct (bind m k); cbn [bind]; [|discriminate]
           end.
    match goal with
    | |- context [rls_with_check cargo_offers_policies INSERT d uid ?o] =>
        destruct (rls_cargo_offers_write d uid o) as (_ & _ & -> & _)
    end.
    rewrite Hrole. cbn [guard bind]. discriminate. }
  split; [exact Hupd|].
  split; [intros oid; apply delete_cargo_offer_not_admin; exact Hrole|].
  split; [exact Hins|]. split.
  - intros [editing|] f; unfold AdminDashboard.handleSaveOffer.
    + rewrite Hupd. reflexivity.
    + destruct (insert_cargo_offer e uid f d) as [d'|] eqn:H; [|reflexivity].
      exfalso. exact (Hins f d' H).
  - intros id. unfold AdminDashboard.handleDeleteOffer.
    rewrite (delete_cargo_offer_not_admin e uid id d Hrole). reflexivity.
Qed.

Lemma cargo_offers_written_by_admin_only_witness :
  has_role Sample.db0 (Some 1) admin = false /\
  AdminDashboard.handleDeleteOffer Sample.env2 (Some 1) 100 Sample.db0
  = (AdminDashboard.toast "Offre supprimee", Sample.db0).
Proof.
  split; [reflexivity|].
  unfold AdminDashboard.handleDeleteOffer.
  rewrite (proj1 (proj2 (cargo_offers_written_by_admin_only Sample.env2 (Some 1)
                           Sample.db0 eq_refl)) 100).
  reflexivity.
Defined.

(** X4.  Nobody reserves in somebody else's name: an insert into
    reservations whose user_id is not the caller's own id, in
    particular any insert without a session, is refused with a row
    level security violation, whatever else it contains. *)
Theorem reservation_for_another_user_refused (e : env) (uid : option uuid)
  (v : ReservationInsert.row) (d : db) :
  uid_is uid (ReservationInsert.user_id v) = false ->
  in_int4 (ReservationInsert.kilos_reserved v) = true ->
  insert_reservation e uid v d = Err rls_violation.
Proof.
  intros Huid Hk. unfold insert_reservation, int4. rewrite Hk. cbn [bind].
  fold (inserted_row e v). rewrite rls_insert_reservation, Huid. reflexivity.
Qed.

Lemma reservation_for_another_user_refused_witness :
  insert_reservation Sample.env2 (Some 2)
    (ReservationInsert.mk None 1 100 3 None None None None None None) Sample.db0
  = Err rls_violation /\
  insert_reservation Sample.env2 None
    (ReservationInsert.mk None 1 100 3 None None None None None None) Sample.db0
  = Err rls_violation.
Proof.
  split.
  - exact (reservation_for_another_user_refused Sample.env2 (Some 2)
             (ReservationInsert.mk None 1 100 3 None None None None None None)
             Sample.db0 eq_refl eq_refl).
  - reflexivity.
Defined.

(** ** Deleting an offer *)

Lemma delete_reservations_ext (e : env) (w1 w2 : Reservation.row -> bool) (d : db) :
  (forall r, w1 r = w2 r) -> delete_reservations e w1 d = delete_reservations e w2 d.
Proof.
  intros H. unfold delete_reservations.
  rewrite (filter_ext w1 w2 H).
  rewrite (filter_ext (fun r => negb (w1 r)) (fun r => negb (w2 r)))
    by (intros r; rewrite H; reflexivity).
  reflexivity.
Qed.

Lemma existsb_filter_id (oid x : uuid) (l : list CargoOffer.row) :
  existsb (fun o => Z.eqb (CargoOffer.id o) x)
    (filter (fun o => Z.eqb (CargoOffer.id o) oid) l)
  = Z.eqb x oid && existsb (fun o => Z.eqb (CargoOffer.id o) oid) l.
Proof.
  induction l as [|o l IH]; cbn [filter existsb]; [rewrite andb_false_r; reflexivity|].
  destruct (Z.eqb (CargoOffer.id o) oid) eqn:Ho; cbn [existsb orb].
  - apply Z.eqb_eq in Ho. rewrite Ho, IH, (Z.eqb_sym oid x).
    destruct (Z.eqb x oid); reflexivity.
  - exact IH.
Qed.

Lemma update_cargo_offers_available_absent (e : env) (oid : uuid) (f : Z -> Z) (s : db) :
  forallb (fun o => negb (Z.eqb (CargoOffer.id o) oid)) (cargo_offers s) = true ->
  update_cargo_offers_available e oid f s = Ok s.
Proof.
  intros H. rewrite update_cargo_offers_available_eq.
  assert (Hadj : forallb (adjustable oid f) (cargo_offers s) = true).
  { revert H. apply forallb_impl. intros o Ho. unfold adjustable.
    rewrite Ho. reflexivity. }
  rewrite Hadj.
  rewrite (map_ext_in (adjust_available e oid f) (fun o => o)).
  - rewrite map_id, with_cargo_offers_same. reflexivity.
  - intros o Ho. unfold adjust_available.
    rewrite forallb_forall in H. specialize (H o Ho).
    apply negb_true_iff in H. rewrite H. reflexivity.
Qed.

Lemma foldM_same {A S : Type} (f : S -> A -> result S) (l : list A) (s : S) :
  (forall a, In a l -> f s a = Ok s) -> foldM f l s = Ok s.
Proof.
  induction l as [|a l IH]; intros H; [reflexivity|].
  cbn [foldM]. rewrite (H a (or_introl eq_refl)). cbn [bind].
  apply IH. intros x Hx. apply H. right. exact Hx.
Qed.

(** X5.  An administrator deleting a stored offer always succeeds, and
    the cascade is exact: the offer goes, the reservations on that offer
    go and no others, the history rows of those reservations go and no
    others; users, roles and every other offer (its available_kilos
    included) are left as they were. *)
Theorem admin_offer_delete_cascades (e : env) (uid : option uuid) (oid : uuid) (d : db) :
  has_role d uid admin = true ->
  existsb (fun o => Z.eqb (CargoOffer.id o) oid) (cargo_offers d) = true ->
  AdminDashboard.handleDeleteOffer e uid oid d
  = (AdminDashboard.toast "Offre supprimee",
     mkdb (auth_users d) (user_roles d)
       (filter (fun o => negb (Z.eqb (CargoOffer.id o) oid)) (cargo_offers d))
       (filter (fun r => negb (Z.eqb (Reservation.cargo_offer_id r) oid)) (reservations d))
       (filter (fun h =>
                  negb (existsb (fun r => Z.eqb (Reservation.id r)
                                            (StatusHistory.reservation_id h))
                          (filter (fun r => Z.eqb (Reservation.cargo_offer_id r) oid)
                                  (reservations d))))
               (status_history d))).
Proof.
  intros Hrole Hstored.
  unfold AdminDashboard.handleDeleteOffer, delete_cargo_offer.
  assert (Hhit : forall o,
             Z.eqb (CargoOffer.id o) oid &&
             rls_using cargo_offers_policies SELECT d uid o &&
             rls_using cargo_offers_policies DELETE d uid o
             = Z.eqb (CargoOffer.id o) oid).
  { intros o. destruct (rls_cargo_offers_write d uid o) as (_ & -> & _).
    cbn. rewrite Hrole, !orb_true_r, !andb_true_r. reflexivity. }
  rewrite (filter_ext _ _ Hhit).
  rewrite (filter_ext (fun o => negb (_ && _ && _))
             (fun o => negb (Z.eqb (CargoOffer.id o) oid)))
    by (intros o; rewrite Hhit; reflexivity).
  rewrite (delete_reservations_ext e _
             (fun r => Z.eqb (Reservation.cargo_offer_id r) oid)).
  2:{ intros r. rewrite existsb_filter_id, Hstored, andb_true_r. reflexivity. }
  unfold delete_reservations.
  cbn [reservations with_cargo_offers with_reservations status_history
       with_status_history auth_users user_roles cargo_offers].
  rewrite foldM_same; [reflexivity|].
  intros r Hr. apply filter_In in Hr as [_ Hr]. apply Z.eqb_eq in Hr.
  cbn [update_available_kilos]. rewrite Hr.
  apply update_cargo_offers_available_absent. cbn [cargo_offers].
  apply forallb_forall. intros o Ho. apply filter_In in Ho as [_ Ho]. exact Ho.
Qed.

Lemma admin_offer_delete_cascades_witness :
  map Reservation.id (reservations Sample.db1) = [501] /\
  exists d',
    AdminDashboard.handleDeleteOffer Sample.env2 (Some 9) 100 Sample.db1
    = (AdminDashboard.toast "Offre supprimee", d') /\
    map CargoOffer.id (cargo_offers d') = [200; 300] /\
    reservations d' = [].
Proof.
  split; [reflexivity|]. eexists. split.
  - exact (admin_offer_delete_cascades Sample.env2 (Some 9) 100 Sample.db1
             eq_refl eq_refl).
  - split; reflexivity.
Defined.

(** ** The capacity ledger *)

Lemma available_of_updated (e : env) (x oid : uuid) (f : Z -> Z) (s s' : db) :
  update_cargo_offers_available e x f s = Ok s' ->
  available_of s' oid
  = option_map (fun a => if Z.eqb x oid then f a else a) (available_of s oid) /\
  reservations s' = reservations s.
Proof.
  rewrite update_cargo_offers_available_eq.
  destruct (forallb _ _); [|discriminate]. intros H. injection H as <-.
  split; [|reflexivity]. unfold available_of. cbn [cargo_offers with_cargo_offers].
  rewrite find_map_same_id by (intros o; apply adjust_available_id).
  destruct (find _ (cargo_offers s)) as [o|] eqn:Hfind; [|reflexivity].
  apply find_some in Hfind as [_ Ho]. apply Z.eqb_eq in Ho.
  cbn [option_map]. rewrite adjust_available_kilos, Ho, (Z.eqb_sym oid x). reflexivity.
Qed.

Lemma sum_app (l1 l2 : list Z) :
  fold_right Z.add 0 (l1 ++ l2) = fold_right Z.add 0 l1 + fold_right Z.add 0 l2.
Proof.
  induction l1 as [|a l1 IH]; cbn [app fold_right]; lia.
Qed.

Lemma reserved_split (which : Reservation.row -> bool) (oid : uuid)
  (l : list Reservation.row) :
  fold_right Z.add 0
    (map Reservation.kilos_reserved
       (filter (fun r => Z.eqb (Reservation.cargo_offer_id r) oid) l))
  = fold_right Z.add 0
      (map Reservation.kilos_reserved
         (filter (fun r => Z.eqb (Reservation.cargo_offer_id r) oid) (filter which l)))
    + fold_right Z.add 0
        (map Reservation.kilos_reserved
           (filter (fun r => Z.eqb (Reservation.cargo_offer_id r) oid)
              (filter (fun r => negb (which r)) l))).
Proof.
  induction l as [|r l IH]; [reflexivity|]. cbn [filter].
  destruct (which r); cbn [negb filter];
    destruct (Z.eqb (Reservation.cargo_offer_id r) oid); cbn [map fold_right]; lia.
Qed.

Lemma deleted_rows_given_back (e : env) (oid : uuid) (gone : list Reservation.row)
  (s s' : db) :
  foldM (fun s OLD => update_available_kilos e TG_DELETE (Some OLD) None s) gone s = Ok s' ->
  available_of s' oid
  = option_map
      (fun a => a + fold_right Z.add 0
                      (map Reservation.kilos_reserved
                         (filter (fun r => Z.eqb (Reservation.cargo_offer_id r) oid) gone)))
      (available_of s oid) /\
  reservations s' = reservations s.
Proof.
  revert s. induction gone as [|OLD gone IH]; intros s; cbn [foldM].
  - intros H. injection H as <-. split; [|reflexivity].
    cbn. destruct (available_of s oid); cbn; [f_equal; lia|reflexivity].
  - destruct (update_available_kilos e TG_DELETE (Some OLD) None s) as [s1|] eqn:Hs1;
      [|discriminate].
    cbn [bind]. intros H. destruct (IH _ H) as [Ha Hr].
    cbn [update_available_kilos] in Hs1.
    destruct (available_of_updated _ _ oid _ _ _ Hs1) as [Ha1 Hr1].
    split; [|congruence].
    rewrite Ha, Ha1. cbn [filter].
    destruct (available_of s oid) as [a|]; [|reflexivity]. cbn [option_map].
    destruct (Z.eqb (Reservation.cargo_offer_id OLD) oid); cbn [map fold_right];
      f_equal; lia.
Qed.

(** X6.  The triggers keep a ledger: for every stored offer,
    available_kilos plus the kilos of the reservations on it is the
    same after any accepted insert into reservations and after any
    executed delete from reservations as it was before.  (Nothing bounds
    either term: the sum is kept, not the range.) *)
Theorem available_plus_reserved_is_kept (oid : uuid) :
  (forall e uid v d d',
      insert_reservation e uid v d = Ok d' -> ledger d' oid = ledger d oid) /\
  (forall e which d d',
      delete_reservations e which d = Ok d' -> ledger d' oid = ledger d oid).
Proof.
  split.
  - intros e uid v d d' H. apply insert_reservation_inv in H as [_ ->].
    unfold ledger. rewrite reserved_kilos_inserted.
    unfold available_of, inserted. cbn [cargo_offers].
    rewrite find_map_same_id by (intros o; apply adjust_available_id).
    destruct (find _ (cargo_offers d)) as [o|] eqn:Hfind; [|reflexivity].
    apply find_some in Hfind as [_ Ho]. apply Z.eqb_eq in Ho.
    cbn [option_map]. rewrite adjust_available_kilos, Ho.
    rewrite (Z.eqb_sym oid).
    destruct (Z.eqb (ReservationInsert.cargo_offer_id v) oid); f_equal; lia.
  - intros e which d d' H. unfold delete_reservations in H.
    apply (deleted_rows_given_back e oid) in H as [Ha Hr].
    unfold ledger, reserved_kilos. rewrite Ha, Hr.
    cbn [reservations with_reservations with_status_history].
    change (available_of (with_status_history _ (with_reservations _ d)) oid)
      with (available_of d oid).
    rewrite (reserved_split which oid (reservations d)).
    destruct (available_of d oid) as [a|]; [|reflexivity]. cbn [option_map].
    f_equal. lia.
Qed.

Lemma available_plus_reserved_is_kept_witness :
  ledger Sample.db0 100 = Some 20 /\
  ledger Sample.db1 100 = Some 20 /\
  ledger Sample.db2_stale 100 = Some 20.
Proof.
  split; [reflexivity|].
  assert (H1 : insert_reservation Sample.env1 (Some 1)
                 (modal_insert 1 (ReservationModal.listed Sample.offer1) 15 EmptyString)
                 Sample.db0 = Ok Sample.db1) by reflexivity.
  assert (H2 : insert_reservation Sample.env2 (Some 2)
                 (modal_insert 2 (ReservationModal.listed Sample.offer1) 10 EmptyString)
                 Sample.db1 = Ok Sample.db2_stale) by reflexivity.
  pose proof (proj1 (available_plus_reserved_is_kept 100) _ _ _ _ _ H1) as E1.
  pose proof (proj1 (available_plus_reserved_is_kept 100) _ _ _ _ _ H2) as E2.
  split; [rewrite E1; reflexivity|rewrite E2, E1; reflexivity].
Defined.

(** X7.  What a confirmed reservation looks like: when handleSubmit
    confirms, exactly one row has been appended to reservations; it
    belongs to the signed-in user, targets the offer of the modal, holds
    the requested kilos, which lie between 1 and the available_kilos the
    modal showed, starts in pending_submission with created_at and
    status_updated_at at the time of the insert, and carries a generated
    code matching ^KG-[A-Z0-9]{8}$. *)
Theorem confirmed_reservation_shape (e : env) (u : option uuid)
  (offer : ReservationModal.CargoOffer) (kilos : Z) (description : string) (d d' : db) :
  (forall j, 0 <= random e j < 2 ^ 52) ->
  ReservationModal.handleSubmit e u offer kilos description d
  = (ReservationModal.confirmed, d') ->
  exists r c,
    reservations d' = reservations d ++ [r] /\
    u = Some (Reservation.user_id r) /\
    Reservation.id r = gen_random_uuid e /\
    Reservation.cargo_offer_id r = ReservationModal.id offer /\
    Reservation.kilos_reserved r = kilos /\
    1 <= kilos <= ReservationModal.available_kilos offer /\
    Reservation.status r = pending_submission /\
    Reservation.created_at r = now e /\
    Reservation.status_updated_at r = now e /\
    Reservation.tracking_code r = Some c /\
    matches_tracking_format c = true.
Proof.
  intros Hrnd H. apply handleSubmit_confirmed_inv in H as (user_id & -> & Hk & _ & ->).
  exists (inserted_row e (modal_insert user_id offer kilos description)),
         (generate_tracking_code (random e)).
  repeat (split; [first [reflexivity|exact Hk|exact (proj1 Hk)|exact (proj2 Hk)]|]).
  apply generate_tracking_code_format. exact Hrnd.
Qed.

Lemma confirmed_reservation_shape_witness :
  exists r c,
    reservations Sample.db1 = reservations Sample.db0 ++ [r] /\
    Reservation.status r = pending_submission /\
    Reservation.tracking_code r = Some c /\
    matches_tracking_format c = true.
Proof.
  destruct (confirmed_reservation_shape Sample.env1 (Some 1)
              (ReservationModal.listed Sample.offer1) 15 EmptyString
              Sample.db0 Sample.db1 sample_draws_in_range eq_refl)
    as (r & c & H1 & _ & _ & _ & _ & _ & H2 & _ & _ & H3 & H4).
  exists r, c. auto.
Defined.

(** ** The kilos controls *)

Lemma setKilos_in_range (offer : ReservationModal.CargoOffer) (kilos : Z)
  (ev : KilosInput.event) :
  1 <= ReservationModal.available_kilos offer ->
  1 <= kilos ->
  1 <= KilosInput.setKilos offer kilos ev /\
  (kilos <= ReservationModal.available_kilos offer \/ KilosInput.is_typed ev = true ->
   KilosInput.setKilos offer kilos ev <= ReservationModal.available_kilos offer).
Proof.
  intros Ha Hk.
  destruct ev as [v| |]; cbn [KilosInput.setKilos KilosInput.is_typed];
    unfold KilosInput.onChange, KilosInput.minus, KilosInput.plus;
    rewrite ?Z.geb_leb;
    repeat match goal with
           | |- context [if ?a <=? ?b then _ else _] => destruct (Z.leb_spec a b)
           end;
    (split; [lia|intros [Hc|Hc]; [lia|first [discriminate Hc|lia]]]).
Qed.

Lemma controls_in_range (offer : ReservationModal.CargoOffer)
  (evs : list KilosInput.event) (kilos : Z) :
  1 <= ReservationModal.available_kilos offer ->
  1 <= kilos ->
  1 <= fold_left (KilosInput.setKilos offer) evs kilos /\
  (kilos <= ReservationModal.available_kilos offer \/
   existsb KilosInput.is_typed evs = true ->
   fold_left (KilosInput.setKilos offer) evs kilos
   <= ReservationModal.available_kilos offer).
Proof.
  intros Ha. revert kilos. induction evs as [|ev evs IH]; intros kilos Hk.
  - cbn. split; [exact Hk|]. intros [H|H]; [exact H|discriminate H].
  - cbn [fold_left existsb].
    destruct (setKilos_in_range offer kilos ev Ha Hk) as [H1 H2].
    destruct (IH _ H1) as [IH1 IH2]. split; [exact IH1|].
    intros [H|H].
    + apply IH2. left. apply H2. left. exact H.
    + apply orb_prop in H as [H|H].
      * apply IH2. left. apply H2. right. exact H.
      * apply IH2. right. exact H.
Qed.

Lemma step_controls (offer : ReservationModal.CargoOffer)
  (evs : list KilosInput.event) (kilos : Z) :
  fold_left KilosInput.step (map KilosInput.control evs)
    (KilosInput.mkModal (Some offer) kilos)
  = KilosInput.mkModal (Some offer) (fold_left (KilosInput.setKilos offer) evs kilos).
Proof.
  revert kilos. induction evs as [|ev evs IH]; intros kilos; [reflexivity|].
  cbn [map fold_left KilosInput.step KilosInput.offer_prop KilosInput.kilos_state].
  apply IH.
Qed.

Lemma kilos_state_at_least_1 (acts : list KilosInput.action) (m : KilosInput.modal) :
  forallb KilosInput.opens_nonempty acts = true ->
  match KilosInput.offer_prop m with
  | Some offer => 1 <= ReservationModal.available_kilos offer
  | None => True
  end ->
  1 <= KilosInput.kilos_state m ->
  1 <= KilosInput.kilos_state (fold_left KilosInput.step acts m).
Proof.
  revert m. induction acts as [|a acts IH]; intros m Hall Ho Hk; [exact Hk|].
  cbn [forallb] in Hall. apply andb_prop in Hall as [Ha Hall].
  cbn [fold_left]. apply IH; [exact Hall| |].
  - destruct a as [offer| |ev]; cbn [KilosInput.step KilosInput.offer_prop].
    + cbn [KilosInput.opens_nonempty] in Ha. apply Z.leb_le in Ha. exact Ha.
    + exact I.
    + destruct (KilosInput.offer_prop m) eqn:Hm; cbn [KilosInput.offer_prop];
        [exact Ho|rewrite Hm; exact I].
  - destruct a as [offer| |ev]; cbn [KilosInput.step KilosInput.kilos_state];
      [exact Hk|exact Hk|].
    destruct (KilosInput.offer_prop m) as [offer|]; cbn [KilosInput.kilos_state];
      [|exact Hk].
    exact (proj1 (setKilos_in_range offer _ ev Ho Hk)).
Qed.

(** X8.  The kilos state of the reservation modal lives as long as the
    page: it starts at 1 and is kept when the modal is closed and opened
    on another offer.  With every offer opened showing at least 1 kg:
    (1) the state never drops below 1; (2) on the offer now open, after
    any typed values and clicks on "-" and "+", the state is within the
    available_kilos shown as soon as it was so when the offer was opened
    or a value has been typed since, and a signed-in user's submission
    is then not turned down by the range check of handleSubmit; (3) a
    value carried over from a larger offer is turned down: 20 typed on
    an offer showing 20 kg, the modal closed and opened on an offer
    showing 5 kg, and the form submitted. *)
Theorem kilos_controls_stay_in_range :
  (forall acts,
      forallb KilosInput.opens_nonempty acts = true ->
      1 <= KilosInput.kilos_state (KilosInput.after acts)) /\
  (forall acts offer evs,
      forallb KilosInput.opens_nonempty acts = true ->
      1 <= ReservationModal.available_kilos offer ->
      let opened := KilosInput.after (acts ++ [KilosInput.select offer]) in
      let m := KilosInput.after (acts ++ KilosInput.select offer
                                   :: map KilosInput.control evs) in
      KilosInput.kilos_state opened = KilosInput.kilos_state (KilosInput.after acts) /\
      KilosInput.offer_prop m = Some offer /\
      (KilosInput.kilos_state opened <= ReservationModal.available_kilos offer \/
       existsb KilosInput.is_typed evs = true ->
       1 <= KilosInput.kilos_state m <= ReservationModal.available_kilos offer /\
       forall e user_id description d,
         fst (ReservationModal.handleSubmit e (Some user_id) offer
                (KilosInput.kilos_state m) description d)
         <> ReservationModal.select_between_1_and
              (ReservationModal.available_kilos offer))) /\
  (let m := KilosInput.after
              [KilosInput.select (ReservationModal.listed Sample.offer1);
               KilosInput.control (KilosInput.typed (num 20));
               KilosInput.close;
               KilosInput.select (ReservationModal.listed Sample.small_offer)] in
   m = KilosInput.mkModal (Some (ReservationModal.listed Sample.small_offer)) 20 /\
   forall e user_id description d,
     ReservationModal.handleSubmit e (Some user_id)
       (ReservationModal.listed Sample.small_offer)
       (KilosInput.kilos_state m) description d
     = (ReservationModal.select_between_1_and 5, d)).
Proof.
  split; [|split].
  - intros acts Hall. unfold KilosInput.after.
    apply kilos_state_at_least_1; [exact Hall|exact I|cbn; lia].
  - intros acts offer evs Hall Ha. cbv zeta. unfold KilosInput.after.
    rewrite !fold_left_app. cbn [fold_left KilosInput.step].
    rewrite step_controls. cbn [KilosInput.kilos_state KilosInput.offer_prop].
    split; [reflexivity|]. split; [reflexivity|].
    set (k := KilosInput.kilos_state (fold_left KilosInput.step acts KilosInput.mounted)).
    assert (Hk : 1 <= k).
    { subst k. apply kilos_state_at_least_1; [exact Hall|exact I|cbn; lia]. }
    destruct (controls_in_range offer evs k Ha Hk) as [H1 H2].
    intros Hin. specialize (H2 Hin). split; [lia|].
    intros e user_id description d. unfold ReservationModal.handleSubmit.
    replace (fold_left (KilosInput.setKilos offer) evs k <? 1) with false
      by (symmetry; apply Z.ltb_ge; lia).
    replace (fold_left (KilosInput.setKilos offer) evs k
             >? ReservationModal.available_kilos offer)
      with false by (symmetry; rewrite Z.gtb_ltb; apply Z.ltb_ge; lia).
    cbn [orb].
    destruct (insert_reservation _ _ _ d); cbn [fst]; discriminate.
  - cbv zeta. split; reflexivity.
Qed.

Lemma kilos_controls_stay_in_range_witness :
  KilosInput.kilos_state
    (KilosInput.after
       ([KilosInput.select (ReservationModal.listed Sample.offer1);
         KilosInput.control (KilosInput.typed (num 20));
         KilosInput.close]
        ++ KilosInput.select (ReservationModal.listed Sample.small_offer)
           :: map KilosInput.control
                [KilosInput.click_minus; KilosInput.typed (num 500);
                 KilosInput.click_plus; KilosInput.click_minus])) = 4 /\
  1 <= KilosInput.kilos_state
         (KilosInput.after
            ([KilosInput.select (ReservationModal.listed Sample.offer1);
              KilosInput.control (KilosInput.typed (num 20));
              KilosInput.close]
             ++ KilosInput.select (ReservationModal.listed Sample.small_offer)
                :: map KilosInput.control
                     [KilosInput.click_minus; KilosInput.typed (num 500);
                      KilosInput.click_plus; KilosInput.click_minus])) <= 5.
Proof.
  split; [reflexivity|].
  refine (proj1 (proj2 (proj2 (proj1 (proj2 kilos_controls_stay_in_range)
                                 [KilosInput.select (ReservationModal.listed Sample.offer1);
                                  KilosInput.control (KilosInput.typed (num 20));
                                  KilosInput.close]
                                 (ReservationModal.listed Sample.small_offer)
                                 [KilosInput.click_minus; KilosInput.typed (num 500);
                                  KilosInput.click_plus; KilosInput.click_minus]
                                 eq_refl _)) _)).
  - cbn. lia.
  - right. reflexivity.
Defined.

(** ** The listing and its search box *)

Lemma lower_upper (c : ascii) : lower (upper c) = lower c.
Proof.
  destruct c as [[] [] [] [] [] [] [] []]; reflexivity.
Qed.

Lemma toLowerCase_toUpperCase (s : string) : toLowerCase (toUpperCase s) = toLowerCase s.
Proof.
  induction s as [|c s IH]; cbn; [reflexivity|]. rewrite lower_upper, IH. reflexivity.
Qed.

Lemma prefix_refl (s : string) : prefix s s = true.
Proof.
  induction s as [|c s IH]; cbn; [reflexivity|].
  destruct (ascii_dec c c) as [_|Hne]; [exact IH|contradiction Hne; reflexivity].
Qed.

Lemma includes_empty (s : string) : includes s EmptyString = true.
Proof.
  destruct s; reflexivity.
Qed.

Lemma includes_refl (s : string) : includes s s = true.
Proof.
  destruct s as [|c s]; [reflexivity|].
  change (prefix (String c s) (String c s) || includes s (String c s) = true).
  rewrite prefix_refl. reflexivity.
Qed.

(** X9.  The search box of the Offers page: an empty term keeps every
    offer; the case of the term does not matter; every offer whose
    departure or arrival city equals the term up to case is kept; and
    what is shown is a selection of the fetched offers in their order. *)
Theorem offers_search_case_insensitive :
  (forall offers, OffersSearch.filteredOffers offers EmptyString = offers) /\
  (forall offers s,
      OffersSearch.filteredOffers offers (toUpperCase s)
      = OffersSearch.filteredOffers offers s) /\
  (forall offers s o,
      In o offers ->
      toLowerCase (CargoOffer.departure_city o) = toLowerCase s \/
      toLowerCase (CargoOffer.arrival_city o) = toLowerCase s ->
      In o (OffersSearch.filteredOffers offers s)) /\
  (forall offers s o, In o (OffersSearch.filteredOffers offers s) -> In o offers).
Proof.
  split; [|split; [|split]].
  - intros offers. unfold OffersSearch.filteredOffers. apply filter_all.
    apply forallb_forall. intros o _. cbn [toLowerCase].
    rewrite includes_empty. reflexivity.
  - intros offers s. unfold OffersSearch.filteredOffers.
    rewrite toLowerCase_toUpperCase. reflexivity.
  - intros offers s o Hin Hcity. unfold OffersSearch.filteredOffers.
    apply filter_In. split; [exact Hin|]. cbv zeta.
    destruct Hcity as [<-|<-]; rewrite includes_refl, ?orb_true_r; reflexivity.
  - intros offers s o H. apply filter_In in H as [H _]. exact H.
Qed.

Lemma offers_search_case_insensitive_witness :
  map CargoOffer.id (OffersSearch.filteredOffers (cargo_offers Sample.db0) "pARis") = [100] /\
  In Sample.offer1 (OffersSearch.filteredOffers (cargo_offers Sample.db0) "PARIS").
Proof.
  split; [reflexivity|].
  exact (proj1 (proj2 (proj2 offers_search_case_insensitive))
           (cargo_offers Sample.db0) "PARIS"%string Sample.offer1
           (or_introl eq_refl) (or_intror eq_refl)).
Defined.





(** ** Normalising a tracking code *)

Lemma is_white_space_upper (c : ascii) : is_white_space (upper c) = is_white_space c.
Proof.
  destruct c as [[] [] [] [] [] [] [] []]; reflexivity.
Qed.

Lemma upper_upper (c : ascii) : upper (upper c) = upper c.
Proof.
  destruct c as [[] [] [] [] [] [] [] []]; reflexivity.
Qed.

Lemma toUpperCase_idem (s : string) : toUpperCase (toUpperCase s) = toUpperCase s.
Proof.
  induction s as [|c s IH]; cbn; [reflexivity|]. rewrite upper_upper, IH. reflexivity.
Qed.

Lemma trimStart_toUpperCase (s : string) :
  trimStart (toUpperCase s) = toUpperCase (trimStart s).
Proof.
  induction s as [|c s IH]; cbn [toUpperCase trimStart]; [reflexivity|].
  rewrite is_white_space_upper. destruct (is_white_space c); [exact IH|reflexivity].
Qed.

Lemma trimEnd_toUpperCase (s : string) :
  trimEnd (toUpperCase s) = toUpperCase (trimEnd s).
Proof.
  induction s as [|c s IH]; cbn [toUpperCase trimEnd]; [reflexivity|].
  rewrite IH, is_white_space_upper.
  destruct (trimEnd s); cbn [toUpperCase]; [destruct (is_white_space c)|]; reflexivity.
Qed.

Lemma trimStart_clean (s : string) : starts_clean (trimStart s) = true.
Proof.
  induction s as [|c s IH]; cbn [trimStart]; [reflexivity|].
  destruct (is_white_space c) eqn:Hc; [exact IH|]. cbn. rewrite Hc. reflexivity.
Qed.

Lemma trimStart_of_clean (s : string) : starts_clean s = true -> trimStart s = s.
Proof.
  destruct s as [|c s]; cbn; [reflexivity|]. intros H.
  apply negb_true_iff in H. rewrite H. reflexivity.
Qed.

Lemma trimEnd_clean (s : string) : starts_clean s = true -> starts_clean (trimEnd s) = true.
Proof.
  destruct s as [|c s]; cbn [trimEnd starts_clean]; [reflexivity|]. intros H.
  apply negb_true_iff in H.
  destruct (trimEnd s); [rewrite H|]; cbn; rewrite H; reflexivity.
Qed.

Lemma trimEnd_idem (s : string) : trimEnd (trimEnd s) = trimEnd s.
Proof.
  induction s as [|c s IH]; cbn [trimEnd]; [reflexivity|].
  destruct (trimEnd s) as [|x t] eqn:Ht.
  - destruct (is_white_space c) eqn:Hc; cbn [trimEnd]; [reflexivity|].
    rewrite Hc. reflexivity.
  - cbn [trimEnd] in IH |- *.
    change (match trimEnd (String x t) with
            | EmptyString => if is_white_space c then EmptyString else String c EmptyString
            | String a s0 => String c (String a s0)
            end = String c (String x t)).
    cbn [trimEnd]. rewrite IH. reflexivity.
Qed.

Lemma trim_idem (s : string) : trim (trim s) = trim s.
Proof.
  unfold trim.
  rewrite (trimStart_of_clean (trimEnd (trimStart s)))
    by (apply trimEnd_clean, trimStart_clean).
  apply trimEnd_idem.
Qed.

Lemma trim_toUpperCase (s : string) : trim (toUpperCase s) = toUpperCase (trim s).
Proof.
  unfold trim. rewrite trimStart_toUpperCase, trimEnd_toUpperCase. reflexivity.
Qed.

Lemma toUpperCase_empty (s : string) :
  String.eqb (toUpperCase s) EmptyString = String.eqb s EmptyString.
Proof.
  destruct s; reflexivity.
Qed.

(** X11.  Track.handleSearch sees its input only through the
    normalised code: an input made of white space alone starts no
    search, and searching for what was typed gives the same answer as
    searching for its trimmed, upper-cased form (normalising twice
    changes nothing), for every caller and database. *)
Theorem tracking_search_normalises_input (uid : option uuid) (s : string) (d : db) :
  (trim s = EmptyString -> Track.handleSearch uid None s d = Track.not_searched) /\
  trim (toUpperCase (trim s)) = toUpperCase (trim s) /\
  toUpperCase (trim (toUpperCase (trim s))) = toUpperCase (trim s) /\
  Track.handleSearch uid None (toUpperCase (trim s)) d = Track.handleSearch uid None s d.
Proof.
  assert (H1 : trim (toUpperCase (trim s)) = toUpperCase (trim s))
    by (rewrite trim_toUpperCase, trim_idem; reflexivity).
  split; [|split; [exact H1|split]].
  - intros H. unfold Track.handleSearch. rewrite H. reflexivity.
  - rewrite H1. apply toUpperCase_idem.
  - unfold Track.handleSearch. rewrite H1, toUpperCase_idem, toUpperCase_empty.
    reflexivity.
Qed.

Lemma tracking_search_normalises_input_witness :
  trim "   " = EmptyString /\
  Track.handleSearch (Some 1) None "   " Sample.db1 = Track.not_searched.
Proof.
  split; [reflexivity|].
  exact (proj1 (tracking_search_normalises_input (Some 1) "   " Sample.db1) eq_refl).
Defined.

(** ** The status timeline *)

(** X12.  For every current status the timeline shows the five steps of
    the shipment_status enum in its order, marks current exactly the
    step of that status, completed exactly the steps before it in the
    enum, and pending exactly the steps after it. *)
Theorem timeline_marks_follow_enum_order (currentStatus : shipment_status) :
  map StatusTimeline.key (StatusTimeline.StatusTimeline currentStatus)
  = [pending_submission; received_at_origin; in_transit; arrived_at_destination;
     delivered] /\
  Forall (fun st =>
            StatusTimeline.isCurrent st
            = shipment_status_eqb (StatusTimeline.key st) currentStatus /\
            StatusTimeline.isCompleted st
            = (status_rank (StatusTimeline.key st) <? status_rank currentStatus) /\
            StatusTimeline.isPending st
            = (status_rank (StatusTimeline.key st) >? status_rank currentStatus))
         (StatusTimeline.StatusTimeline currentStatus).
Proof.
  destruct currentStatus; (split; [reflexivity|]);
    repeat (constructor; [repeat split; reflexivity|]); constructor.
Qed.

(** ** Accounts and roles *)

Lemma has_role_snoc (d : db) (u : option uuid) (role : app_role) (ur : uuid * app_role) :
  has_role (with_user_roles (user_roles d ++ [ur]) d) u role
  = has_role d u role ||
    match u with
    | Some x => Z.eqb (fst ur) x && app_role_eqb (snd ur) role
    | None => false
    end.
Proof.
  destruct u as [x|]; [|reflexivity]. cbn [has_role user_roles with_user_roles].
  rewrite existsb_app. cbn [existsb]. rewrite orb_false_r. reflexivity.
Qed.

(** X13.  Signing up creates the account with the role user and nothing
    more: after a successful sign-up the new id has the role user, has a
    profile carrying the name given at registration, nobody's admin
    role has changed (the new account is an administrator only if a
    role row said so before), and offers, reservations and history are
    as they were.  An id already in auth.users is refused. *)
Theorem sign_up_grants_user_role_only (e : env) (NEW_id : uuid)
  (full_name : option string) (s : account_db) :
  (forall s',
      sign_up e NEW_id full_name s = Ok s' ->
      has_role (core s') (Some NEW_id) user = true /\
      (forall u, has_role (core s') u admin = has_role (core s) u admin) /\
      auth_users (core s') = auth_users (core s) ++ [NEW_id] /\
      profiles s' = profiles s ++ [Profile.mk NEW_id full_name None None (now e) (now e)] /\
      cargo_offers (core s') = cargo_offers (core s) /\
      reservations (core s') = reservations (core s) /\
      status_history (core s') = status_history (core s)) /\
  (existsb (Z.eqb NEW_id) (auth_users (core s)) = true ->
   sign_up e NEW_id full_name s = Err unique_violation).
Proof.
  split.
  - intros s'. unfold sign_up, handle_new_user.
    destruct (guard (negb (existsb (Z.eqb NEW_id) _)) _); [|discriminate]. cbn [bind].
    cbn [profiles core].
    destruct (guard (negb (existsb _ (profiles s))) _); [|discriminate]. cbn [bind].
    destruct (guard (negb (existsb _ _)) _); [|discriminate]. cbn [bind].
    intros H. injection H as <-. cbn [core profiles].
    change (user_roles (with_auth_users _ (core s))) with (user_roles (core s)).
    split.
    { cbn [has_role user_roles with_user_roles]. rewrite existsb_app. cbn [existsb fst snd].
      rewrite Z.eqb_refl. cbn. apply orb_true_r. }
    split.
    { intros u. destruct u as [x|]; [|reflexivity].
      cbn [has_role user_roles with_user_roles]. rewrite existsb_app.
      cbn [existsb fst snd app_role_eqb]. rewrite andb_false_r, !orb_false_r.
      reflexivity. }
    repeat split; reflexivity.
  - intros H. unfold sign_up. rewrite H. reflexivity.
Qed.

Lemma sign_up_grants_user_role_only_witness :
  exists s',
    sign_up Sample.env2 7 (Some "Awa"%string) (mkaccounts Sample.db0 []) = Ok s' /\
    has_role (core s') (Some 7) user = true /\
    has_role (core s') (Some 7) admin = false.
Proof.
  eexists. split; [reflexivity|].
  destruct (proj1 (sign_up_grants_user_role_only Sample.env2 7 (Some "Awa"%string)
                     (mkaccounts Sample.db0 [])) _ eq_refl) as (H1 & H2 & _).
  split; [exact H1|]. rewrite H2. reflexivity.
Defined.

Lemma rls_user_roles_write (d : db) (uid : option uuid) (ur : uuid * app_role) :
  rls_with_check user_roles_policies INSERT d uid ur = has_role d uid admin /\
  rls_using user_roles_policies UPDATE d uid ur = has_role d uid admin /\
  rls_using user_roles_policies DELETE d uid ur = has_role d uid admin.
Proof.
  repeat split; cbn; rewrite ?orb_false_r; reflexivity.
Qed.

Lemma with_user_roles_same (d : db) : with_user_roles (user_roles d) d = d.
Proof.
  destruct d; reflexivity.
Qed.

(** X14.  Roles are managed by administrators only.  For a caller who is
    not an administrator, no insert into user_roles is accepted, a
    delete removes nothing and an update that succeeds changes nothing:
    the database, and with it everybody's roles, stays as it was.  An
    administrator can grant a role to an existing user who lacks it. *)
Theorem roles_managed_by_admin_only (uid : option uuid) (d : db) :
  (has_role d uid admin = false ->
   (forall ur d', api_insert_user_role uid ur d <> Ok d') /\
   (forall where_, api_delete_user_roles uid where_ d = d) /\
   (forall where_ r d', api_update_user_roles uid where_ r d = Ok d' -> d' = d)) /\
  (has_role d uid admin = true ->
   forall u role,
     has_role d (Some u) role = false ->
     existsb (Z.eqb u) (auth_users d) = true ->
     exists d',
       api_insert_user_role uid (u, role) d = Ok d' /\
       has_role d' (Some u) role = true).
Proof.
  split.
  - intros Hrole. split; [|split].
    + intros ur d'. unfold api_insert_user_role.
      rewrite (proj1 (rls_user_roles_write d uid ur)), Hrole. discriminate.
    + intros where_. unfold api_delete_user_roles.
      rewrite filter_all; [apply with_user_roles_same|].
      apply forallb_forall. intros ur _.
      rewrite (proj2 (proj2 (rls_user_roles_write d uid ur))), Hrole, andb_false_r.
      reflexivity.
    + intros where_ r d'. unfold api_update_user_roles.
      destruct (guard (forallb _ _) rls_violation); [|discriminate]. cbn [bind].
      destruct (guard _ unique_violation); [|discriminate]. cbn [bind].
      intros H. injection H as <-.
      rewrite (map_ext_in _ (fun ur => ur)).
      * rewrite map_id. apply with_user_roles_same.
      * intros ur _. cbv beta zeta.
        rewrite ?(proj1 (proj2 (rls_user_roles_write d uid ur))).
        rewrite Hrole. cbn [orb]. rewrite ?orb_false_r, andb_false_r. reflexivity.
  - intros Hrole u role Hlacks Huser. unfold api_insert_user_role.
    rewrite (proj1 (rls_user_roles_write d uid (u, role))), Hrole. cbn [guard bind fst snd].
    unfold has_role in Hlacks. rewrite Hlacks, Huser. cbn [negb guard bind].
    eexists. split; [reflexivity|].
    rewrite has_role_snoc. cbn [fst snd]. rewrite Z.eqb_refl.
    destruct role; cbn; apply orb_true_r.
Qed.

Lemma roles_managed_by_admin_only_witness :
  has_role Sample.db0 (Some 1) admin = false /\
  api_delete_user_roles (Some 1) (fun _ => true) Sample.db0 = Sample.db0 /\
  exists d',
    api_insert_user_role (Some 9) (2, admin) Sample.db0 = Ok d' /\
    has_role d' (Some 2) admin = true.
Proof.
  split; [reflexivity|]. split.
  - exact (proj1 (proj2 (proj1 (roles_managed_by_admin_only (Some 1) Sample.db0) eq_refl))
             (fun _ => true)).
  - exact (proj2 (roles_managed_by_admin_only (Some 9) Sample.db0) eq_refl 2 admin
             eq_refl eq_refl).
Defined.

(** ** Reading the status history *)

Lemma rls_select_history (d : db) (uid : option uuid) (h : StatusHistory.row) :
  rls_using status_history_policies SELECT d uid h
  = existsb (fun r =>
               rls_using reservations_policies SELECT d uid r &&
               Z.eqb (Reservation.id r) (StatusHistory.reservation_id h) &&
               uid_is uid (Reservation.user_id r)) (reservations d)
    || has_role d uid admin.
Proof.
  cbn [rls_using status_history_policies existsb applies polcmd polqual command_eqb
       orb andb].
  rewrite !orb_false_r. reflexivity.
Qed.

Lemma no_history_of_other_rows (d : db) (uid : option uuid) (rid : uuid)
  (l : list Reservation.row) :
  forallb (fun x => negb (Z.eqb (Reservation.id x) rid)) l = true ->
  existsb (fun r =>
             rls_using reservations_policies SELECT d uid r &&
             Z.eqb (Reservation.id r) rid &&
             uid_is uid (Reservation.user_id r)) l = false.
Proof.
  induction l as [|x l IH]; cbn [forallb existsb]; [reflexivity|]. intros H.
  apply andb_prop in H as [Hx Hl]. apply negb_true_iff in Hx.
  rewrite Hx, andb_false_r, (IH Hl). reflexivity.
Qed.

(** X15.  The history row the trigger writes when an administrator
    changes a status can be read by the owner of the reservation and by
    administrators, and by nobody else: not by another user, not
    without a session.  No caller can update or delete a history row
    through the data API. *)
Theorem history_row_read_by_owner_and_admins (e : env) (uid : option uuid)
  (s : shipment_status) (d : db) (l1 l2 : list Reservation.row) (r : Reservation.row) :
  has_role d uid admin = true ->
  reservations d = l1 ++ r :: l2 ->
  forallb (fun x => negb (Z.eqb (Reservation.id x) (Reservation.id r))) (l1 ++ l2) = true ->
  existsb (fun h => Z.eqb (StatusHistory.id h) (gen_random_uuid e)) (status_history d) = false ->
  Reservation.status r <> s ->
  exists d',
    AdminDashboard.handleUpdateStatus e uid (Some (Reservation.id r)) s d
    = (AdminDashboard.toast "Statut mis a jour", d') /\
    let h := StatusHistory.mk (gen_random_uuid e) (Reservation.id r) s None (now e) in
    In h (status_history d') /\
    rls_using status_history_policies SELECT d' (Some (Reservation.user_id r)) h = true /\
    rls_using status_history_policies SELECT d' uid h = true /\
    (forall u, has_role d (Some u) admin = false -> u <> Reservation.user_id r ->
               rls_using status_history_policies SELECT d' (Some u) h = false) /\
    rls_using status_history_policies SELECT d' None h = false /\
    (forall caller x,
        rls_using status_history_policies UPDATE d' caller x = false /\
        rls_using status_history_policies DELETE d' caller x = false).
Proof.
  intros Hadmin Hd Hother Hfresh Hneq.
  unfold AdminDashboard.handleUpdateStatus.
  rewrite (update_status_changed e uid d l1 l2 r Hadmin Hd Hother s Hfresh Hneq).
  eexists. split; [reflexivity|]. cbv zeta.
  destruct (forallb_app_inv _ _ _ Hother) as [H1 H2].
  split; [cbn [status_history]; apply in_or_app; right; left; reflexivity|].
  split.
  { rewrite rls_select_history. cbn [reservations StatusHistory.reservation_id].
    rewrite existsb_app. cbn [existsb].
    rewrite rls_select_reservation.
    cbn [Reservation.user_id Reservation.id Reservation.with_updated_at
         Reservation.with_status_updated_at Reservation.with_status uid_is].
    rewrite !Z.eqb_refl. cbn [orb andb]. rewrite orb_true_r. reflexivity. }
  split.
  { rewrite rls_select_history.
    change (has_role (mkdb _ (user_roles d) _ _ _) uid admin) with (has_role d uid admin).
    rewrite Hadmin. apply orb_true_r. }
  split.
  { intros u Hu Hne. rewrite rls_select_history.
    change (has_role (mkdb _ (user_roles d) _ _ _) (Some u) admin)
      with (has_role d (Some u) admin).
    rewrite Hu, orb_false_r. cbn [reservations StatusHistory.reservation_id].
    rewrite existsb_app. cbn [existsb].
    rewrite (no_history_of_other_rows _ _ _ l1 H1), (no_history_of_other_rows _ _ _ l2 H2).
    cbn [Reservation.user_id Reservation.with_updated_at
         Reservation.with_status_updated_at Reservation.with_status uid_is].
    replace (Z.eqb u (Reservation.user_id r)) with false
      by (symmetry; apply Z.eqb_neq; exact Hne).
    rewrite andb_false_r. reflexivity. }
  split.
  { rewrite rls_select_history. cbn [has_role]. rewrite orb_false_r.
    apply not_true_is_false. intros H.
    apply existsb_exists in H as (x & _ & H). cbn [uid_is] in H.
    rewrite andb_false_r in H. discriminate. }
  intros caller x. split; reflexivity.
Qed.

Lemma history_row_read_by_owner_and_admins_witness :
  exists d',
    AdminDashboard.handleUpdateStatus Sample.env2 (Some 9) (Some 501) in_transit Sample.db1
    = (AdminDashboard.toast "Statut mis a jour", d') /\
    rls_using status_history_policies SELECT d' (Some 1)
      (StatusHistory.mk 502 501 in_transit None 2000) = true /\
    rls_using status_history_policies SELECT d' (Some 2)
      (StatusHistory.mk 502 501 in_transit None 2000) = false.
Proof.
  destruct (history_row_read_by_owner_and_admins Sample.env2 (Some 9) in_transit
              Sample.db1 [] []
              (Reservation.mk 501 1 100 15 None pending_submission
                 (Some "KG-AB12CD34"%string) 1000 1000 1000)
              eq_refl eq_refl eq_refl eq_refl ltac:(discriminate))
    as (d' & Hrun & _ & Howner & _ & Hother & _).
  exists d'. split; [exact Hrun|]. split; [exact Howner|].
  apply Hother; [reflexivity|discriminate].
Defined.

(** ** The profile form *)

Lemma mapM_app {A B : Type} (g : A -> result B) (l1 l2 : list A) :
  mapM g (l1 ++ l2)
  = 'a <- mapM g l1 ;; 'b <- mapM g l2 ;; Ok (a ++ b).
Proof.
  induction l1 as [|x l1 IH]; cbn [app mapM bind].
  - destruct (mapM g l2); reflexivity.
  - destruct (g x); cbn [bind]; [|reflexivity]. rewrite IH.
    destruct (mapM g l1); cbn [bind]; [|reflexivity].
    destruct (mapM g l2); reflexivity.
Qed.

Lemma rls_profiles (d : db) (uid : option uuid) (p : Profile.row) :
  rls_using profiles_policies SELECT d uid p = uid_is uid (Profile.id p) /\
  rls_using profiles_policies UPDATE d uid p = uid_is uid (Profile.id p) /\
  rls_with_check profiles_policies UPDATE d uid p = uid_is uid (Profile.id p).
Proof.
  repeat split; cbn; rewrite ?orb_false_r; reflexivity.
Qed.

Lemma trimmed_or_null_shown (x : string) :
  Dashboard.or_empty (Dashboard.trimmed_or_null x) = trim x.
Proof.
  unfold Dashboard.trimmed_or_null.
  destruct (String.eqb (trim x) EmptyString) eqn:H; [|reflexivity].
  apply String.eqb_eq in H. rewrite H. reflexivity.
Qed.

(** X16.  Saving the profile and reading it back: for a signed-in user
    with one profile row, handleSaveProfile succeeds, rewrites that row
    only (each field trimmed, or NULL when blank; updated_at refreshed;
    created_at kept), leaves every other profile and the rest of the
    database as they were, and the next fetch shows the trimmed inputs
    in the form.  A caller other than the owner, an administrator
    included, changes no profile. *)
Theorem profile_saved_and_read_back (e : env) (u : uuid)
  (fullName phoneNumber idDocument : string) (s : account_db)
  (l1 l2 : list Profile.row) (p : Profile.row) :
  profiles s = l1 ++ p :: l2 ->
  Profile.id p = u ->
  forallb (fun x => negb (Z.eqb (Profile.id x) u)) (l1 ++ l2) = true ->
  let p' := Profile.mk u (Dashboard.trimmed_or_null fullName)
              (Dashboard.trimmed_or_null phoneNumber)
              (Dashboard.trimmed_or_null idDocument) (Profile.created_at p) (now e) in
  Dashboard.handleSaveProfile e (Some u) fullName phoneNumber idDocument s
  = (Dashboard.toast "Profil mis à jour", mkaccounts (core s) (l1 ++ p' :: l2)) /\
  Dashboard.fetchProfile (Some u) (mkaccounts (core s) (l1 ++ p' :: l2))
  = Some (p', Dashboard.mkForm (trim fullName) (trim phoneNumber) (trim idDocument)) /\
  (forall caller a b c,
      uid_is caller u = false ->
      update_profile e caller u a b c s = Ok s).
Proof.
  intros Hs Hp Hother p'. subst p'.
  destruct (forallb_app_inv _ _ _ Hother) as [H1 H2].
  assert (Hskip : forall caller target a b c l,
             forallb (fun x => negb (Z.eqb (Profile.id x) target &&
                                     uid_is caller (Profile.id x))) l = true ->
             mapM (fun q =>
                     if Z.eqb (Profile.id q) target &&
                        rls_using profiles_policies SELECT (core s) caller q &&
                        rls_using profiles_policies UPDATE (core s) caller q
                     then
                       let NEW := update_updated_at_column e
                                    (Profile.mk (Profile.id q) a b c (Profile.created_at q)
                                       (Profile.updated_at q)) in
                       '_ <- guard (rls_with_check profiles_policies UPDATE (core s) caller NEW)
                              rls_violation ;;
                       Ok NEW
                     else Ok q) l = Ok l).
  { intros caller target a b c l Hl. apply mapM_same. intros q Hq.
    rewrite forallb_forall in Hl. specialize (Hl q Hq). apply negb_true_iff in Hl.
    destruct (rls_profiles (core s) caller q) as (-> & -> & _).
    destruct (Z.eqb (Profile.id q) target); cbn [andb] in *; [rewrite Hl|]; reflexivity. }
  split; [|split].
  - unfold Dashboard.handleSaveProfile, update_profile. rewrite Hs, mapM_app.
    rewrite Hskip.
    2:{ revert H1. apply forallb_impl. intros x Hx. apply negb_true_iff in Hx.
        rewrite Hx. reflexivity. }
    cbn [bind mapM].
    destruct (rls_profiles (core s) (Some u) p) as (-> & -> & _).
    rewrite Hp. cbn [uid_is]. rewrite Z.eqb_refl. cbn [andb].
    match goal with
    | |- context [rls_with_check profiles_policies UPDATE (core s) (Some u) ?row] =>
        destruct (rls_profiles (core s) (Some u) row) as (_ & _ & ->)
    end.
    cbn [update_updated_at_column set_updated_at profile_timestamped Profile.id uid_is].
    rewrite Z.eqb_refl. cbn [guard bind].
    rewrite Hskip.
    2:{ revert H2. apply forallb_impl. intros x Hx. apply negb_true_iff in Hx.
        rewrite Hx. reflexivity. }
    cbn [bind]. reflexivity.
  - unfold Dashboard.fetchProfile. cbn [profiles core].
    rewrite filter_app. cbn [filter].
    match goal with
    | |- context [rls_using profiles_policies SELECT (core s) (Some u) ?row] =>
        destruct (rls_profiles (core s) (Some u) row) as (-> & _)
    end.
    cbn [Profile.id uid_is]. rewrite Z.eqb_refl. cbn [andb].
    rewrite (filter_none _ l1), (filter_none _ l2).
    + cbn [app Track.maybeSingle Profile.full_name Profile.phone_number
           Profile.id_document].
      rewrite !trimmed_or_null_shown. reflexivity.
    + revert H2. apply forallb_impl. intros x Hx. apply negb_true_iff in Hx.
      rewrite Hx, andb_false_r. reflexivity.
    + revert H1. apply forallb_impl. intros x Hx. apply negb_true_iff in Hx.
      rewrite Hx, andb_false_r. reflexivity.
  - intros caller a b c Hcaller. unfold update_profile.
    rewrite Hskip; [destruct s; reflexivity|].
    apply forallb_forall. intros x _.
    destruct (Z.eqb (Profile.id x) u) eqn:Hx; [|reflexivity].
    apply Z.eqb_eq in Hx. rewrite Hx, Hcaller. reflexivity.
Qed.

Lemma profile_saved_and_read_back_witness :
  Dashboard.fetchProfile (Some 1)
    (snd (Dashboard.handleSaveProfile Sample.env2 (Some 1) "  Awa Ndiaye " "   " "CNI 42"
            (mkaccounts Sample.db0
               [Profile.mk 2 None None None 0 0; Profile.mk 1 None None None 0 0])))
  = Some (Profile.mk 1 (Some "Awa Ndiaye"%string) None (Some "CNI 42"%string) 0 2000,
          Dashboard.mkForm "Awa Ndiaye" EmptyString "CNI 42").
Proof.
  destruct (profile_saved_and_read_back Sample.env2 1 "  Awa Ndiaye " "   " "CNI 42"
              (mkaccounts Sample.db0
                 [Profile.mk 2 None None None 0 0; Profile.mk 1 None None None 0 0])
              [Profile.mk 2 None None None 0 0] [] (Profile.mk 1 None None None 0 0)
              eq_refl eq_refl eq_refl) as (Hsave & Hfetch & _).
  refine (eq_trans _ Hfetch).
  exact (f_equal (fun x => Dashboard.fetchProfile (Some 1) (snd x)) Hsave).
Defined.

(** ** History and current status *)

Lemma last_opt_snoc {A : Type} (l : list A) (a : A) : last_opt (l ++ [a]) = Some a.
Proof.
  unfold last_opt. rewrite fold_left_app. reflexivity.
Qed.

Lemma primary_key_split (l : list Reservation.row) (r : Reservation.row) :
  NoDup (map Reservation.id l) -> In r l ->
  exists l1 l2,
    l = l1 ++ r :: l2 /\
    forallb (fun x => negb (Z.eqb (Reservation.id x) (Reservation.id r))) (l1 ++ l2) = true.
Proof.
  intros Hnd Hin. apply in_split in Hin as (l1 & l2 & ->).
  exists l1, l2. split; [reflexivity|].
  rewrite map_app in Hnd. cbn [map] in Hnd. apply NoDup_remove_2 in Hnd.
  apply forallb_forall. intros x Hx. apply negb_true_iff, Z.eqb_neq. intros Heq.
  apply Hnd. rewrite <- map_app, <- Heq. apply in_map. exact Hx.
Qed.

Lemma admin_status_step_keeps_history (d d' : db) :
  NoDup (map Reservation.id (reservations d)) ->
  history_tracks_status d ->
  admin_status_step d d' ->
  history_tracks_status d' /\
  map Reservation.id (reservations d') = map Reservation.id (reservations d).
Proof.
  intros Hnd Hinv (e & uid & rid & s & Hadmin & Hfresh & Hrun).
  unfold AdminDashboard.handleUpdateStatus in Hrun.
  destruct (existsb (fun x => Z.eqb (Reservation.id x) rid) (reservations d)) eqn:Hex.
  - apply existsb_exists in Hex as (r & Hin & Hid). apply Z.eqb_eq in Hid. subst rid.
    destruct (primary_key_split _ _ Hnd Hin) as (l1 & l2 & Hd & Hother).
    destruct (shipment_status_eqb (Reservation.status r) s) eqn:Hs.
    + apply shipment_status_eqb_eq in Hs. subst s.
      rewrite (update_status_same e uid d l1 l2 r Hadmin Hd Hother) in Hrun.
      injection Hrun as <-. cbn [reservations]. split.
      * intros x h Hx Hh. unfold last_history in Hh. cbn [status_history] in Hh.
        apply in_app_or in Hx as [Hx|[<-|Hx]].
        -- apply Hinv; [rewrite Hd; apply in_or_app; left; exact Hx|exact Hh].
        -- apply (Hinv r h); [rewrite Hd; apply in_or_app; right; left; reflexivity|].
           exact Hh.
        -- apply Hinv; [rewrite Hd; apply in_or_app; right; right; exact Hx|exact Hh].
      * rewrite Hd, !map_app. reflexivity.
    + assert (Hneq : Reservation.status r <> s).
      { intros H. apply shipment_status_eqb_eq in H. congruence. }
      rewrite (update_status_changed e uid d l1 l2 r Hadmin Hd Hother s Hfresh Hneq)
        in Hrun.
      injection Hrun as <-. cbn [reservations]. split.
      * destruct (forallb_app_inv _ _ _ Hother) as [H1 H2].
        assert (Helse : forall x, Z.eqb (Reservation.id x) (Reservation.id r) = false ->
                   forall h, last_opt
                               (filter (fun h0 => Z.eqb (StatusHistory.reservation_id h0)
                                                    (Reservation.id x))
                                  (status_history d
                                   ++ [StatusHistory.mk (gen_random_uuid e)
                                         (Reservation.id r) s None (now e)])) = Some h ->
                             last_history d (Reservation.id x) = Some h).
        { intros x Hx h. rewrite filter_app. cbn [filter StatusHistory.reservation_id].
          rewrite Z.eqb_sym, Hx, app_nil_r. auto. }
        intros x h Hx Hh. unfold last_history in Hh. cbn [status_history] in Hh.
        apply in_app_or in Hx as [Hx|[<-|Hx]].
        -- rewrite forallb_forall in H1. specialize (H1 x Hx). apply negb_true_iff in H1.
           apply Hinv; [rewrite Hd; apply in_or_app; left; exact Hx|].
           exact (Helse x H1 h Hh).
        -- cbn [Reservation.id Reservation.with_updated_at
                Reservation.with_status_updated_at Reservation.with_status] in Hh.
           rewrite filter_app in Hh. cbn [filter StatusHistory.reservation_id] in Hh.
           rewrite Z.eqb_refl, last_opt_snoc in Hh. injection Hh as <-. reflexivity.
        -- rewrite forallb_forall in H2. specialize (H2 x Hx). apply negb_true_iff in H2.
           apply Hinv; [rewrite Hd; apply in_or_app; right; right; exact Hx|].
           exact (Helse x H2 h Hh).
      * rewrite Hd, !map_app. reflexivity.
  - apply existsb_false_forallb in Hex.
    unfold update_reservations_status in Hrun.
    rewrite (update_rows_skip _ _ _ _ _ _ Hex) in Hrun. cbn [bind] in Hrun.
    rewrite with_reservations_same in Hrun. injection Hrun as <-. auto.
Qed.

(** X17.  With distinct reservation ids, any sequence of status changes
    made by administrators (jumps and steps back included, each with a
    fresh history id) keeps the history in step with the status: if
    beforehand the latest history row of every reservation that has
    history shows its current status, the same holds afterwards. *)
Theorem latest_history_row_shows_current_status (d d' : db) :
  NoDup (map Reservation.id (reservations d)) ->
  history_tracks_status d ->
  admin_status_run d d' ->
  history_tracks_status d'.
Proof.
  intros Hnd Hinv Hrun.
  assert (H : history_tracks_status d' /\
              map Reservation.id (reservations d') = map Reservation.id (reservations d)).
  { induction Hrun as [|d d1 d2 _ IH Hstep]; [auto|].
    destruct (IH Hnd Hinv) as [Hinv1 Hids1].
    destruct (admin_status_step_keeps_history d1 d2) as [Hinv2 Hids2];
      [rewrite Hids1; exact Hnd|exact Hinv1|exact Hstep|].
    split; [exact Hinv2|congruence]. }
  exact (proj1 H).
Qed.

Lemma sample_db1_history : history_tracks_status Sample.db1.
Proof.
  intros r h _ H. discriminate H.
Qed.

Lemma sample_status_run :
  admin_status_run Sample.db1
    (snd (AdminDashboard.handleUpdateStatus Sample.env3 (Some 9) (Some 501) received_at_origin
            (snd (AdminDashboard.handleUpdateStatus Sample.env2 (Some 9) (Some 501) delivered
                    Sample.db1)))).
Proof.
  eapply admin_status_run_step.
  - eapply admin_status_run_step; [apply admin_status_run_refl|].
    exists Sample.env2, (Some 9), 501, delivered. repeat split; reflexivity.
  - exists Sample.env3, (Some 9), 501, received_at_origin. repeat split; reflexivity.
Qed.

Lemma latest_history_row_shows_current_status_witness :
  history_tracks_status
    (snd (AdminDashboard.handleUpdateStatus Sample.env3 (Some 9) (Some 501) received_at_origin
            (snd (AdminDashboard.handleUpdateStatus Sample.env2 (Some 9) (Some 501) delivered
                    Sample.db1)))).
Proof.
  apply (latest_history_row_shows_current_status Sample.db1).
  - cbn. repeat constructor. intros [].
  - exact sample_db1_history.
  - exact sample_status_run.
Defined.
